(** * go-acht: the CHIP-8 interpreter core of [internal/chip8/chip8.go]

    A shallow embedding of the machine state, the decoder, the instruction
    handlers, the cycle engine and the ROM loader, followed by the
    properties of the specification that are settled against them.

    Conventions of the embedding:
    - a Go [uintN] is a [Z] in [0, 2^N); every arithmetic operation that can
      leave that range is written with its wrap-around ([u8], [u16]);
    - a Go fixed-size array is a [list] whose length is fixed by the
      well-formedness predicate [wf]; indexing goes through [load] and
      [store], which return [None] where Go panics with
      "index out of range";
    - a handler [func (c8 *Chip8) opXXXX()] is a function
      [Chip8 -> option Chip8]; [None] is a run-time panic. *)

From Stdlib Require Import ZArith Lia Bool String.
From stdpp Require Import base option list gmap.

Local Open Scope Z_scope.

(** ** Fixed-width unsigned arithmetic *)

Definition u8 (z : Z) : Z := z mod 256.
Definition u16 (z : Z) : Z := z mod 65536.

(** ** Arrays with Go's bounds check *)

Definition load {A} (a : list A) (i : Z) : option A := a !! Z.to_nat i.

Definition store {A} (a : list A) (i : Z) (v : A) : option (list A) :=
  if decide (Z.to_nat i < length a)%nat then Some (<[Z.to_nat i := v]> a) else None.

(** [for i := lo; i < lo + n; i++ { body }] with a body that may panic. *)
Fixpoint forRange {S} (lo : Z) (n : nat) (body : Z -> S -> option S) (s : S) : option S :=
  match n with
  | O => Some s
  | S n' => s' ← body lo s; forRange (lo + 1) n' body s'
  end.

(** ** Constants *)

Definition startAddress : Z := 0x200.
Definition fontStartAddress : Z := 0x50.
Definition displayWidth : Z := 64.
Definition displayHeight : Z := 32.
Definition memorySize : Z := 4096.

Definition fontSet : list Z :=
  [ 0xF0; 0x90; 0x90; 0x90; 0xF0;
    0x20; 0x60; 0x20; 0x20; 0x70;
    0xF0; 0x10; 0xF0; 0x80; 0xF0;
    0xF0; 0x10; 0xF0; 0x10; 0xF0;
    0x90; 0x90; 0xF0; 0x10; 0x10;
    0xF0; 0x80; 0xF0; 0x10; 0xF0;
    0xF0; 0x80; 0xF0; 0x90; 0xF0;
    0xF0; 0x10; 0x20; 0x40; 0x40;
    0xF0; 0x90; 0xF0; 0x90; 0xF0;
    0xF0; 0x90; 0xF0; 0x10; 0xF0;
    0xF0; 0x90; 0xF0; 0x90; 0x90;
    0xE0; 0x90; 0xE0; 0x90; 0xE0;
    0xF0; 0x80; 0x80; 0x80; 0xF0;
    0xE0; 0x90; 0x90; 0x90; 0xE0;
    0xF0; 0x80; 0xF0; 0x80; 0xF0;
    0xF0; 0x80; 0xF0; 0x80; 0x80 ].

(** ** Colour profiles *)

Record RGBA := mkRGBA { R : Z; G : Z; B : Z; A : Z }.

Record colorProfile := mkColorProfile { foreground : RGBA; background : RGBA }.

Definition profiles : list (string * colorProfile) :=
  [ ("black-white"%string, mkColorProfile (mkRGBA 0 0 0 255) (mkRGBA 255 255 255 255));
    ("night-sky"%string, mkColorProfile (mkRGBA 0 0 68 255) (mkRGBA 255 255 204 255));
    ("console"%string, mkColorProfile (mkRGBA 0 0 0 255) (mkRGBA 34 238 34 255));
    ("honey"%string, mkColorProfile (mkRGBA 153 102 0 255) (mkRGBA 255 204 0 255)) ].

Fixpoint profiles_lookup (tbl : list (string * colorProfile)) (name : string) : option colorProfile :=
  match tbl with
  | [] => None
  | (k, p) :: rest => if String.eqb k name then Some p else profiles_lookup rest name
  end.

(** The zero value of [colorProfile], which a missing map key yields. *)
Definition zeroProfile : colorProfile := mkColorProfile (mkRGBA 0 0 0 0) (mkRGBA 0 0 0 0).

(** ** Machine state

    The fields of [type Chip8 struct], in the order of the source.  The
    field [colorProfile] is called [activeProfile] here, its name being
    taken by the type; [Input] and [Renderer] are the external capabilities
    and appear as the events of the run loop. *)

Record Chip8 := mkChip8 {
  registers : list Z;          (* [16]uint8 *)
  memory : list Z;             (* [4096]uint8 *)
  programCounter : Z;          (* uint16 *)
  indexRegister : Z;           (* uint16 *)
  callStack : list Z;          (* [16]uint16 *)
  stackPointer : Z;            (* uint8 *)
  opcode : Z;                  (* uint16 *)
  keyPad : list Z;             (* [16]uint8 *)
  delayTimer : Z;              (* uint8 *)
  soundTimer : Z;              (* uint8 *)
  display : list (list bool);  (* [32][64]bool *)
  scaleFactor : Z;             (* int32 *)
  running : bool;
  activeProfile : colorProfile
}.

Definition set_registers (v : list Z) (c : Chip8) : Chip8 :=
  mkChip8 v (memory c) (programCounter c) (indexRegister c) (callStack c) (stackPointer c)
    (opcode c) (keyPad c) (delayTimer c) (soundTimer c) (display c) (scaleFactor c)
    (running c) (activeProfile c).
Definition set_memory (v : list Z) (c : Chip8) : Chip8 :=
  mkChip8 (registers c) v (programCounter c) (indexRegister c) (callStack c) (stackPointer c)
    (opcode c) (keyPad c) (delayTimer c) (soundTimer c) (display c) (scaleFactor c)
    (running c) (activeProfile c).
Definition set_programCounter (v : Z) (c : Chip8) : Chip8 :=
  mkChip8 (registers c) (memory c) v (indexRegister c) (callStack c) (stackPointer c)
    (opcode c) (keyPad c) (delayTimer c) (soundTimer c) (display c) (scaleFactor c)
    (running c) (activeProfile c).
Definition set_indexRegister (v : Z) (c : Chip8) : Chip8 :=
  mkChip8 (registers c) (memory c) (programCounter c) v (callStack c) (stackPointer c)
    (opcode c) (keyPad c) (delayTimer c) (soundTimer c) (display c) (scaleFactor c)
    (running c) (activeProfile c).
Definition set_callStack (v : list Z) (c : Chip8) : Chip8 :=
  mkChip8 (registers c) (memory c) (programCounter c) (indexRegister c) v (stackPointer c)
    (opcode c) (keyPad c) (delayTimer c) (soundTimer c) (display c) (scaleFactor c)
    (running c) (activeProfile c).
Definition set_stackPointer (v : Z) (c : Chip8) : Chip8 :=
  mkChip8 (registers c) (memory c) (programCounter c) (indexRegister c) (callStack c) v
    (opcode c) (keyPad c) (delayTimer c) (soundTimer c) (display c) (scaleFactor c)
    (running c) (activeProfile c).
Definition set_opcode (v : Z) (c : Chip8) : Chip8 :=
  mkChip8 (registers c) (memory c) (programCounter c) (indexRegister c) (callStack c)
    (stackPointer c) v (keyPad c) (delayTimer c) (soundTimer c) (display c) (scaleFactor c)
    (running c) (activeProfile c).
Definition set_keyPad (v : list Z) (c : Chip8) : Chip8 :=
  mkChip8 (registers c) (memory c) (programCounter c) (indexRegister c) (callStack c)
    (stackPointer c) (opcode c) v (delayTimer c) (soundTimer c) (display c) (scaleFactor c)
    (running c) (activeProfile c).
Definition set_delayTimer (v : Z) (c : Chip8) : Chip8 :=
  mkChip8 (registers c) (memory c) (programCounter c) (indexRegister c) (callStack c)
    (stackPointer c) (opcode c) (keyPad c) v (soundTimer c) (display c) (scaleFactor c)
    (running c) (activeProfile c).
Definition set_soundTimer (v : Z) (c : Chip8) : Chip8 :=
  mkChip8 (registers c) (memory c) (programCounter c) (indexRegister c) (callStack c)
    (stackPointer c) (opcode c) (keyPad c) (delayTimer c) v (display c) (scaleFactor c)
    (running c) (activeProfile c).
Definition set_display (v : list (list bool)) (c : Chip8) : Chip8 :=
  mkChip8 (registers c) (memory c) (programCounter c) (indexRegister c) (callStack c)
    (stackPointer c) (opcode c) (keyPad c) (delayTimer c) (soundTimer c) v (scaleFactor c)
    (running c) (activeProfile c).
Definition set_scaleFactor (v : Z) (c : Chip8) : Chip8 :=
  mkChip8 (registers c) (memory c) (programCounter c) (indexRegister c) (callStack c)
    (stackPointer c) (opcode c) (keyPad c) (delayTimer c) (soundTimer c) (display c) v
    (running c) (activeProfile c).
Definition set_running (v : bool) (c : Chip8) : Chip8 :=
  mkChip8 (registers c) (memory c) (programCounter c) (indexRegister c) (callStack c)
    (stackPointer c) (opcode c) (keyPad c) (delayTimer c) (soundTimer c) (display c)
    (scaleFactor c) v (activeProfile c).
Definition set_activeProfile (v : colorProfile) (c : Chip8) : Chip8 :=
  mkChip8 (registers c) (memory c) (programCounter c) (indexRegister c) (callStack c)
    (stackPointer c) (opcode c) (keyPad c) (delayTimer c) (soundTimer c) (display c)
    (scaleFactor c) (running c) v.

(** The zero value [Chip8{}]. *)
Definition zeroChip8 : Chip8 :=
  mkChip8 (replicate 16 0) (replicate 4096 0) 0 0 (replicate 16 0) 0 0 (replicate 16 0) 0 0
    (replicate 32 (replicate 64 false)) 0 false zeroProfile.

(** Operand fields of the current opcode. *)
Definition opX (c : Chip8) : Z := Z.shiftr (Z.land (opcode c) 0x0F00) 8.
Definition opY (c : Chip8) : Z := Z.shiftr (Z.land (opcode c) 0x00F0) 4.
Definition opN (c : Chip8) : Z := Z.land (opcode c) 0x000F.
Definition opKK (c : Chip8) : Z := u8 (Z.land (opcode c) 0x00FF).
Definition opNNN (c : Chip8) : Z := Z.land (opcode c) 0x0FFF.

(** ** Decoder *)

Definition decodeOpcode (c8 : Chip8) : Z :=
  match Z.land (opcode c8) 0xF000 with
  | 0x0000 => Z.land (opcode c8) 0x00FF
  | 0x8000 => Z.land (opcode c8) 0xF00F
  | 0xE000 | 0xF000 => Z.land (opcode c8) 0xF0FF
  | _ => Z.land (opcode c8) 0xF000
  end.

(** ** Instruction handlers *)

(** [c8.programCounter += 2] *)
Definition skip (c8 : Chip8) : Chip8 :=
  set_programCounter (u16 (programCounter c8 + 2)) c8.

(** [c8.registers[i] = v] *)
Definition setReg (i v : Z) (c8 : Chip8) : option Chip8 :=
  regs ← store (registers c8) i v; Some (set_registers regs c8).

Definition op00E0 (c8 : Chip8) : option Chip8 :=
  Some (set_display (replicate 32 (replicate 64 false)) c8).

Definition op00EE (c8 : Chip8) : option Chip8 :=
  let c8 := set_stackPointer (u8 (stackPointer c8 - 1)) c8 in
  pc ← load (callStack c8) (stackPointer c8);
  Some (set_programCounter pc c8).

Definition op1NNN (c8 : Chip8) : option Chip8 :=
  let address := opNNN c8 in
  Some (set_programCounter address c8).

Definition op2NNN (c8 : Chip8) : option Chip8 :=
  let address := opNNN c8 in
  cs ← store (callStack c8) (stackPointer c8) (programCounter c8);
  let c8 := set_callStack cs c8 in
  let c8 := set_stackPointer (u8 (stackPointer c8 + 1)) c8 in
  Some (set_programCounter address c8).

Definition op3XKK (c8 : Chip8) : option Chip8 :=
  let vx := opX c8 in
  let value := opKK c8 in
  rx ← load (registers c8) vx;
  Some (if rx =? value then skip c8 else c8).

Definition op4XKK (c8 : Chip8) : option Chip8 :=
  let vx := opX c8 in
  let value := opKK c8 in
  rx ← load (registers c8) vx;
  Some (if negb (rx =? value) then skip c8 else c8).

Definition op5XY0 (c8 : Chip8) : option Chip8 :=
  let vx := opX c8 in
  let vy := opY c8 in
  rx ← load (registers c8) vx;
  ry ← load (registers c8) vy;
  Some (if rx =? ry then skip c8 else c8).

Definition op6XKK (c8 : Chip8) : option Chip8 :=
  let vx := opX c8 in
  let value := opKK c8 in
  setReg vx value c8.

Definition op7XKK (c8 : Chip8) : option Chip8 :=
  let vx := opX c8 in
  let value := opKK c8 in
  rx ← load (registers c8) vx;
  setReg vx (u8 (rx + value)) c8.

Definition op8XY0 (c8 : Chip8) : option Chip8 :=
  let vx := opX c8 in
  let vy := opY c8 in
  ry ← load (registers c8) vy;
  setReg vx ry c8.

Definition op8XY1 (c8 : Chip8) : option Chip8 :=
  let vx := opX c8 in
  let vy := opY c8 in
  rx ← load (registers c8) vx;
  ry ← load (registers c8) vy;
  setReg vx (Z.lor rx ry) c8.

Definition op8XY2 (c8 : Chip8) : option Chip8 :=
  let vx := opX c8 in
  let vy := opY c8 in
  rx ← load (registers c8) vx;
  ry ← load (registers c8) vy;
  setReg vx (Z.land rx ry) c8.

Definition op8XY3 (c8 : Chip8) : option Chip8 :=
  let vx := opX c8 in
  let vy := opY c8 in
  rx ← load (registers c8) vx;
  ry ← load (registers c8) vy;
  setReg vx (Z.lxor rx ry) c8.

Definition op8XY4 (c8 : Chip8) : option Chip8 :=
  let vx := opX c8 in
  let vy := opY c8 in
  rx ← load (registers c8) vx;
  ry ← load (registers c8) vy;
  let result := u16 (rx + ry) in
  c8 ← setReg 0xF (if result >? 255 then 1 else 0) c8;
  setReg vx (u8 (Z.land result 0xFF)) c8.

Definition op8XY5 (c8 : Chip8) : option Chip8 :=
  let vx := opX c8 in
  let vy := opY c8 in
  rx ← load (registers c8) vx;
  ry ← load (registers c8) vy;
  c8 ← setReg 0xF (if rx >? ry then 1 else 0) c8;
  rx ← load (registers c8) vx;
  ry ← load (registers c8) vy;
  setReg vx (u8 (rx - ry)) c8.

Definition op8XY6 (c8 : Chip8) : option Chip8 :=
  let vx := opX c8 in
  rx ← load (registers c8) vx;
  c8 ← setReg 0xF (Z.land rx 0x1) c8;
  rx ← load (registers c8) vx;
  setReg vx (Z.shiftr rx 1) c8.

Definition op8XY7 (c8 : Chip8) : option Chip8 :=
  let vx := opX c8 in
  let vy := opY c8 in
  ry ← load (registers c8) vy;
  rx ← load (registers c8) vx;
  c8 ← setReg 0xF (if ry >? rx then 1 else 0) c8;
  ry ← load (registers c8) vy;
  rx ← load (registers c8) vx;
  setReg vx (u8 (ry - rx)) c8.

Definition op8XYE (c8 : Chip8) : option Chip8 :=
  let vx := opX c8 in
  rx ← load (registers c8) vx;
  c8 ← setReg 0xF (Z.shiftr (Z.land rx 0x80) 7) c8;
  rx ← load (registers c8) vx;
  setReg vx (u8 (Z.shiftl rx 1)) c8.

Definition op9XY0 (c8 : Chip8) : option Chip8 :=
  let vx := opX c8 in
  let vy := opY c8 in
  rx ← load (registers c8) vx;
  ry ← load (registers c8) vy;
  Some (if negb (rx =? ry) then skip c8 else c8).

Definition opANNN (c8 : Chip8) : option Chip8 :=
  let address := opNNN c8 in
  Some (set_indexRegister address c8).

Definition opBNNN (c8 : Chip8) : option Chip8 :=
  let address := opNNN c8 in
  r0 ← load (registers c8) 0x0;
  Some (set_programCounter (u16 (r0 + address)) c8).

(** [rnd] is the value that [rand.Intn(256)] returns at this call. *)
Definition opCXKK (rnd : Z) (c8 : Chip8) : option Chip8 :=
  let vx := opX c8 in
  let value := opKK c8 in
  setReg vx (Z.land (u8 rnd) value) c8.

(** The body of the inner loop of [opDXYN], for sprite row [j], bit [i]. *)
Definition drawBit (xPos yPos pixel j i : Z) (c8 : Chip8) : option Chip8 :=
  if negb (Z.land pixel (Z.shiftr 0x80 i) =? 0) then
    let r := u8 (yPos + u8 j) mod displayHeight in
    let c := u8 (xPos + u8 i) mod displayWidth in
    row ← load (display c8) r;
    cell ← load (row : list bool) c;
    c8 ← (if (cell : bool) then setReg 0xF 1 c8 else Some c8);
    row ← load (display c8) r;
    cell ← load (row : list bool) c;
    row' ← store (row : list bool) c (negb cell);
    d ← store (display c8) r row';
    Some (set_display d c8)
  else Some c8.

(** The body of the outer loop of [opDXYN], for sprite row [j]. *)
Definition drawRow (xPos yPos j : Z) (c8 : Chip8) : option Chip8 :=
  pixel ← load (memory c8) (u16 (indexRegister c8 + j));
  forRange 0 8 (drawBit xPos yPos pixel j) c8.

Definition opDXYN (c8 : Chip8) : option Chip8 :=
  xPos ← load (registers c8) (opX c8);
  yPos ← load (registers c8) (opY c8);
  let height := opN c8 in
  c8 ← setReg 0xF 0 c8;
  forRange 0 (Z.to_nat height) (drawRow xPos yPos) c8.

Definition opEX9E (c8 : Chip8) : option Chip8 :=
  let vx := opX c8 in
  key ← load (registers c8) vx;
  k ← load (keyPad c8) key;
  Some (if k =? 0x1 then skip c8 else c8).

Definition opEXA1 (c8 : Chip8) : option Chip8 :=
  let vx := opX c8 in
  key ← load (registers c8) vx;
  k ← load (keyPad c8) key;
  Some (if k =? 0x0 then skip c8 else c8).

Definition opFX07 (c8 : Chip8) : option Chip8 :=
  let vx := opX c8 in
  setReg vx (delayTimer c8) c8.

(** The loop of [opFX0A]: [for key := range c8.keyPad], carrying [pressed]. *)
Definition scanKey (vx : Z) (key : Z) (st : Chip8 * bool) : option (Chip8 * bool) :=
  let '(c8, pressed) := st in
  k ← load (keyPad c8) key;
  if negb (k =? 0) then
    c8 ← setReg vx (u8 key) c8; Some (c8, true)
  else Some (c8, pressed).

Definition opFX0A (c8 : Chip8) : option Chip8 :=
  let vx := opX c8 in
  '(c8, pressed) ← forRange 0 (length (keyPad c8)) (scanKey vx) (c8, false);
  Some (if negb pressed
        then set_programCounter (u16 (programCounter c8 - 2)) c8
        else c8).

Definition opFX15 (c8 : Chip8) : option Chip8 :=
  let vx := opX c8 in
  rx ← load (registers c8) vx;
  Some (set_delayTimer rx c8).

Definition opFX18 (c8 : Chip8) : option Chip8 :=
  let vx := opX c8 in
  rx ← load (registers c8) vx;
  Some (set_soundTimer rx c8).

Definition opFX1E (c8 : Chip8) : option Chip8 :=
  let vx := opX c8 in
  rx ← load (registers c8) vx;
  Some (set_indexRegister (u16 (indexRegister c8 + rx)) c8).

(** [5 * digit] is a [uint8] product and wraps before it is widened. *)
Definition opFX29 (c8 : Chip8) : option Chip8 :=
  let vx := opX c8 in
  digit ← load (registers c8) vx;
  Some (set_indexRegister (u16 (fontStartAddress + u8 (5 * digit))) c8).

(** [c8.memory[a] = v] *)
Definition setMem (a v : Z) (c8 : Chip8) : option Chip8 :=
  m ← store (memory c8) a v; Some (set_memory m c8).

Definition opFX33 (c8 : Chip8) : option Chip8 :=
  let vx := opX c8 in
  value ← load (registers c8) vx;
  c8 ← setMem (u16 (indexRegister c8 + 2)) (value mod 10) c8;
  let value := value / 10 in
  c8 ← setMem (u16 (indexRegister c8 + 1)) (value mod 10) c8;
  let value := value / 10 in
  setMem (indexRegister c8) (value mod 10) c8.

Definition dumpReg (i : Z) (c8 : Chip8) : option Chip8 :=
  r ← load (registers c8) i;
  setMem (u16 (indexRegister c8 + u16 i)) r c8.

(** [for i := 0; uint8(i) <= vx; i++] runs for i = 0..vx, since vx <= 15. *)
Definition opFX55 (c8 : Chip8) : option Chip8 :=
  let vx := opX c8 in
  c8 ← forRange 0 (Z.to_nat (vx + 1)) dumpReg c8;
  Some (set_indexRegister (u16 (opX c8 + 1)) c8).

Definition loadReg (i : Z) (c8 : Chip8) : option Chip8 :=
  m ← load (memory c8) (u16 (indexRegister c8 + u16 i));
  setReg i m c8.

Definition opFX65 (c8 : Chip8) : option Chip8 :=
  let vx := opX c8 in
  c8 ← forRange 0 (Z.to_nat (vx + 1)) loadReg c8;
  Some (set_indexRegister (u16 (opX c8 + 1)) c8).

(** ** Dispatch table and cycle engine *)

Definition opcodeHandler : Type := Chip8 -> option Chip8.

Definition dispatchTable (rnd : Z) : gmap Z opcodeHandler :=
  list_to_map
    [ (0x00E0, op00E0); (0x00EE, op00EE); (0x1000, op1NNN); (0x2000, op2NNN);
      (0x3000, op3XKK); (0x4000, op4XKK); (0x5000, op5XY0); (0x6000, op6XKK);
      (0x7000, op7XKK); (0x8000, op8XY0); (0x8001, op8XY1); (0x8002, op8XY2);
      (0x8003, op8XY3); (0x8004, op8XY4); (0x8005, op8XY5); (0x8006, op8XY6);
      (0x8007, op8XY7); (0x800E, op8XYE); (0x9000, op9XY0); (0xA000, opANNN);
      (0xB000, opBNNN); (0xC000, opCXKK rnd); (0xD000, opDXYN); (0xE09E, opEX9E);
      (0xE0A1, opEXA1); (0xF007, opFX07); (0xF00A, opFX0A); (0xF015, opFX15);
      (0xF018, opFX18); (0xF01E, opFX1E); (0xF029, opFX29); (0xF033, opFX33);
      (0xF055, opFX55); (0xF065, opFX65) ].

Definition fetch (c8 : Chip8) : option Chip8 :=
  hi ← load (memory c8) (programCounter c8);
  lo ← load (memory c8) (u16 (programCounter c8 + 1));
  Some (set_opcode (Z.lor (u16 (Z.shiftl hi 8)) lo) c8).

(** One CPU cycle.  An opcode without a handler is reported on the console
    and otherwise ignored. *)
Definition cycle (rnd : Z) (c8 : Chip8) : option Chip8 :=
  c8 ← fetch c8;
  let c8 := skip c8 in
  match dispatchTable rnd !! decodeOpcode c8 with
  | Some handler => handler c8
  | None => Some c8
  end.

(** ** ROM loading, initialisation and the run loop *)

(** The error values built by [loadRom] and [Run]; [%w] wraps its cause. *)
Inductive error : Type :=
  | ErrReadFile (path : string)
  | ErrCouldNotOpenRom (cause : error)
  | ErrRomTooLarge (size available : Z)
  | ErrFailedToLoadRom (cause : error).

(** The file system as [os.ReadFile] sees it: the bytes of a file, or
    [None] where the read fails. *)
Definition fileSystem : Type := string -> option (list Z).

(** Go's [copy(dst[off:], src)]: copies [min (len dst - off) (len src)]
    elements and leaves the rest of [dst] as it is. *)
Definition copy (dst : list Z) (off : nat) (src : list Z) : list Z :=
  let n := Nat.min (length dst - off) (length src) in
  take off dst ++ take n src ++ drop (off + n) dst.

(** [loadRom] mutates the machine through its pointer receiver; the
    embedding returns the machine after the call next to the error. *)
Definition loadRom (fs : fileSystem) (pathToRom : string) (c8 : Chip8) : Chip8 * option error :=
  match fs pathToRom with
  | None => (c8, Some (ErrCouldNotOpenRom (ErrReadFile pathToRom)))
  | Some data =>
      if Z.of_nat (length data) >? Z.of_nat (length (memory c8)) - startAddress then
        (c8, Some (ErrRomTooLarge (Z.of_nat (length data))
                     (Z.of_nat (length (memory c8)) - startAddress)))
      else
        (set_memory (copy (memory c8) (Z.to_nat startAddress) data) c8, None)
  end.

Definition SetColorProfile (profileName : string) (c8 : Chip8) : Chip8 :=
  match profiles_lookup profiles profileName with
  | Some profile => set_activeProfile profile c8
  | None =>
      set_activeProfile
        (match profiles_lookup profiles "black-white" with
         | Some p => p
         | None => zeroProfile
         end) c8
  end.

Definition init (scale : Z) (profileName : string) (c8 : Chip8) : Chip8 :=
  let c8 := set_programCounter (u16 startAddress) c8 in
  let c8 := set_scaleFactor scale c8 in
  let c8 := SetColorProfile profileName c8 in
  let c8 := set_memory (copy (memory c8) (Z.to_nat fontStartAddress) fontSet) c8 in
  set_running true c8.

(** What the [select] of the run loop can receive.  A clock tick carries
    what the input capability reports at that moment (the key states it
    writes into [keyPad] and its quit flag) and the random byte that a
    [CXKK] executed in that cycle would draw. *)
Inductive event : Type :=
  | SoundTick
  | DelayTick
  | VideoTick
  | ClockTick (keys : list Z) (quit : bool) (rnd : Z).

(** [draw] hands a copy of the frame buffer to the renderer; the machine
    is not changed. *)
Definition draw (c8 : Chip8) : Chip8 := c8.

Definition updateInput (keys : list Z) (quit : bool) (c8 : Chip8) : Chip8 :=
  let c8 := set_keyPad keys c8 in
  if quit then set_running false c8 else c8.

Definition onEvent (ev : event) (c8 : Chip8) : option Chip8 :=
  match ev with
  | SoundTick =>
      Some (if soundTimer c8 >? 0 then set_soundTimer (u8 (soundTimer c8 - 1)) c8 else c8)
  | DelayTick =>
      Some (if delayTimer c8 >? 0 then set_delayTimer (u8 (delayTimer c8 - 1)) c8 else c8)
  | VideoTick => Some (draw c8)
  | ClockTick keys quit rnd => cycle rnd (updateInput keys quit c8)
  end.

(** [for c8.Running() { select { ... } }] over a finite schedule of
    events; the loop is left when [running] is false (or, in the
    embedding, when the schedule ends). *)
Fixpoint runLoop (schedule : list event) (c8 : Chip8) : option Chip8 :=
  if running c8 then
    match schedule with
    | [] => Some c8
    | ev :: rest => c8' ← onEvent ev c8; runLoop rest c8'
    end
  else Some c8.

(** [Run]: the machine it leaves behind and the returned error; [None] is
    a panic in a cycle.  The schedule is only consulted by the run loop. *)
Definition Run (fs : fileSystem) (schedule : list event)
    (romPath : string) (scale : Z) (profileName : string) (c8 : Chip8)
  : option (Chip8 * option error) :=
  match loadRom fs romPath c8 with
  | (c8, Some err) => Some (c8, Some (ErrFailedToLoadRom err))
  | (c8, None) =>
      let c8 := init scale profileName c8 in
      c8 ← runLoop schedule c8;
      Some (c8, None)
  end.

(** ** Well-formed machines

    The sizes of the arrays and the ranges of the unsigned fields, which Go
    guarantees by the types of [Chip8]. *)

Definition isU8 (z : Z) : bool := (0 <=? z) && (z <? 256).
Definition isU16 (z : Z) : bool := (0 <=? z) && (z <? 65536).

Definition wfb (c8 : Chip8) : bool :=
  (length (registers c8) =? 16)%nat && forallb isU8 (registers c8)
  && (length (memory c8) =? 4096)%nat && forallb isU8 (memory c8)
  && isU16 (programCounter c8) && isU16 (indexRegister c8)
  && (length (callStack c8) =? 16)%nat && forallb isU16 (callStack c8)
  && isU8 (stackPointer c8) && isU16 (opcode c8)
  && (length (keyPad c8) =? 16)%nat && forallb isU8 (keyPad c8)
  && isU8 (delayTimer c8) && isU8 (soundTimer c8)
  && (length (display c8) =? 32)%nat
  && forallb (fun row => (length row =? 64)%nat) (display c8).

Definition wf (c8 : Chip8) : Prop := wfb c8 = true.

(** ** Definitions used to state the properties *)

(** The instruction family of an opcode: its most significant nibble. *)
Definition highNibble (op : Z) : Z := Z.shiftr op 12.

(** The mask that the specification assigns to each family. *)
Definition familyMask (op : Z) : Z :=
  match highNibble op with
  | 0x0 => 0x00FF
  | 0x8 => 0xF00F
  | 0xE | 0xF => 0xF0FF
  | _ => 0xF000
  end.

(** The frame-buffer cell at row [r], column [c]; [None] outside the grid. *)
Definition pixelAt (d : list (list bool)) (r c : Z) : option bool :=
  row ← load d r; load (row : list bool) c.

(** *** Drawing *)

(** A cell of the frame buffer as a boolean (false outside the grid). *)
Definition lit (d : list (list bool)) (r c : Z) : bool :=
  default false (pixelAt d r c).

(** [display[r][c] = !display[r][c]] on a cell inside the grid. *)
Definition toggle (d : list (list bool)) (r c : Z) : list (list bool) :=
  match load d r with
  | Some row =>
      match load row c with
      | Some cell => <[Z.to_nat r := <[Z.to_nat c := negb cell]> row]> d
      | None => d
      end
  | None => d
  end.

(** The byte of sprite row [j]: the memory cell at [I + j]. *)
Definition spriteRow (c8 : Chip8) (j : Z) : Z :=
  default 0 (load (memory c8) (indexRegister c8 + j)).

(** Bit [i] of sprite row [j], counted from the most significant bit of
    the byte ([i = 0]) to the least significant ([i = 7]). *)
Definition spriteBit (c8 : Chip8) (j i : Z) : bool :=
  Z.testbit (spriteRow c8 j) (7 - i).

(** The cell at row [r], column [c] is addressed by a set bit of the
    sprite that [c8] is about to draw at ([x], [y]). *)
Definition drawnOn (c8 : Chip8) (x y r c : Z) : Prop :=
  exists j i,
    0 <= j < opN c8 /\ 0 <= i < 8 /\ spriteBit c8 j i = true /\
    r = (y + j) mod 32 /\ c = (x + i) mod 64.

(** Some cell addressed by a set bit of the sprite is lit in [c8]. *)
Definition collision (c8 : Chip8) (x y : Z) : Prop :=
  exists r c, drawnOn c8 x y r c /\ lit (display c8) r c = true.

(** The test of the inner loop of [opDXYN]: [pixel & (0x80 >> i) != 0]. *)
Definition maskBit (pixel i : Z) : bool :=
  negb (Z.land pixel (Z.shiftr 0x80 i) =? 0).

(** [f] holds somewhere in [lo, lo + n): the shape of [forRange]. *)
Fixpoint anyRange (lo : Z) (n : nat) (f : Z -> bool) : bool :=
  match n with
  | O => false
  | S n' => f lo || anyRange (lo + 1) n' f
  end.

(** Columns [lo, lo + n) of a sprite row with byte [pixel], drawn in
    frame-buffer row [r0] from column [x]: the cells they address, and
    whether one of them is lit in [d]. *)
Definition rowCovers (x r0 pixel lo : Z) (n : nat) (r c : Z) : bool :=
  anyRange lo n (fun i => maskBit pixel i && (r =? r0) && (c =? (x + i) mod 64)).

Definition rowCollides (d : list (list bool)) (x r0 pixel lo : Z) (n : nat) : bool :=
  anyRange lo n (fun i => maskBit pixel i && lit d r0 ((x + i) mod 64)).

(** The same for sprite rows [lo, lo + n) of the sprite of [c8]. *)
Definition spriteCovers (c8 : Chip8) (x y lo : Z) (n : nat) (r c : Z) : bool :=
  anyRange lo n (fun j => rowCovers x ((y + j) mod 32) (spriteRow c8 j) 0 8 r c).

Definition spriteCollides (d : list (list bool)) (c8 : Chip8) (x y lo : Z) (n : nat) : bool :=
  anyRange lo n (fun j => rowCollides d x ((y + j) mod 32) (spriteRow c8 j) 0 8).

(** The dimensions of the frame buffer. *)
Definition dims (d : list (list bool)) : Prop :=
  length d = 32%nat /\ Forall (fun row => length row = 64%nat) d.

(** ** Concrete machines

    Small programs placed in a zero-valued machine, on which the
    properties below are exercised. *)

(** The zero machine with [bytes] at address [a] and the program counter
    at [pc]. *)
Definition machineWith (a : Z) (bytes : list Z) (pc : Z) : Chip8 :=
  set_programCounter pc
    (set_memory (copy (memory zeroChip8) (Z.to_nat a) bytes) zeroChip8).

(** [00E0] at 0x200, on a screen with one lit pixel. *)
Definition clsMachine : Chip8 :=
  set_display (<[3%nat := <[5%nat := true]> (replicate 64 false)]> (display zeroChip8))
    (machineWith 0x200 [0x00; 0xE0] 0x200).

(** [FX0A] with X = 3 at 0x200, and the keypad [keys]. *)
Definition waitKeyMachine (keys : list Z) : Chip8 :=
  set_keyPad keys (machineWith 0x200 [0xF3; 0x0A] 0x200).

Definition noKeys : list Z := replicate 16 0.
(** Keys 2, 7 and 0xB held down. *)
Definition threeKeys : list Z := [0; 0; 1; 0; 0; 0; 0; 1; 0; 0; 0; 1; 0; 0; 0; 0].

(** [2300] (call 0x300) at 0x200 and [00EE] (return) at 0x300, with the
    stack pointer at [sp]. *)
Definition callMachine (sp : Z) : Chip8 :=
  let m := machineWith 0x200 [0x23; 0x00] 0x200 in
  set_stackPointer sp (set_memory (copy (memory m) 0x300 [0x00; 0xEE]) m).

(** A machine about to execute the handler of opcode [op] (fetch done,
    program counter advanced to [pc]) with stack pointer [sp]. *)
Definition handlerMachine (op pc sp : Z) : Chip8 :=
  set_stackPointer sp (set_programCounter pc (set_opcode op zeroChip8)).

(** [handlerMachine] with register 2 holding [v]. *)
Definition regMachine (op v : Z) : Chip8 :=
  set_registers (<[2%nat := v]> (registers zeroChip8)) (handlerMachine op 0x202 0).

(** A machine about to execute the handler of [op], with V0..V2 holding
    0x11, 0x22, 0x33, the bytes 0xA1, 0xB2, 0xC3 at 0x300 and the index
    register at [idx]. *)
Definition indexMachine (op idx : Z) : Chip8 :=
  let m := handlerMachine op 0x202 0 in
  set_indexRegister idx
    (set_registers (copy (registers m) 0 [0x11; 0x22; 0x33])
       (set_memory (copy (memory m) 0x300 [0xA1; 0xB2; 0xC3]) m)).

(** A file system holding one ROM image, at the path "game.ch8". *)
Definition romFs (data : list Z) : fileSystem :=
  fun path => if String.eqb path "game.ch8" then Some data else None.

(** A machine about to execute [D012] (draw 2 rows at (V0, V1)) with
    V0 = 62, V1 = 31, the sprite rows 0xFF and 0x81 at 0x300, the index
    register at [idx] and the pixel at row 31, column 63 lit. *)
Definition drawMachine (idx : Z) : Chip8 :=
  let m := handlerMachine 0xD012 0x202 0 in
  set_indexRegister idx
    (set_display (<[31%nat := <[63%nat := true]> (replicate 64 false)]> (display m))
       (set_registers (copy (registers m) 0 [62; 31])
          (set_memory (copy (memory m) 0x300 [0xFF; 0x81]) m))).

(** A machine about to execute [D011] with V0 = V1 = 0 and the sprite row
    0xFF at 0x300, on an empty screen. *)
Definition drawOnceMachine : Chip8 :=
  let m := handlerMachine 0xD011 0x202 0 in
  set_indexRegister 0x300 (set_memory (copy (memory m) 0x300 [0xFF]) m).

(** ** Further definitions used to state properties *)

(** The fields of the machine. *)
Inductive field : Type :=
  | Fregisters | Fmemory | FprogramCounter | FindexRegister | FcallStack
  | FstackPointer | Fopcode | FkeyPad | FdelayTimer | FsoundTimer | Fdisplay
  | FscaleFactor | Frunning | FactiveProfile.

(** Field [f] has the same content in [c] and [c']. *)
Definition sameField (f : field) (c c' : Chip8) : Prop :=
  match f with
  | Fregisters => registers c' = registers c
  | Fmemory => memory c' = memory c
  | FprogramCounter => programCounter c' = programCounter c
  | FindexRegister => indexRegister c' = indexRegister c
  | FcallStack => callStack c' = callStack c
  | FstackPointer => stackPointer c' = stackPointer c
  | Fopcode => opcode c' = opcode c
  | FkeyPad => keyPad c' = keyPad c
  | FdelayTimer => delayTimer c' = delayTimer c
  | FsoundTimer => soundTimer c' = soundTimer c
  | Fdisplay => display c' = display c
  | FscaleFactor => scaleFactor c' = scaleFactor c
  | Frunning => running c' = running c
  | FactiveProfile => activeProfile c' = activeProfile c
  end.

(** The fields that the handler registered under each dispatch key
    assigns to, read off the handlers. *)
Definition writes (key : Z) : list field :=
  match key with
  | 0x00E0 => [Fdisplay]
  | 0x00EE => [FstackPointer; FprogramCounter]
  | 0x1000 => [FprogramCounter]
  | 0x2000 => [FcallStack; FstackPointer; FprogramCounter]
  | 0x3000 | 0x4000 | 0x5000 | 0x9000 => [FprogramCounter]
  | 0x6000 | 0x7000 => [Fregisters]
  | 0x8000 | 0x8001 | 0x8002 | 0x8003 | 0x8004 | 0x8005 | 0x8006 | 0x8007 | 0x800E =>
      [Fregisters]
  | 0xA000 => [FindexRegister]
  | 0xB000 => [FprogramCounter]
  | 0xC000 => [Fregisters]
  | 0xD000 => [Fregisters; Fdisplay]
  | 0xE09E | 0xE0A1 => [FprogramCounter]
  | 0xF007 => [Fregisters]
  | 0xF00A => [Fregisters; FprogramCounter]
  | 0xF015 => [FdelayTimer]
  | 0xF018 => [FsoundTimer]
  | 0xF01E | 0xF029 => [FindexRegister]
  | 0xF033 => [Fmemory]
  | 0xF055 => [Fmemory; FindexRegister]
  | 0xF065 => [Fregisters; FindexRegister]
  | _ => []
  end.

(** A handler that keeps a well-formed machine well-formed and assigns
    to no field outside [ws]. *)
Definition confined (ws : list field) (handler : opcodeHandler) : Prop :=
  forall c c', wf c -> handler c = Some c' ->
    wf c' /\ forall f, ~ In f ws -> sameField f c c'.

(** What the input capability may report: 16 key states, each a byte. *)
Definition wfKeys (keys : list Z) : Prop :=
  length keys = 16%nat /\ Forall (fun z => 0 <= z < 256) keys.

Definition wfEvent (ev : event) : Prop :=
  match ev with
  | ClockTick keys _ _ => wfKeys keys
  | _ => True
  end.

(** The font table is in place: the bytes of [fontSet] from 0x50 on. *)
Definition fontLoaded (c8 : Chip8) : Prop :=
  take (length fontSet) (drop (Z.to_nat fontStartAddress) (memory c8)) = fontSet.

(** One [cycle] per element of [rnds], each with its random byte. *)
Fixpoint cycles (rnds : list Z) (c8 : Chip8) : option Chip8 :=
  match rnds with
  | [] => Some c8
  | rnd :: rest => c8' ← cycle rnd c8; cycles rest c8'
  end.

(** [decodeOpcode] on the opcode itself. *)
Definition decodeWord (op : Z) : Z :=
  match Z.land op 0xF000 with
  | 0x0000 => Z.land op 0x00FF
  | 0x8000 => Z.land op 0xF00F
  | 0xE000 | 0xF000 => Z.land op 0xF0FF
  | _ => Z.land op 0xF000
  end.

(** The instruction words that have a handler, by family (high nibble),
    low byte and low nibble. *)
Definition validOpcode (op : Z) : bool :=
  let family := op / 4096 in
  let low := op mod 256 in
  let n := op mod 16 in
  if family =? 0x0 then (low =? 0xE0) || (low =? 0xEE)
  else if family =? 0x8 then (n <=? 7) || (n =? 0xE)
  else if family =? 0xE then (low =? 0x9E) || (low =? 0xA1)
  else if family =? 0xF then
    existsb (Z.eqb low) [0x07; 0x0A; 0x15; 0x18; 0x1E; 0x29; 0x33; 0x55; 0x65]
  else true.

(** The keys of the dispatch table. *)
Definition dispatchKeys : list Z :=
  [ 0x00E0; 0x00EE; 0x1000; 0x2000; 0x3000; 0x4000; 0x5000; 0x6000; 0x7000;
    0x8000; 0x8001; 0x8002; 0x8003; 0x8004; 0x8005; 0x8006; 0x8007; 0x800E;
    0x9000; 0xA000; 0xB000; 0xC000; 0xD000; 0xE09E; 0xE0A1; 0xF007; 0xF00A;
    0xF015; 0xF018; 0xF01E; 0xF029; 0xF033; 0xF055; 0xF065 ].

(** The key of the word [op] is a key of the dispatch table. *)
Definition hasHandler (op : Z) : bool :=
  existsb (Z.eqb (decodeWord op)) dispatchKeys.

(** [f] holds everywhere in [lo, lo + n). *)
Fixpoint everyRange (lo : Z) (n : nat) (f : Z -> bool) : bool :=
  match n with
  | O => true
  | S n' => f lo && everyRange (lo + 1) n' f
  end.

(** ** Further concrete machines *)

(** A machine about to execute the handler of [op] with V1 = [v1] and
    V2 = [v2]. *)
Definition aluMachine (op v1 v2 : Z) : Chip8 :=
  let m := handlerMachine op 0x202 0 in
  set_registers (copy (registers m) 1 [v1; v2]) m.

(** [8124] with V1 = 200 and V2 = 100: the sum 300 does not fit a byte. *)
Definition addMachine : Chip8 := aluMachine 0x8124 200 100.

(** [8125] with equal operands. *)
Definition subMachine : Chip8 := aluMachine 0x8125 7 7.

(** [8126] with V1 = 0x81, whose lowest and highest bits are set. *)
Definition shiftMachine : Chip8 := aluMachine 0x8126 0x81 0.

(** [aluMachine] with VF = [vf] as well. *)
Definition flagMachine (op v1 v2 vf : Z) : Chip8 :=
  let m := aluMachine op v1 v2 in
  set_registers (<[15%nat := vf]> (registers m)) m.

(** The word [hi lo] at 0x200, about to be fetched, with V1 = [v1] and
    V2 = [v2]. *)
Definition wordMachine (hi lo v1 v2 : Z) : Chip8 :=
  let m := machineWith 0x200 [hi; lo] 0x200 in
  set_registers (copy (registers m) 1 [v1; v2]) m.

(** [3107] at 0x200 with V1 = 7: skip if V1 = 7. *)
Definition skipMachine : Chip8 := wordMachine 0x31 0x07 7 7.


(** [F233] with V2 = 0x33 = 51 and the index register at 0x300. *)
Definition bcdMachine : Chip8 := indexMachine 0xF233 0x300.

(** A ROM image: V0 := 5; delay timer := V0; V1 := delay timer; jump to
    0x206. *)
Definition demoRom : list Z := [0x60; 0x05; 0xF0; 0x15; 0xF1; 0x07; 0x12; 0x06].

(** Three cycles with no key down, a timer tick and a frame between
    them, then a cycle on which quit is reported, and a tick that is never
    handled. *)
Definition demoSchedule : list event :=
  [ ClockTick noKeys false 0; ClockTick noKeys false 0; DelayTick; VideoTick;
    ClockTick noKeys false 0; ClockTick noKeys true 0; DelayTick ].

(** The machine as [init] leaves it, about to execute the handler of
    [FX29] with X = 2 and V2 = [d]. *)
Definition glyphMachine (d : Z) : Chip8 :=
  let m := init 10 "honey" zeroChip8 in
  set_opcode 0xF229 (set_registers (<[2%nat := d]> (registers m)) m).

(** A running machine with the delay timer at [dt] and the sound timer
    at [st]. *)
Definition timerMachine (dt st : Z) : Chip8 :=
  set_running true (set_soundTimer st (set_delayTimer dt zeroChip8)).

(** * Properties *)

(** ** Arithmetic of the fixed-width types *)

Lemma isU8_range z : isU8 z = true <-> 0 <= z < 256.
Proof. unfold isU8. rewrite andb_true_iff, Z.leb_le, Z.ltb_lt. tauto. Qed.

Lemma isU16_range z : isU16 z = true <-> 0 <= z < 65536.
Proof. unfold isU16. rewrite andb_true_iff, Z.leb_le, Z.ltb_lt. tauto. Qed.

Lemma u8_small z : 0 <= z < 256 -> u8 z = z.
Proof. intros. unfold u8. apply Z.mod_small; lia. Qed.

Lemma u16_small z : 0 <= z < 65536 -> u16 z = z.
Proof. intros. unfold u16. apply Z.mod_small; lia. Qed.

Lemma land_F000 op : 0 <= op < 65536 -> Z.land op 0xF000 = 4096 * (op / 4096).
Proof.
  intros H.
  replace (4096 * (op / 4096)) with (Z.shiftl (Z.shiftr op 12) 12)
    by (rewrite Z.shiftl_mul_pow2, Z.shiftr_div_pow2 by lia; change (2^12) with 4096; lia).
  change 0xF000 with (Z.shiftl (Z.ones 4) 12).
  apply Z.bits_inj'. intros n Hn.
  rewrite Z.land_spec, !Z.shiftl_spec by lia.
  destruct (Z.ltb_spec n 12).
  - rewrite !(Z.testbit_neg_r _ (n - 12)) by lia. apply andb_false_r.
  - rewrite Z.shiftr_spec by lia. replace (n - 12 + 12) with n by lia.
    rewrite Z.testbit_ones by lia.
    destruct (Z.ltb_spec (n - 12) 4).
    + replace (0 <=? n - 12) with true by (symmetry; apply Z.leb_le; lia).
      simpl. apply andb_true_r.
    + rewrite andb_false_r, andb_false_r.
      symmetry. apply (Z.bits_above_log2 op n); [lia|].
      destruct (Z.eq_dec op 0) as [->|]; [simpl; lia|].
      apply Z.log2_lt_pow2; [lia|].
      apply Z.lt_le_trans with (2^16); [simpl; lia|]. apply Z.pow_le_mono_r; lia.
Qed.

(** ** The decoder *)

(** C6: for every 16-bit opcode the dispatch key is the opcode masked with
    the mask of its family: 0x00FF for high nibble 0x0, 0xF00F for high
    nibble 0x8, 0xF0FF for high nibbles 0xE and 0xF, and 0xF000 for every
    other high nibble. *)
Theorem decodeOpcode_family_mask (c8 : Chip8) :
  0 <= opcode c8 < 65536 ->
  decodeOpcode c8 = Z.land (opcode c8) (familyMask (opcode c8)).
Proof.
  intros Hop. unfold decodeOpcode, familyMask, highNibble.
  pose proof (land_F000 _ Hop) as E. rewrite E.
  rewrite Z.shiftr_div_pow2 by lia. change (2 ^ 12) with 4096.
  assert (Hh : 0 <= opcode c8 / 4096 < 16).
  { split; [apply Z.div_pos; lia | apply Z.div_lt_upper_bound; lia]. }
  revert E. generalize dependent (opcode c8 / 4096). intros h Hh E.
  assert (Hcases : h = 0 \/ h = 1 \/ h = 2 \/ h = 3 \/ h = 4 \/ h = 5 \/ h = 6 \/ h = 7 \/
                   h = 8 \/ h = 9 \/ h = 10 \/ h = 11 \/ h = 12 \/ h = 13 \/ h = 14 \/ h = 15)
    by lia.
  repeat (destruct Hcases as [Hcases | Hcases];
          [subst h; first [reflexivity | symmetry; exact E]|]).
  subst h. reflexivity.
Qed.

Lemma decodeOpcode_family_mask_witness :
  decodeOpcode (set_opcode 0x8AB4 zeroChip8)
  = Z.land (opcode (set_opcode 0x8AB4 zeroChip8))
      (familyMask (opcode (set_opcode 0x8AB4 zeroChip8))).
Proof.
  apply (decodeOpcode_family_mask (set_opcode 0x8AB4 zeroChip8)).
  simpl. lia.
Defined.

(** ** Well-formedness and array access *)

Lemma forallb_Forall {A} (f : A -> bool) (P : A -> Prop) (l : list A) :
  (forall x, f x = true <-> P x) -> forallb f l = true -> Forall P l.
Proof.
  intros HfP Hall. apply Forall_forall. intros x Hx.
  apply HfP. rewrite forallb_forall in Hall. apply Hall.
  by apply list_elem_of_In.
Qed.

Lemma wf_unpack c8 :
  wf c8 ->
  length (registers c8) = 16%nat /\ Forall (fun z => 0 <= z < 256) (registers c8) /\
  length (memory c8) = 4096%nat /\ Forall (fun z => 0 <= z < 256) (memory c8) /\
  0 <= programCounter c8 < 65536 /\ 0 <= indexRegister c8 < 65536 /\
  length (callStack c8) = 16%nat /\ Forall (fun z => 0 <= z < 65536) (callStack c8) /\
  0 <= stackPointer c8 < 256 /\ 0 <= opcode c8 < 65536 /\
  length (keyPad c8) = 16%nat /\ Forall (fun z => 0 <= z < 256) (keyPad c8) /\
  0 <= delayTimer c8 < 256 /\ 0 <= soundTimer c8 < 256 /\
  length (display c8) = 32%nat /\ Forall (fun row => length row = 64%nat) (display c8).
Proof.
  unfold wf, wfb. intros H.
  repeat match goal with
         | H : _ && _ = true |- _ => apply andb_prop in H; destruct H
         end.
  repeat match goal with
         | H : (_ =? _)%nat = true |- _ => apply Nat.eqb_eq in H
         | H : isU8 _ = true |- _ => apply isU8_range in H
         | H : isU16 _ = true |- _ => apply isU16_range in H
         end.
  repeat split; try assumption; try lia;
    try (eapply forallb_Forall; [|eassumption]; intros x; simpl;
         first [apply isU8_range | apply isU16_range | apply Nat.eqb_eq]).
Qed.

Ltac unpack_wf H :=
  let R := fresh "Hregs" in let RV := fresh "Hregs_v" in
  let M := fresh "Hmem" in let MV := fresh "Hmem_v" in
  let PC := fresh "Hpc" in let IR := fresh "Hidx" in
  let CS := fresh "Hcs" in let CSV := fresh "Hcs_v" in
  let SP := fresh "Hsp" in let OP := fresh "Hopc" in
  let K := fresh "Hkeys" in let KV := fresh "Hkeys_v" in
  let DT := fresh "Hdt" in let ST := fresh "Hst" in
  let D := fresh "Hdisp" in let DR := fresh "Hdisp_rows" in
  destruct (wf_unpack _ H) as (R & RV & M & MV & PC & IR & CS & CSV & SP & OP & K & KV & DT & ST & D & DR).

Lemma load_inv {A} (a : list A) i v :
  0 <= i -> load a i = Some v -> i < Z.of_nat (length a).
Proof. unfold load. intros Hi Hl. apply lookup_lt_Some in Hl. lia. Qed.

Lemma load_in_range {A} (a : list A) i :
  0 <= i < Z.of_nat (length a) -> exists v, load a i = Some v.
Proof.
  intros Hi. unfold load.
  destruct (lookup_lt_is_Some_2 a (Z.to_nat i)) as [v Hv]; [lia | eauto].
Qed.

Lemma load_out_of_range {A} (a : list A) i :
  Z.of_nat (length a) <= i -> load a i = None.
Proof. intros Hi. unfold load. apply lookup_ge_None. lia. Qed.

Lemma load_Forall {A} (P : A -> Prop) (a : list A) i v :
  Forall P a -> load a i = Some v -> P v.
Proof. unfold load. intros HP Hl. eapply Forall_lookup_1; eauto. Qed.

Lemma store_in_range {A} (a : list A) i v :
  0 <= i < Z.of_nat (length a) -> store a i v = Some (<[Z.to_nat i := v]> a).
Proof. intros Hi. unfold store. rewrite decide_True by lia. reflexivity. Qed.

Lemma store_out_of_range {A} (a : list A) i v :
  Z.of_nat (length a) <= i -> store a i v = None.
Proof. intros Hi. unfold store. rewrite decide_False by lia. reflexivity. Qed.

Lemma load_store_eq {A} (a : list A) i v :
  0 <= i < Z.of_nat (length a) -> load (<[Z.to_nat i := v]> a) i = Some v.
Proof. intros Hi. unfold load. apply list_lookup_insert_eq. lia. Qed.

Lemma load_store_ne {A} (a : list A) i j v :
  0 <= i -> 0 <= j -> i <> j -> load (<[Z.to_nat i := v]> a) j = load a j.
Proof. intros Hi Hj Hne. unfold load. apply list_lookup_insert_ne. lia. Qed.

(** ** The cycle engine *)

Lemma fetch_inv c8 c1 :
  wf c8 -> fetch c8 = Some c1 ->
  exists op, c1 = set_opcode op c8 /\ programCounter c8 + 2 <= 4096.
Proof.
  intros Hwf Hf. unpack_wf Hwf. unfold fetch in Hf.
  destruct (load (memory c8) (programCounter c8)) as [hi|] eqn:Ehi; [|discriminate].
  simpl in Hf.
  destruct (load (memory c8) (u16 (programCounter c8 + 1))) as [lo|] eqn:Elo; [|discriminate].
  simpl in Hf. injection Hf as <-.
  eexists; split; [reflexivity|].
  apply load_inv in Ehi; [|lia].
  rewrite u16_small in Elo by lia.
  apply load_inv in Elo; lia.
Qed.

Lemma cycle_dispatch rnd c8 c1 (handler : opcodeHandler) :
  fetch c8 = Some c1 ->
  dispatchTable rnd !! decodeOpcode c1 = Some handler ->
  cycle rnd c8 = handler (skip c1).
Proof.
  intros Hf Hd. unfold cycle. rewrite Hf.
  unfold mbind, option_bind. cbv beta iota.
  change (decodeOpcode (skip c1)) with (decodeOpcode c1).
  unfold opcodeHandler in *. rewrite Hd. reflexivity.
Qed.

(** C10: a full cycle that executes the clear-screen instruction leaves
    every frame-buffer cell false and changes nothing else: registers,
    memory, index register, call stack, stack pointer, both timers and the
    keypad are unchanged (as are the scale factor, the running flag and the
    colour profile), and the program counter is its old value plus the 2 of
    the fetch step.  The opcode latch holds the fetched word. *)
Theorem cycle_op00E0_frame rnd c8 c1 :
  wf c8 -> fetch c8 = Some c1 -> decodeOpcode c1 = 0x00E0 ->
  exists c8',
    cycle rnd c8 = Some c8' /\
    (forall r c, 0 <= r < 32 -> 0 <= c < 64 -> pixelAt (display c8') r c = Some false) /\
    registers c8' = registers c8 /\ memory c8' = memory c8 /\
    indexRegister c8' = indexRegister c8 /\ callStack c8' = callStack c8 /\
    stackPointer c8' = stackPointer c8 /\ delayTimer c8' = delayTimer c8 /\
    soundTimer c8' = soundTimer c8 /\ keyPad c8' = keyPad c8 /\
    scaleFactor c8' = scaleFactor c8 /\ running c8' = running c8 /\
    activeProfile c8' = activeProfile c8 /\ opcode c8' = opcode c1 /\
    programCounter c8' = programCounter c8 + 2.
Proof.
  intros Hwf Hf Hd.
  destruct (fetch_inv _ _ Hwf Hf) as (op & -> & Hpc2). unpack_wf Hwf.
  rewrite (cycle_dispatch rnd c8 _ op00E0 Hf) by (rewrite Hd; reflexivity).
  exists (set_display (replicate 32 (replicate 64 false)) (skip (set_opcode op c8))).
  split; [reflexivity|].
  repeat split; try reflexivity.
  - intros r c Hr Hc. unfold pixelAt, load.
    change (display _) with (replicate 32 (replicate 64 false)).
    rewrite lookup_replicate_2 by lia.
    change (replicate 64 false !! Z.to_nat c = Some false).
    apply lookup_replicate_2. lia.
  - change (u16 (programCounter c8 + 2) = programCounter c8 + 2).
    apply u16_small. lia.
Qed.

Lemma cycle_op00E0_frame_witness :
  exists c8',
    cycle 0 clsMachine = Some c8' /\
    (forall r c, 0 <= r < 32 -> 0 <= c < 64 -> pixelAt (display c8') r c = Some false) /\
    registers c8' = registers clsMachine /\ memory c8' = memory clsMachine /\
    indexRegister c8' = indexRegister clsMachine /\ callStack c8' = callStack clsMachine /\
    stackPointer c8' = stackPointer clsMachine /\ delayTimer c8' = delayTimer clsMachine /\
    soundTimer c8' = soundTimer clsMachine /\ keyPad c8' = keyPad clsMachine /\
    scaleFactor c8' = scaleFactor clsMachine /\ running c8' = running clsMachine /\
    activeProfile c8' = activeProfile clsMachine /\
    opcode c8' = opcode (set_opcode 0x00E0 clsMachine) /\
    programCounter c8' = programCounter clsMachine + 2.
Proof.
  apply (cycle_op00E0_frame 0 clsMachine (set_opcode 0x00E0 clsMachine)).
  - vm_compute. reflexivity.
  - vm_compute. reflexivity.
  - reflexivity.
Defined.

(** ** Operand fields *)

Lemma opX_spec c : opX c = (opcode c / 256) mod 16.
Proof.
  unfold opX. rewrite Z.shiftr_land. change (Z.shiftr 0x0F00 8) with (Z.ones 4).
  rewrite Z.land_ones, Z.shiftr_div_pow2 by lia. reflexivity.
Qed.

Lemma opY_spec c : opY c = (opcode c / 16) mod 16.
Proof.
  unfold opY. rewrite Z.shiftr_land. change (Z.shiftr 0x00F0 4) with (Z.ones 4).
  rewrite Z.land_ones, Z.shiftr_div_pow2 by lia. reflexivity.
Qed.

Lemma opN_spec c : opN c = opcode c mod 16.
Proof. unfold opN. change 0x000F with (Z.ones 4). by rewrite Z.land_ones by lia. Qed.

Lemma opX_range c : 0 <= opX c < 16.
Proof. rewrite opX_spec. apply Z.mod_pos_bound. lia. Qed.

Lemma opY_range c : 0 <= opY c < 16.
Proof. rewrite opY_spec. apply Z.mod_pos_bound. lia. Qed.

Lemma opN_range c : 0 <= opN c < 16.
Proof. rewrite opN_spec. apply Z.mod_pos_bound. lia. Qed.

Lemma set_registers_id c : set_registers (registers c) c = c.
Proof. by destruct c. Qed.

Lemma setReg_in_range i v c8 :
  0 <= i < Z.of_nat (length (registers c8)) ->
  setReg i v c8 = Some (set_registers (<[Z.to_nat i := v]> (registers c8)) c8).
Proof. intros Hi. unfold setReg. by rewrite store_in_range. Qed.

(** ** Wait for key *)

Section WaitForKey.
Variable vx : Z.
Hypothesis vx_range : 0 <= vx < 16.

Lemma scanKey_released key c8 p :
  load (keyPad c8) key = Some 0 -> scanKey vx key (c8, p) = Some (c8, p).
Proof. intros Hk. unfold scanKey. rewrite Hk. reflexivity. Qed.

Lemma scanKey_pressed key c8 p v :
  length (registers c8) = 16%nat ->
  load (keyPad c8) key = Some v -> v <> 0 ->
  scanKey vx key (c8, p)
  = Some (set_registers (<[Z.to_nat vx := u8 key]> (registers c8)) c8, true).
Proof.
  intros Hlen Hk Hv. unfold scanKey. rewrite Hk. simpl.
  destruct (Z.eqb_spec v 0) as [|_]; [contradiction|]. simpl.
  rewrite setReg_in_range by lia. reflexivity.
Qed.

Lemma scan_none_pressed n : forall lo c8 p,
  (forall k, lo <= k < lo + Z.of_nat n -> load (keyPad c8) k = Some 0) ->
  forRange lo n (scanKey vx) (c8, p) = Some (c8, p).
Proof.
  induction n as [|n IH]; intros lo c8 p Hall; [reflexivity|].
  cbn [forRange]. rewrite scanKey_released by (apply Hall; lia).
  simpl. apply IH. intros k Hk. apply Hall. lia.
Qed.

Lemma scan_last_pressed n : forall lo c8 p k v,
  length (registers c8) = 16%nat ->
  0 <= lo -> lo + Z.of_nat n <= Z.of_nat (length (keyPad c8)) ->
  lo <= k < lo + Z.of_nat n ->
  load (keyPad c8) k = Some v -> v <> 0 ->
  (forall k', k < k' < lo + Z.of_nat n -> load (keyPad c8) k' = Some 0) ->
  exists regs',
    forRange lo n (scanKey vx) (c8, p) = Some (set_registers regs' c8, true) /\
    length regs' = 16%nat /\ load regs' vx = Some (u8 k).
Proof.
  induction n as [|n IH]; intros lo c8 p k v Hlen Hlo Hhi Hk Hv Hne Hlast; [lia|].
  cbn [forRange].
  destruct (Z.eq_dec k lo) as [->|Hklo].
  - rewrite (scanKey_pressed lo c8 p v) by assumption. simpl.
    rewrite scan_none_pressed by (intros k' Hk'; apply Hlast; lia).
    eexists; split; [reflexivity|]. split.
    + by rewrite length_insert.
    + apply load_store_eq. lia.
  - destruct (load_in_range (keyPad c8) lo) as [v0 Hv0]; [lia|].
    destruct (Z.eq_dec v0 0) as [->|Hv0ne].
    + rewrite scanKey_released by assumption. simpl.
      apply (IH (lo + 1) c8 p k v); try assumption; try lia.
      intros k' Hk'. apply Hlast. lia.
    + rewrite (scanKey_pressed lo c8 p v0) by assumption. simpl.
      set (c9 := set_registers (<[Z.to_nat vx := u8 lo]> (registers c8)) c8).
      assert (Hlen9 : length (registers c9) = 16%nat)
        by (subst c9; simpl; by rewrite length_insert).
      assert (Hhi9 : lo + 1 + Z.of_nat n <= Z.of_nat (length (keyPad c9)))
        by (change (keyPad c9) with (keyPad c8); lia).
      assert (Hlast9 : forall k', k < k' < lo + 1 + Z.of_nat n ->
                                  load (keyPad c9) k' = Some 0)
        by (intros k' Hk'; apply Hlast; lia).
      destruct (IH (lo + 1) c9 true k v Hlen9 ltac:(lia) Hhi9 ltac:(lia) Hv Hne Hlast9)
        as (regs' & Hrun & Hlen' & Hvx).
      exists regs'. split; [exact Hrun|]. by split.
Qed.
End WaitForKey.

Lemma opFX0A_none_pressed c8 :
  length (keyPad c8) = 16%nat ->
  (forall k, 0 <= k < 16 -> load (keyPad c8) k = Some 0) ->
  opFX0A c8 = Some (set_programCounter (u16 (programCounter c8 - 2)) c8).
Proof.
  intros Hlen Hall. unfold opFX0A. rewrite Hlen.
  rewrite scan_none_pressed by (intros k Hk; apply Hall; lia).
  reflexivity.
Qed.

Lemma opFX0A_last_pressed c8 k v :
  length (registers c8) = 16%nat -> length (keyPad c8) = 16%nat ->
  0 <= k < 16 -> load (keyPad c8) k = Some v -> v <> 0 ->
  (forall k', k < k' < 16 -> load (keyPad c8) k' = Some 0) ->
  exists regs',
    opFX0A c8 = Some (set_registers regs' c8) /\ load regs' (opX c8) = Some k.
Proof.
  intros Hregs Hlen Hk Hv Hne Hlast. unfold opFX0A. rewrite Hlen.
  destruct (scan_last_pressed (opX c8) (opX_range c8) 16 0 c8 false k v Hregs
              ltac:(lia) ltac:(rewrite Hlen; lia) ltac:(lia) Hv Hne
              ltac:(intros k' Hk'; apply Hlast; lia))
    as (regs' & Hrun & _ & Hvx).
  rewrite Hrun. exists regs'. split; [reflexivity|].
  rewrite Hvx. f_equal. apply u8_small. lia.
Qed.

Lemma highest_pressed (keys : list Z) (n : nat) :
  (n <= length keys)%nat ->
  (exists k v, 0 <= k < Z.of_nat n /\ load keys k = Some v /\ v <> 0) ->
  exists k v,
    0 <= k < Z.of_nat n /\ load keys k = Some v /\ v <> 0 /\
    forall k', k < k' < Z.of_nat n -> load keys k' = Some 0.
Proof.
  induction n as [|n IH]; intros Hlen (k & v & Hk & Hv & Hne); [lia|].
  destruct (load_in_range keys (Z.of_nat n)) as [vn Hvn]; [lia|].
  destruct (Z.eq_dec vn 0) as [->|Hvn0].
  - assert (Hkn : k <> Z.of_nat n) by (intros ->; congruence).
    destruct IH as (k0 & v0 & Hk0 & Hv0 & Hne0 & Hlast); [lia | |].
    { exists k, v. repeat split; try assumption; lia. }
    exists k0, v0. repeat split; try assumption; try lia.
    intros k' Hk'. destruct (Z.eq_dec k' (Z.of_nat n)) as [->|Hne'];
      [exact Hvn | apply Hlast; lia].
  - exists (Z.of_nat n), vn. repeat split; try assumption; lia.
Qed.

(** C7: a full cycle that executes the wait-for-key instruction.  With no
    key pressed, the program counter after the cycle is the one before it
    and the registers (VX among them) are unchanged.  With at least one key
    pressed, the program counter has advanced by 2 and VX holds the index
    of a pressed key above which no key is pressed: the last match of the
    scan over keys 0 to 0xF, the pressed key with the highest index. *)
Theorem cycle_opFX0A rnd c8 c1 :
  wf c8 -> fetch c8 = Some c1 -> decodeOpcode c1 = 0xF00A ->
  ((forall k, 0 <= k < 16 -> load (keyPad c8) k = Some 0) ->
   exists c8',
     cycle rnd c8 = Some c8' /\
     programCounter c8' = programCounter c8 /\ registers c8' = registers c8) /\
  ((exists k v, 0 <= k < 16 /\ load (keyPad c8) k = Some v /\ v <> 0) ->
   exists c8' k v,
     cycle rnd c8 = Some c8' /\
     programCounter c8' = programCounter c8 + 2 /\
     load (registers c8') (opX c1) = Some k /\
     0 <= k < 16 /\ load (keyPad c8) k = Some v /\ v <> 0 /\
     (forall k', k < k' < 16 -> load (keyPad c8) k' = Some 0)).
Proof.
  intros Hwf Hf Hd.
  destruct (fetch_inv _ _ Hwf Hf) as (op & -> & Hpc2). unpack_wf Hwf.
  rewrite (cycle_dispatch rnd c8 _ opFX0A Hf) by (rewrite Hd; reflexivity).
  split.
  - intros Hall. rewrite opFX0A_none_pressed by assumption.
    eexists; split; [reflexivity|]. split; [|reflexivity].
    change (u16 (u16 (programCounter c8 + 2) - 2) = programCounter c8).
    rewrite (u16_small (programCounter c8 + 2)) by lia.
    rewrite u16_small by lia. lia.
  - intros Hsome.
    destruct (highest_pressed (keyPad c8) 16 ltac:(lia) Hsome)
      as (k & v & Hk & Hv & Hne & Hlast).
    destruct (opFX0A_last_pressed (skip (set_opcode op c8)) k v)
      as (regs' & Hrun & Hvx); try assumption.
    rewrite Hrun. eexists; exists k, v. split; [reflexivity|].
    split; [|repeat split; try assumption; lia].
    change (u16 (programCounter c8 + 2) = programCounter c8 + 2).
    apply u16_small. lia.
Qed.

Lemma cycle_opFX0A_witness :
  (exists c8',
     cycle 0 (waitKeyMachine noKeys) = Some c8' /\
     programCounter c8' = programCounter (waitKeyMachine noKeys) /\
     registers c8' = registers (waitKeyMachine noKeys)) /\
  (exists c8' k v,
     cycle 0 (waitKeyMachine threeKeys) = Some c8' /\
     programCounter c8' = programCounter (waitKeyMachine threeKeys) + 2 /\
     load (registers c8') 3 = Some k /\
     0 <= k < 16 /\ load (keyPad (waitKeyMachine threeKeys)) k = Some v /\ v <> 0 /\
     (forall k', k < k' < 16 -> load (keyPad (waitKeyMachine threeKeys)) k' = Some 0)).
Proof.
  split.
  - apply (proj1 (cycle_opFX0A 0 (waitKeyMachine noKeys)
                    (set_opcode 0xF30A (waitKeyMachine noKeys))
                    ltac:(vm_compute; reflexivity) ltac:(vm_compute; reflexivity)
                    ltac:(reflexivity))).
    intros k Hk. unfold load.
    change (keyPad (waitKeyMachine noKeys)) with (replicate 16 0).
    apply lookup_replicate_2. lia.
  - apply (proj2 (cycle_opFX0A 0 (waitKeyMachine threeKeys)
                    (set_opcode 0xF30A (waitKeyMachine threeKeys))
                    ltac:(vm_compute; reflexivity) ltac:(vm_compute; reflexivity)
                    ltac:(reflexivity))).
    exists 2, 1. split; [lia|]. split; [reflexivity | lia].
Defined.

(** The cycle of [waitKeyMachine threeKeys] evaluated: of the pressed keys
    2, 7 and 0xB, V3 receives 0xB. *)
Example cycle_opFX0A_three_keys :
  exists c8',
    cycle 0 (waitKeyMachine threeKeys) = Some c8' /\
    load (registers c8') 3 = Some 0xB /\ programCounter c8' = 0x202.
Proof. eexists. split; [vm_compute; reflexivity|]. split; reflexivity. Qed.

(** ** Call and return *)

Lemma fetch_cong c c' c3 :
  memory c = memory c' -> programCounter c = programCounter c' ->
  fetch c = Some c3 -> fetch c' = Some (set_opcode (opcode c3) c').
Proof.
  intros Hm Hp. unfold fetch. rewrite <- Hm, <- Hp.
  destruct (load (memory c) (programCounter c)) as [hi|]; [|discriminate]. simpl.
  destruct (load (memory c) (u16 (programCounter c + 1))) as [lo|]; [|discriminate]. simpl.
  intros [= <-]. reflexivity.
Qed.

Lemma op2NNN_in_range c8 :
  0 <= stackPointer c8 < Z.of_nat (length (callStack c8)) ->
  op2NNN c8
  = Some (set_programCounter (opNNN c8)
            (set_stackPointer (u8 (stackPointer c8 + 1))
               (set_callStack
                  (<[Z.to_nat (stackPointer c8) := programCounter c8]> (callStack c8)) c8))).
Proof. intros Hsp. unfold op2NNN. rewrite store_in_range by assumption. reflexivity. Qed.

(** C3: a full cycle executing Call NNN, followed by a full cycle executing
    the Return found at NNN, on a machine whose stack pointer is at most
    15: the program counter ends at the address of the Call plus 2 and the
    stack pointer at its original value. *)
Theorem cycle_call_return rnd rnd' c8 c1 c3 :
  wf c8 -> stackPointer c8 <= 15 ->
  fetch c8 = Some c1 -> decodeOpcode c1 = 0x2000 ->
  fetch (set_programCounter (opNNN c1) c8) = Some c3 -> decodeOpcode c3 = 0x00EE ->
  exists c2 c4,
    cycle rnd c8 = Some c2 /\ cycle rnd' c2 = Some c4 /\
    programCounter c4 = programCounter c8 + 2 /\
    stackPointer c4 = stackPointer c8.
Proof.
  intros Hwf Hsp15 Hf Hd Hf3 Hd3.
  destruct (fetch_inv _ _ Hwf Hf) as (op & -> & Hpc2). unpack_wf Hwf.
  rewrite (cycle_dispatch rnd c8 _ op2NNN Hf) by (rewrite Hd; reflexivity).
  rewrite op2NNN_in_range by (simpl; lia).
  eexists; eexists; split; [reflexivity|].
  match goal with |- cycle _ ?c2 = _ /\ _ => set (c := c2) end.
  assert (Hf2 : fetch c = Some (set_opcode (opcode c3) c))
    by (eapply fetch_cong; [| |exact Hf3]; reflexivity).
  rewrite (cycle_dispatch rnd' c _ op00EE Hf2)
    by (change (decodeOpcode (set_opcode (opcode c3) c)) with (decodeOpcode c3);
        rewrite Hd3; reflexivity).
  unfold op00EE.
  change (stackPointer (skip (set_opcode (opcode c3) c)))
    with (u8 (stackPointer c8 + 1)).
  rewrite (u8_small (stackPointer c8 + 1)) by lia.
  replace (stackPointer c8 + 1 - 1) with (stackPointer c8) by lia.
  rewrite (u8_small (stackPointer c8)) by lia.
  cbn [stackPointer set_stackPointer callStack].
  change (callStack (skip (set_opcode (opcode c3) c)))
    with (<[Z.to_nat (stackPointer c8) := u16 (programCounter c8 + 2)]> (callStack c8)).
  rewrite load_store_eq by lia. simpl.
  split; [reflexivity|]. split; [|reflexivity].
  change (u16 (programCounter c8 + 2) = programCounter c8 + 2).
  apply u16_small. lia.
Qed.

Lemma cycle_call_return_witness :
  exists c2 c4,
    cycle 0 (callMachine 15) = Some c2 /\ cycle 0 c2 = Some c4 /\
    programCounter c4 = 0x200 + 2 /\ stackPointer c4 = 15.
Proof.
  apply (cycle_call_return 0 0 (callMachine 15) (set_opcode 0x2300 (callMachine 15))
           (set_opcode 0x00EE (set_programCounter 0x300 (callMachine 15)))).
  - vm_compute. reflexivity.
  - simpl. lia.
  - vm_compute. reflexivity.
  - reflexivity.
  - vm_compute. reflexivity.
  - reflexivity.
Defined.
Lemma op00EE_in_range c8 :
  0 < stackPointer c8 <= Z.of_nat (length (callStack c8)) -> stackPointer c8 < 256 ->
  exists a,
    load (callStack c8) (stackPointer c8 - 1) = Some a /\
    op00EE c8 = Some (set_programCounter a (set_stackPointer (stackPointer c8 - 1) c8)).
Proof.
  intros Hsp Hu8. unfold op00EE.
  destruct (load_in_range (callStack c8) (stackPointer c8 - 1)) as [a Ha]; [lia|].
  exists a. split; [exact Ha|].
  rewrite u8_small by lia.
  change (callStack (set_stackPointer _ c8)) with (callStack c8).
  change (stackPointer (set_stackPointer (stackPointer c8 - 1) c8))
    with (stackPointer c8 - 1).
  rewrite Ha. reflexivity.
Qed.

(** C4 (as amended): a Call with stack pointer s < 16 writes the return
    address at position s, the position the stack pointer has before the
    call, leaves the other stack slots as they are, and then increments the
    stack pointer to s + 1; a Return with stack pointer 0 < s <= 16
    decrements the stack pointer to s - 1 and then reads the return address
    at that position. *)
Theorem call_writes_then_increments c8 :
  wf c8 ->
  (stackPointer c8 < 16 ->
   exists c8',
     op2NNN c8 = Some c8' /\
     load (callStack c8') (stackPointer c8) = Some (programCounter c8) /\
     (forall i, 0 <= i -> i <> stackPointer c8 ->
                load (callStack c8') i = load (callStack c8) i) /\
     stackPointer c8' = stackPointer c8 + 1 /\
     programCounter c8' = opNNN c8) /\
  (0 < stackPointer c8 <= 16 ->
   exists c8' a,
     op00EE c8 = Some c8' /\
     stackPointer c8' = stackPointer c8 - 1 /\
     load (callStack c8) (stackPointer c8') = Some a /\
     programCounter c8' = a /\
     callStack c8' = callStack c8).
Proof.
  intros Hwf. unpack_wf Hwf. split.
  - intros Hlt. rewrite op2NNN_in_range by lia.
    eexists; split; [reflexivity|]. cbn [callStack stackPointer programCounter
      set_programCounter set_stackPointer set_callStack].
    split; [apply load_store_eq; lia|].
    split; [intros i Hi Hne; apply load_store_ne; lia|].
    split; [apply u8_small; lia | reflexivity].
  - intros Hs.
    destruct (op00EE_in_range c8) as (a & Ha & Hrun); [lia | lia |].
    rewrite Hrun. eexists; exists a. split; [reflexivity|].
    repeat split; try reflexivity. exact Ha.
Qed.

Lemma call_writes_then_increments_witness :
  (exists c8',
     op2NNN (handlerMachine 0x2300 0x202 15) = Some c8' /\
     load (callStack c8') 15 = Some 0x202 /\
     (forall i, 0 <= i -> i <> 15 ->
                load (callStack c8') i
                = load (callStack (handlerMachine 0x2300 0x202 15)) i) /\
     stackPointer c8' = 15 + 1 /\
     programCounter c8' = 0x300) /\
  (exists c8' a,
     op00EE (handlerMachine 0x00EE 0x302 16) = Some c8' /\
     stackPointer c8' = 16 - 1 /\
     load (callStack (handlerMachine 0x00EE 0x302 16)) (stackPointer c8') = Some a /\
     programCounter c8' = a /\
     callStack c8' = callStack (handlerMachine 0x00EE 0x302 16)).
Proof.
  split.
  - apply (proj1 (call_writes_then_increments (handlerMachine 0x2300 0x202 15)
                    ltac:(vm_compute; reflexivity))).
    simpl. lia.
  - apply (proj2 (call_writes_then_increments (handlerMachine 0x00EE 0x302 16)
                    ltac:(vm_compute; reflexivity))).
    simpl. lia.
Defined.

(** C4 as stated fails.  A Call with stack pointer 0 and return address
    0x202 leaves the stack pointer at 1, but the slot at the new
    stack-pointer position still holds its old content 0: the address went
    to slot 0.  And a Return with stack pointer 17 > 0 does not read a
    return address at position 16: the index is outside the 16-entry
    stack. *)
Lemma call_increments_then_writes_counterexample :
  (exists c8',
     op2NNN (handlerMachine 0x2300 0x202 0) = Some c8' /\
     stackPointer c8' = 1 /\
     load (callStack c8') (stackPointer c8') = Some 0 /\
     load (callStack c8') (stackPointer c8')
     <> Some (programCounter (handlerMachine 0x2300 0x202 0)) /\
     load (callStack c8') 0 = Some 0x202) /\
  op00EE (handlerMachine 0x00EE 0x302 17) = None.
Proof.
  split; [|reflexivity].
  eexists. split; [reflexivity|].
  repeat split; try reflexivity. discriminate.
Qed.
(** ** Keypad skips *)

(** C9: [EX9E] and [EXA1] index the 16-entry keypad with the full 8-bit
    value of VX, neither masked nor checked.  On every machine whose VX is
    at most 0xF both handlers read [keyPad[VX]] and return (the
    out-of-range branch is not taken); on every machine whose VX is greater
    than 0xF both panic, and such a machine exists. *)
Theorem key_skip_indexes_keypad_with_VX :
  (forall c8 key,
     wf c8 -> load (registers c8) (opX c8) = Some key ->
     (key <= 0xF ->
      exists k,
        load (keyPad c8) key = Some k /\
        opEX9E c8 = Some (if k =? 0x1 then skip c8 else c8) /\
        opEXA1 c8 = Some (if k =? 0x0 then skip c8 else c8)) /\
     (0xF < key -> opEX9E c8 = None /\ opEXA1 c8 = None)) /\
  (exists c8 key,
     wf c8 /\ load (registers c8) (opX c8) = Some key /\ 0xF < key /\
     opEX9E c8 = None /\ opEXA1 c8 = None).
Proof.
  split.
  - intros c8 key Hwf Hkey. unpack_wf Hwf.
    pose proof (load_Forall _ _ _ _ Hregs_v Hkey) as Hkey_v. simpl in Hkey_v.
    unfold opEX9E, opEXA1. rewrite Hkey. simpl. split.
    + intros Hle.
      destruct (load_in_range (keyPad c8) key) as [k Hk]; [lia|].
      exists k. rewrite Hk. simpl. repeat split; reflexivity.
    + intros Hgt. rewrite load_out_of_range by lia. split; reflexivity.
  - exists (regMachine 0xE29E 0x10), 0x10.
    split; [vm_compute; reflexivity|].
    split; [reflexivity|]. split; [lia|]. split; reflexivity.
Qed.

Lemma key_skip_indexes_keypad_with_VX_witness :
  (exists k,
     load (keyPad (regMachine 0xE29E 0xF)) 0xF = Some k /\
     opEX9E (regMachine 0xE29E 0xF)
     = Some (if k =? 0x1 then skip (regMachine 0xE29E 0xF) else regMachine 0xE29E 0xF) /\
     opEXA1 (regMachine 0xE29E 0xF)
     = Some (if k =? 0x0 then skip (regMachine 0xE29E 0xF) else regMachine 0xE29E 0xF)) /\
  (opEX9E (regMachine 0xE29E 0xFF) = None /\ opEXA1 (regMachine 0xE29E 0xFF) = None).
Proof.
  split.
  - apply (proj1 (proj1 key_skip_indexes_keypad_with_VX (regMachine 0xE29E 0xF) 0xF
                    ltac:(vm_compute; reflexivity) ltac:(reflexivity))).
    lia.
  - apply (proj2 (proj1 key_skip_indexes_keypad_with_VX (regMachine 0xE29E 0xFF) 0xFF
                    ltac:(vm_compute; reflexivity) ltac:(reflexivity))).
    lia.
Defined.

(** ** Font sprite address *)

(** C5 (as amended): for every 8-bit value v in VX, [FX29] sets the index
    register to the font base 0x050 plus (5 * v) mod 256: the product is
    formed in 8-bit arithmetic before it is widened and added.  The result
    is 0x050 + 5 * v exactly for v <= 51, which includes every hexadecimal
    digit 0..0xF. *)
Theorem opFX29_index c8 v :
  load (registers c8) (opX c8) = Some v -> 0 <= v < 256 ->
  exists c8',
    opFX29 c8 = Some c8' /\
    indexRegister c8' = 0x050 + (5 * v) mod 256 /\
    (v <= 51 -> indexRegister c8' = 0x050 + 5 * v).
Proof.
  intros Hv Hrange. unfold opFX29. rewrite Hv. simpl.
  eexists; split; [reflexivity|]. simpl.
  assert (Hm : 0 <= (5 * v) mod 256 < 256) by (apply Z.mod_pos_bound; lia).
  unfold fontStartAddress, u8.
  rewrite u16_small by lia. split; [reflexivity|].
  intros Hle. rewrite Z.mod_small by lia. reflexivity.
Qed.

Lemma opFX29_index_witness :
  exists c8',
    opFX29 (regMachine 0xF229 0x0F) = Some c8' /\
    indexRegister c8' = 0x050 + (5 * 0x0F) mod 256 /\
    (0x0F <= 51 -> indexRegister c8' = 0x050 + 5 * 0x0F).
Proof.
  apply (opFX29_index (regMachine 0xF229 0x0F) 0x0F).
  - reflexivity.
  - lia.
Defined.

(** C5 as stated fails: with VX = 0xFF the index register becomes
    0x050 + 251 = 331, not 0x050 + 1275 = 1355. *)
Lemma opFX29_exact_product_counterexample :
  load (registers (regMachine 0xF229 0xFF)) (opX (regMachine 0xF229 0xFF)) = Some 0xFF /\
  exists c8',
    opFX29 (regMachine 0xF229 0xFF) = Some c8' /\
    indexRegister c8' = 331 /\
    indexRegister c8' <> 0x050 + 5 * 0xFF.
Proof.
  split; [reflexivity|].
  eexists. split; [reflexivity|]. split; [reflexivity|]. discriminate.
Qed.
(** ** Register dump and load *)

Lemma set_memory_id c : set_memory (memory c) c = c.
Proof. by destruct c. Qed.

Lemma dumpReg_step i r c8 :
  load (registers c8) i = Some r -> 0 <= i < 16 ->
  0 <= indexRegister c8 -> indexRegister c8 + i < Z.of_nat (length (memory c8)) ->
  length (memory c8) = 4096%nat ->
  dumpReg i c8
  = Some (set_memory (<[Z.to_nat (indexRegister c8 + i) := r]> (memory c8)) c8).
Proof.
  intros Hr Hi HI Hfit Hlen. unfold dumpReg, setMem. rewrite Hr. simpl.
  rewrite (u16_small i), (u16_small (indexRegister c8 + i)) by lia.
  rewrite store_in_range by lia. reflexivity.
Qed.

Lemma loadReg_step i v c8 :
  load (memory c8) (indexRegister c8 + i) = Some v -> 0 <= i < 16 ->
  0 <= indexRegister c8 -> indexRegister c8 + i < 4096 ->
  length (registers c8) = 16%nat ->
  loadReg i c8 = Some (set_registers (<[Z.to_nat i := v]> (registers c8)) c8).
Proof.
  intros Hv Hi HI Hfit Hlen. unfold loadReg.
  rewrite (u16_small i), (u16_small (indexRegister c8 + i)) by lia.
  rewrite Hv. simpl. rewrite setReg_in_range by lia. reflexivity.
Qed.

Lemma dumpReg_loop n : forall lo c8,
  length (registers c8) = 16%nat -> length (memory c8) = 4096%nat ->
  0 <= indexRegister c8 -> 0 <= lo -> lo + Z.of_nat n <= 16 ->
  indexRegister c8 + lo + Z.of_nat n <= 4096 ->
  exists m',
    forRange lo n dumpReg c8 = Some (set_memory m' c8) /\
    length m' = 4096%nat /\
    (forall i, lo <= i < lo + Z.of_nat n ->
               load m' (indexRegister c8 + i) = load (registers c8) i) /\
    (forall a, 0 <= a ->
               ~ (indexRegister c8 + lo <= a < indexRegister c8 + lo + Z.of_nat n) ->
               load m' a = load (memory c8) a).
Proof.
  induction n as [|n IH]; intros lo c8 Hregs Hmem HI Hlo Hhi Hfit.
  - exists (memory c8). cbn [forRange]. rewrite set_memory_id.
    repeat split; [assumption | intros; lia].
  - cbn [forRange].
    destruct (load_in_range (registers c8) lo) as [r Hr]; [lia|].
    rewrite (dumpReg_step lo r c8) by (assumption || lia). simpl.
    set (m1 := <[Z.to_nat (indexRegister c8 + lo) := r]> (memory c8)).
    destruct (IH (lo + 1) (set_memory m1 c8)) as (m' & Hrun & Hlen & Hset & Hframe);
      try (simpl; lia).
    { subst m1. simpl. by rewrite length_insert. }
    exists m'. split; [exact Hrun|]. split; [exact Hlen|].
    simpl in Hset, Hframe. split.
    + intros i Hi. destruct (Z.eq_dec i lo) as [->|Hne].
      * rewrite Hframe by lia. subst m1. rewrite load_store_eq by lia. by rewrite Hr.
      * apply Hset. lia.
    + intros a Ha Hout. rewrite Hframe by lia.
      subst m1. apply load_store_ne; lia.
Qed.

Lemma loadReg_loop n : forall lo c8,
  length (registers c8) = 16%nat -> length (memory c8) = 4096%nat ->
  0 <= indexRegister c8 -> 0 <= lo -> lo + Z.of_nat n <= 16 ->
  indexRegister c8 + lo + Z.of_nat n <= 4096 ->
  exists regs',
    forRange lo n loadReg c8 = Some (set_registers regs' c8) /\
    length regs' = 16%nat /\
    (forall i, lo <= i < lo + Z.of_nat n ->
               load regs' i = load (memory c8) (indexRegister c8 + i)) /\
    (forall i, 0 <= i -> ~ (lo <= i < lo + Z.of_nat n) ->
               load regs' i = load (registers c8) i).
Proof.
  induction n as [|n IH]; intros lo c8 Hregs Hmem HI Hlo Hhi Hfit.
  - exists (registers c8). cbn [forRange]. rewrite set_registers_id.
    repeat split; [assumption | intros; lia].
  - cbn [forRange].
    destruct (load_in_range (memory c8) (indexRegister c8 + lo)) as [v Hv]; [lia|].
    rewrite (loadReg_step lo v c8) by (assumption || lia). simpl.
    set (r1 := <[Z.to_nat lo := v]> (registers c8)).
    destruct (IH (lo + 1) (set_registers r1 c8)) as (regs' & Hrun & Hlen & Hset & Hframe);
      try (simpl; lia).
    { subst r1. simpl. by rewrite length_insert. }
    exists regs'. split; [exact Hrun|]. split; [exact Hlen|].
    simpl in Hset, Hframe. split.
    + intros i Hi. destruct (Z.eq_dec i lo) as [->|Hne].
      * rewrite Hframe by lia. subst r1. rewrite load_store_eq by lia. by rewrite Hv.
      * apply Hset. lia.
    + intros i Hi Hout. rewrite Hframe by lia.
      subst r1. apply load_store_ne; lia.
Qed.

(** C2 (as amended): on every machine in which the cells I..I+X lie inside
    the 4096 bytes of memory (I + X <= 4095), [FX55] leaves the values of
    V0..VX in memory cells I..I+X and [FX65] leaves the values of memory
    cells I..I+X in V0..VX; either instruction then sets the index register
    to X + 1 (not I + X + 1). *)
Theorem register_dump_load c8 :
  wf c8 -> indexRegister c8 + opX c8 <= 4095 ->
  (exists c8',
     opFX55 c8 = Some c8' /\
     (forall i, 0 <= i <= opX c8 ->
        exists v, load (registers c8) i = Some v /\
                  load (memory c8') (indexRegister c8 + i) = Some v) /\
     registers c8' = registers c8 /\
     indexRegister c8' = opX c8 + 1) /\
  (exists c8',
     opFX65 c8 = Some c8' /\
     (forall i, 0 <= i <= opX c8 ->
        exists v, load (memory c8) (indexRegister c8 + i) = Some v /\
                  load (registers c8') i = Some v) /\
     memory c8' = memory c8 /\
     indexRegister c8' = opX c8 + 1).
Proof.
  intros Hwf Hfit. unpack_wf Hwf. pose proof (opX_range c8) as HX.
  assert (HnX : Z.of_nat (Z.to_nat (opX c8 + 1)) = opX c8 + 1) by lia.
  split.
  - destruct (dumpReg_loop (Z.to_nat (opX c8 + 1)) 0 c8)
      as (m' & Hrun & Hlen & Hset & _); try assumption; try lia.
    unfold opFX55. rewrite Hrun. simpl.
    eexists; split; [reflexivity|]. simpl. split; [|split; [reflexivity|]].
    + intros i Hi.
      destruct (load_in_range (registers c8) i) as [v Hv]; [lia|].
      exists v. split; [exact Hv|]. rewrite Hset by lia. exact Hv.
    + apply u16_small. lia.
  - destruct (loadReg_loop (Z.to_nat (opX c8 + 1)) 0 c8)
      as (regs' & Hrun & Hlen & Hset & _); try assumption; try lia.
    unfold opFX65. rewrite Hrun. simpl.
    eexists; split; [reflexivity|]. simpl. split; [|split; [reflexivity|]].
    + intros i Hi.
      destruct (load_in_range (memory c8) (indexRegister c8 + i)) as [v Hv]; [lia|].
      exists v. split; [exact Hv|]. rewrite Hset by lia. exact Hv.
    + apply u16_small. lia.
Qed.

Lemma register_dump_load_witness :
  (exists c8',
     opFX55 (indexMachine 0xF255 0xFFD) = Some c8' /\
     (forall i, 0 <= i <= 2 ->
        exists v, load (registers (indexMachine 0xF255 0xFFD)) i = Some v /\
                  load (memory c8') (0xFFD + i) = Some v) /\
     registers c8' = registers (indexMachine 0xF255 0xFFD) /\
     indexRegister c8' = 2 + 1) /\
  (exists c8',
     opFX65 (indexMachine 0xF265 0x300) = Some c8' /\
     (forall i, 0 <= i <= 2 ->
        exists v, load (memory (indexMachine 0xF265 0x300)) (0x300 + i) = Some v /\
                  load (registers c8') i = Some v) /\
     memory c8' = memory (indexMachine 0xF265 0x300) /\
     indexRegister c8' = 2 + 1).
Proof.
  split.
  - apply (proj1 (register_dump_load (indexMachine 0xF255 0xFFD)
                    ltac:(vm_compute; reflexivity) ltac:(vm_compute; discriminate))).
  - apply (proj2 (register_dump_load (indexMachine 0xF265 0x300)
                    ltac:(vm_compute; reflexivity) ltac:(vm_compute; discriminate))).
Defined.

(** C2 as stated fails: with I = 0xFFF and X = 1 the cell I + 1 is outside
    memory, and both handlers panic on it instead of completing. *)
Lemma register_dump_load_counterexample :
  wf (indexMachine 0xF155 0xFFF) /\ opX (indexMachine 0xF155 0xFFF) = 1 /\
  indexRegister (indexMachine 0xF155 0xFFF) = 0xFFF /\
  opFX55 (indexMachine 0xF155 0xFFF) = None /\
  wf (indexMachine 0xF165 0xFFF) /\ opX (indexMachine 0xF165 0xFFF) = 1 /\
  indexRegister (indexMachine 0xF165 0xFFF) = 0xFFF /\
  opFX65 (indexMachine 0xF165 0xFFF) = None.
Proof. repeat split; vm_compute; reflexivity. Qed.

(** ** ROM loading *)

Lemma copy_fits (dst : list Z) off (src : list Z) :
  (off + length src <= length dst)%nat ->
  copy dst off src = take off dst ++ src ++ drop (off + length src) dst.
Proof.
  intros Hfit. unfold copy.
  replace (Nat.min (length dst - off) (length src)) with (length src) by lia.
  rewrite (take_ge src) by lia. reflexivity.
Qed.

Lemma copy_length (dst : list Z) off (src : list Z) :
  (off + length src <= length dst)%nat -> length (copy dst off src) = length dst.
Proof.
  intros Hfit. rewrite copy_fits by assumption.
  rewrite !length_app, length_take, length_drop. lia.
Qed.

Lemma copy_lookup_inside (dst : list Z) off (src : list Z) i :
  (off + length src <= length dst)%nat -> (i < length src)%nat ->
  copy dst off src !! (off + i)%nat = src !! i.
Proof.
  intros Hfit Hi. rewrite copy_fits by assumption.
  rewrite lookup_app_r by (rewrite length_take; lia).
  rewrite length_take. replace (off + i - off `min` length dst)%nat with i by lia.
  by apply lookup_app_l.
Qed.

Lemma copy_lookup_outside (dst : list Z) off (src : list Z) j :
  (off + length src <= length dst)%nat -> (j < off \/ off + length src <= j)%nat ->
  copy dst off src !! j = dst !! j.
Proof.
  intros Hfit Hj. rewrite copy_fits by assumption. destruct Hj as [Hj|Hj].
  - rewrite lookup_app_l by (rewrite length_take; lia). by apply lookup_take_lt.
  - rewrite lookup_app_r by (rewrite length_take; lia).
    rewrite length_take.
    rewrite lookup_app_r by lia.
    rewrite lookup_drop. f_equal. lia.
Qed.

(** C8: a ROM image longer than 3584 = 4096 - 512 bytes makes [loadRom]
    fail with an error value and leave the machine, and so its memory, as
    it was; [Run] then returns that error (wrapped by "failed to load ROM")
    whatever the schedule of events, without initialising the machine or
    starting the run loop, so [running] is never set.  An image of at most
    3584 bytes is loaded without error, its bytes verbatim at 0x200 and
    following, the rest of memory unchanged. *)
Theorem loadRom_limit (fs : fileSystem) path data c8 :
  fs path = Some data -> length (memory c8) = 4096%nat ->
  (3584 < Z.of_nat (length data) ->
   loadRom fs path c8 = (c8, Some (ErrRomTooLarge (Z.of_nat (length data)) 3584)) /\
   forall schedule scale profileName,
     Run fs schedule path scale profileName c8
     = Some (c8, Some (ErrFailedToLoadRom
                         (ErrRomTooLarge (Z.of_nat (length data)) 3584)))) /\
  (Z.of_nat (length data) <= 3584 ->
   exists c8',
     loadRom fs path c8 = (c8', None) /\
     length (memory c8') = 4096%nat /\
     (forall i, 0 <= i < Z.of_nat (length data) ->
                load (memory c8') (0x200 + i) = load data i) /\
     take (length data) (drop 512 (memory c8')) = data /\
     (forall a, 0 <= a -> ~ (0x200 <= a < 0x200 + Z.of_nat (length data)) ->
                load (memory c8') a = load (memory c8) a)).
Proof.
  intros Hfs Hlen. split.
  - intros Hbig.
    assert (Hload : loadRom fs path c8
                    = (c8, Some (ErrRomTooLarge (Z.of_nat (length data)) 3584))).
    { unfold loadRom. rewrite Hfs, Hlen. unfold startAddress.
      destruct (Z.gtb_spec (Z.of_nat (length data)) (Z.of_nat 4096 - 512)) as [_|Hle];
        [reflexivity | lia]. }
    split; [exact Hload|].
    intros schedule scale profileName. unfold Run. rewrite Hload. reflexivity.
  - intros Hsmall.
    assert (Hfit : (512 + length data <= length (memory c8))%nat) by lia.
    unfold loadRom. rewrite Hfs, Hlen. unfold startAddress.
    destruct (Z.gtb_spec (Z.of_nat (length data)) (Z.of_nat 4096 - 512)) as [Hgt|_];
      [lia|].
    eexists; split; [reflexivity|].
    change (Z.to_nat 512) with 512%nat.
    cbn [memory set_memory].
    split; [rewrite copy_length; assumption|]. split; [|split].
    + intros i Hi. unfold load.
      replace (Z.to_nat (512 + i)) with (512 + Z.to_nat i)%nat by lia.
      apply copy_lookup_inside; [assumption | lia].
    + rewrite copy_fits by assumption.
      rewrite drop_app_length' by (rewrite length_take; lia).
      by rewrite take_app_length.
    + intros a Ha Hout. unfold load.
      apply copy_lookup_outside; [assumption | lia].
Qed.

Lemma loadRom_limit_witness :
  (loadRom (romFs (replicate 3585 0xFF)) "game.ch8" zeroChip8
   = (zeroChip8, Some (ErrRomTooLarge 3585 3584)) /\
   forall schedule scale profileName,
     Run (romFs (replicate 3585 0xFF)) schedule "game.ch8" scale profileName zeroChip8
     = Some (zeroChip8, Some (ErrFailedToLoadRom (ErrRomTooLarge 3585 3584)))) /\
  (exists c8',
     loadRom (romFs (replicate 3584 0xFF)) "game.ch8" zeroChip8 = (c8', None) /\
     length (memory c8') = 4096%nat /\
     (forall i, 0 <= i < 3584 -> load (memory c8') (0x200 + i) = load (replicate 3584 0xFF) i) /\
     take 3584 (drop 512 (memory c8')) = replicate 3584 0xFF /\
     (forall a, 0 <= a -> ~ (0x200 <= a < 0x200 + 3584) ->
                load (memory c8') a = load (memory zeroChip8) a)).
Proof.
  split.
  - apply (proj1 (loadRom_limit (romFs (replicate 3585 0xFF)) "game.ch8"
                    (replicate 3585 0xFF) zeroChip8 eq_refl eq_refl)).
    vm_compute. reflexivity.
  - apply (proj2 (loadRom_limit (romFs (replicate 3584 0xFF)) "game.ch8"
                    (replicate 3584 0xFF) zeroChip8 eq_refl eq_refl)).
    vm_compute. discriminate.
Defined.

(** ** Drawing *)

Lemma land_pow2_eq_0 a k : 0 <= k -> Z.land a (2 ^ k) = 0 <-> Z.testbit a k = false.
Proof.
  intros Hk. split.
  - intros H0.
    assert (Hb : Z.testbit (Z.land a (2 ^ k)) k = false) by (rewrite H0; apply Z.bits_0).
    rewrite Z.land_spec, Z.pow2_bits_eqb, Z.eqb_refl, andb_true_r in Hb by lia.
    exact Hb.
  - intros Hb. apply Z.bits_inj'. intros n Hn.
    rewrite Z.land_spec, Z.pow2_bits_eqb, Z.bits_0 by lia.
    destruct (Z.eqb_spec k n) as [->|_]; [by rewrite Hb | apply andb_false_r].
Qed.

Lemma maskBit_testbit pixel i : 0 <= i < 8 -> maskBit pixel i = Z.testbit pixel (7 - i).
Proof.
  intros Hi. unfold maskBit.
  assert (Hs : Z.shiftr 0x80 i = 2 ^ (7 - i)).
  { assert (Hc : i = 0 \/ i = 1 \/ i = 2 \/ i = 3 \/ i = 4 \/ i = 5 \/ i = 6 \/ i = 7) by lia.
    destruct Hc as [-> | [-> | [-> | [-> | [-> | [-> | [-> | ->]]]]]]]; reflexivity. }
  rewrite Hs.
  destruct (Z.testbit pixel (7 - i)) eqn:Hb.
  - destruct (Z.eqb_spec (Z.land pixel (2 ^ (7 - i))) 0) as [H0|_]; [|reflexivity].
    apply land_pow2_eq_0 in H0; [congruence | lia].
  - apply land_pow2_eq_0 in Hb; [|lia]. rewrite Hb. reflexivity.
Qed.

Lemma anyRange_true lo n f :
  anyRange lo n f = true <-> exists k, lo <= k < lo + Z.of_nat n /\ f k = true.
Proof.
  revert lo. induction n as [|n IH]; intros lo; cbn [anyRange].
  - split; [discriminate | intros (k & Hk & _); lia].
  - rewrite orb_true_iff, IH. split.
    + intros [Hlo | (k & Hk & Hf)]; [exists lo | exists k]; split; auto; lia.
    + intros (k & Hk & Hf). destruct (Z.eq_dec k lo) as [->|Hne]; [by left|].
      right. exists k. split; [lia | exact Hf].
Qed.

Lemma anyRange_false lo n f :
  anyRange lo n f = false <-> forall k, lo <= k < lo + Z.of_nat n -> f k = false.
Proof.
  rewrite <- not_true_iff_false, anyRange_true. split.
  - intros Hno k Hk. apply not_true_iff_false. intros Hf. apply Hno. eauto.
  - intros Hall (k & Hk & Hf). rewrite Hall in Hf by assumption. discriminate.
Qed.

Lemma anyRange_ext lo n f g :
  (forall k, lo <= k < lo + Z.of_nat n -> f k = g k) -> anyRange lo n f = anyRange lo n g.
Proof.
  revert lo. induction n as [|n IH]; intros lo Hfg; cbn [anyRange]; [reflexivity|].
  rewrite Hfg by lia. f_equal. apply IH. intros k Hk. apply Hfg. lia.
Qed.

Lemma pixelAt_in_grid d r c :
  dims d -> 0 <= r < 32 -> 0 <= c < 64 -> pixelAt d r c = Some (lit d r c).
Proof.
  intros [Hlen Hrows] Hr Hc. unfold lit, pixelAt.
  destruct (load_in_range d r) as [row Hrow]; [lia|]. rewrite Hrow. simpl.
  pose proof (load_Forall _ _ _ _ Hrows Hrow) as Hrowlen. simpl in Hrowlen.
  destruct (load_in_range row c) as [cell Hcell]; [lia|]. by rewrite Hcell.
Qed.

Lemma toggle_dims d r c : dims d -> dims (toggle d r c).
Proof.
  intros [Hlen Hrows]. unfold toggle.
  destruct (load d r) as [row|] eqn:Hrow; [|by split].
  destruct (load row c) as [cell|] eqn:Hcell; [|by split].
  split; [by rewrite length_insert|].
  apply Forall_insert; [assumption|]. rewrite length_insert.
  exact (load_Forall _ _ _ _ Hrows Hrow).
Qed.

Lemma lit_toggle d r c r' c' :
  dims d -> 0 <= r < 32 -> 0 <= c < 64 -> 0 <= r' < 32 -> 0 <= c' < 64 ->
  lit (toggle d r c) r' c' = xorb (lit d r' c') ((r' =? r) && (c' =? c)).
Proof.
  intros [Hlen Hrows] Hr Hc Hr' Hc'. unfold toggle.
  destruct (load_in_range d r) as [row Hrow]; [lia|]. rewrite Hrow.
  pose proof (load_Forall _ _ _ _ Hrows Hrow) as Hrowlen. simpl in Hrowlen.
  destruct (load_in_range row c) as [cell Hcell]; [lia|]. rewrite Hcell.
  unfold lit, pixelAt.
  destruct (Z.eqb_spec r' r) as [->|Hner].
  - rewrite load_store_eq by lia. rewrite Hrow. simpl.
    destruct (Z.eqb_spec c' c) as [->|Hnec].
    + rewrite load_store_eq by lia. rewrite Hcell. simpl. by destruct cell.
    + rewrite load_store_ne by lia. by rewrite xorb_false_r.
  - rewrite load_store_ne by lia. simpl. by rewrite xorb_false_r.
Qed.

Lemma set_display_registers_id s :
  set_display (display s) (set_registers (registers s) s) = s.
Proof. by destruct s. Qed.

Lemma draw_row_index y j : u8 (y + u8 j) mod displayHeight = (y + j) mod 32.
Proof. unfold u8, displayHeight. Z.div_mod_to_equations. lia. Qed.

Lemma draw_column_index x i : u8 (x + u8 i) mod displayWidth = (x + i) mod 64.
Proof. unfold u8, displayWidth. Z.div_mod_to_equations. lia. Qed.

(** The cells addressed by one draw are pairwise distinct: at most 15 rows
    of 8 columns on a grid of 32 by 64 cannot wrap onto themselves. *)
Lemma draw_targets_distinct x y j i j' i' :
  0 <= j < 16 -> 0 <= j' < 16 -> 0 <= i < 8 -> 0 <= i' < 8 ->
  (y + j) mod 32 = (y + j') mod 32 -> (x + i) mod 64 = (x + i') mod 64 ->
  j = j' /\ i = i'.
Proof. intros. Z.div_mod_to_equations. lia. Qed.

Lemma drawBit_clear x y pixel j i s :
  maskBit pixel i = false -> drawBit x y pixel j i s = Some s.
Proof. intros Hb. unfold drawBit. fold (maskBit pixel i). by rewrite Hb. Qed.

(** One set bit: the collision flag is raised if the cell is lit at that
    moment, and the cell is inverted. *)
Lemma drawBit_set x y pixel j i s :
  dims (display s) -> length (registers s) = 16%nat -> maskBit pixel i = true ->
  drawBit x y pixel j i s
  = Some (set_display (toggle (display s) ((y + j) mod 32) ((x + i) mod 64))
            (set_registers
               (if lit (display s) ((y + j) mod 32) ((x + i) mod 64)
                then <[15%nat := 1]> (registers s) else registers s) s)).
Proof.
  intros [Hlen Hrows] Hregs Hb. unfold drawBit. fold (maskBit pixel i). rewrite Hb.
  cbn [negb]. rewrite draw_row_index, draw_column_index.
  assert (Hr : 0 <= (y + j) mod 32 < 32) by (apply Z.mod_pos_bound; lia).
  assert (Hc : 0 <= (x + i) mod 64 < 64) by (apply Z.mod_pos_bound; lia).
  set (r := (y + j) mod 32) in *. set (c := (x + i) mod 64) in *.
  destruct (load_in_range (display s) r) as [row Hrow]; [lia|].
  pose proof (load_Forall _ _ _ _ Hrows Hrow) as Hrowlen. simpl in Hrowlen.
  destruct (load_in_range row c) as [cell Hcell]; [lia|].
  unfold toggle, lit, pixelAt. rewrite Hrow. simpl. rewrite Hcell. simpl.
  destruct cell.
  - rewrite setReg_in_range by lia. simpl. rewrite Hrow. simpl. rewrite Hcell. simpl.
    rewrite store_in_range by lia. simpl.
    rewrite store_in_range by lia. reflexivity.
  - simpl. rewrite Hrow. simpl. rewrite Hcell. simpl.
    rewrite store_in_range by lia. simpl.
    rewrite store_in_range by lia. simpl. by rewrite set_registers_id.
Qed.

Lemma rowCovers_row x r0 pixel lo n r c : rowCovers x r0 pixel lo n r c = true -> r = r0.
Proof.
  unfold rowCovers. rewrite anyRange_true. intros (k & _ & Hk).
  apply andb_prop in Hk as [Hk _]. apply andb_prop in Hk as [_ Hk]. by apply Z.eqb_eq.
Qed.

Lemma rowCovers_column x r0 pixel lo n r c :
  rowCovers x r0 pixel lo n r c = true ->
  exists k, lo <= k < lo + Z.of_nat n /\ c = (x + k) mod 64.
Proof.
  unfold rowCovers. rewrite anyRange_true. intros (k & Hrange & Hk).
  apply andb_prop in Hk as [_ Hk]. exists k. split; [exact Hrange | by apply Z.eqb_eq].
Qed.

Section DrawRow.
Variables x y j pixel r0 : Z.
Hypothesis r0_def : r0 = (y + j) mod 32.

Lemma drawRow_loop n : forall lo s,
  dims (display s) -> length (registers s) = 16%nat ->
  0 <= lo -> lo + Z.of_nat n <= 8 ->
  exists regs' d',
    forRange lo n (drawBit x y pixel j) s = Some (set_display d' (set_registers regs' s)) /\
    dims d' /\ length regs' = 16%nat /\
    (forall k, 0 <= k < 15 -> load regs' k = load (registers s) k) /\
    load regs' 15 = (if rowCollides (display s) x r0 pixel lo n
                     then Some 1 else load (registers s) 15) /\
    (forall r c, 0 <= r < 32 -> 0 <= c < 64 ->
       lit d' r c = xorb (lit (display s) r c) (rowCovers x r0 pixel lo n r c)).
Proof.
  assert (Hr0 : 0 <= r0 < 32) by (rewrite r0_def; apply Z.mod_pos_bound; lia).
  induction n as [|n IH]; intros lo s Hdims Hregs Hlo Hhi.
  - exists (registers s), (display s). cbn [forRange]. rewrite set_display_registers_id.
    repeat split; try assumption; try apply Hdims. intros r c _ _. by rewrite xorb_false_r.
  - cbn [forRange]. unfold rowCollides, rowCovers. cbn [anyRange].
    fold (rowCollides (display s) x r0 pixel (lo + 1) n).
    destruct (maskBit pixel lo) eqn:Hbit.
    + rewrite drawBit_set by assumption. rewrite <- r0_def. simpl.
      set (c0 := (x + lo) mod 64).
      assert (Hc0 : 0 <= c0 < 64) by (apply Z.mod_pos_bound; lia).
      set (R1 := if lit (display s) r0 c0 then <[15%nat:=1]> (registers s) else registers s).
      set (s1 := set_display (toggle (display s) r0 c0) (set_registers R1 s)).
      assert (HR1 : length R1 = 16%nat)
        by (subst R1; destruct (lit (display s) r0 c0); by rewrite ?length_insert).
      destruct (IH (lo + 1) s1 (toggle_dims _ _ _ Hdims) HR1 ltac:(lia) ltac:(lia))
        as (regs' & d' & Hrun & Hd' & Hlen' & Hkeep & Hvf & Hlit).
      exists regs', d'. split; [exact Hrun|]. split; [exact Hd'|]. split; [exact Hlen'|].
      cbn [display registers set_display set_registers s1] in Hkeep, Hvf, Hlit.
      assert (Hcoll : rowCollides (toggle (display s) r0 c0) x r0 pixel (lo + 1) n
                      = rowCollides (display s) x r0 pixel (lo + 1) n).
      { apply anyRange_ext. intros k Hk. f_equal.
        rewrite lit_toggle; try assumption; [|apply Z.mod_pos_bound; lia].
        replace ((x + k) mod 64 =? c0) with false; [by rewrite andb_false_r, xorb_false_r|].
        symmetry. apply Z.eqb_neq. subst c0. Z.div_mod_to_equations. lia. }
      rewrite Hcoll in Hvf. split; [|split].
      * intros k Hk. rewrite Hkeep by assumption. subst R1.
        destruct (lit (display s) r0 c0);
          [apply (load_store_ne (registers s) 15 k 1); lia | reflexivity].
      * rewrite Hvf. subst R1.
        destruct (lit (display s) r0 c0); simpl;
          destruct (rowCollides (display s) x r0 pixel (lo + 1) n); try reflexivity.
        apply (load_store_eq (registers s) 15 1). lia.
      * intros r c Hr Hc. rewrite Hlit by assumption.
        rewrite lit_toggle by assumption. simpl.
        fold (rowCovers x r0 pixel (lo + 1) n r c).
        destruct ((r =? r0) && (c =? c0)) eqn:Hhere;
          destruct (rowCovers x r0 pixel (lo + 1) n r c) eqn:Hlater;
          try (by destruct (lit (display s) r c)).
        exfalso. apply andb_prop in Hhere as [_ Hcc]. apply Z.eqb_eq in Hcc.
        apply rowCovers_column in Hlater as (k & Hk & Hck).
        subst c0. rewrite Hck in Hcc. revert Hcc. Z.div_mod_to_equations. lia.
    + rewrite drawBit_clear by assumption. simpl.
      destruct (IH (lo + 1) s Hdims Hregs ltac:(lia) ltac:(lia))
        as (regs' & d' & Hrun & Hd' & Hlen' & Hkeep & Hvf & Hlit).
      exists regs', d'. repeat split; try assumption; try apply Hd'.
Qed.
End DrawRow.

Lemma drawRow_step x y j s :
  dims (display s) -> length (registers s) = 16%nat -> length (memory s) = 4096%nat ->
  0 <= indexRegister s -> 0 <= j -> indexRegister s + j < 4096 ->
  exists regs' d',
    drawRow x y j s = Some (set_display d' (set_registers regs' s)) /\
    dims d' /\ length regs' = 16%nat /\
    (forall k, 0 <= k < 15 -> load regs' k = load (registers s) k) /\
    load regs' 15 = (if rowCollides (display s) x ((y + j) mod 32) (spriteRow s j) 0 8
                     then Some 1 else load (registers s) 15) /\
    (forall r c, 0 <= r < 32 -> 0 <= c < 64 ->
       lit d' r c
       = xorb (lit (display s) r c) (rowCovers x ((y + j) mod 32) (spriteRow s j) 0 8 r c)).
Proof.
  intros Hdims Hregs Hmem HI Hj Hfit. unfold drawRow, spriteRow.
  rewrite u16_small by lia.
  destruct (load_in_range (memory s) (indexRegister s + j)) as [pixel Hpixel]; [lia|].
  rewrite Hpixel. simpl.
  apply (drawRow_loop x y j pixel ((y + j) mod 32) eq_refl 8 0 s); try assumption; lia.
Qed.

Section DrawSprite.
Variables x y : Z.

Lemma drawSprite_loop n : forall lo s,
  dims (display s) -> length (registers s) = 16%nat -> length (memory s) = 4096%nat ->
  0 <= indexRegister s -> 0 <= lo -> lo + Z.of_nat n <= 16 ->
  (forall j, lo <= j < lo + Z.of_nat n -> indexRegister s + j < 4096) ->
  exists regs' d',
    forRange lo n (drawRow x y) s = Some (set_display d' (set_registers regs' s)) /\
    dims d' /\ length regs' = 16%nat /\
    (forall k, 0 <= k < 15 -> load regs' k = load (registers s) k) /\
    load regs' 15 = (if spriteCollides (display s) s x y lo n
                     then Some 1 else load (registers s) 15) /\
    (forall r c, 0 <= r < 32 -> 0 <= c < 64 ->
       lit d' r c = xorb (lit (display s) r c) (spriteCovers s x y lo n r c)).
Proof.
  induction n as [|n IH]; intros lo s Hdims Hregs Hmem HI Hlo Hhi Hfit.
  - exists (registers s), (display s). cbn [forRange]. rewrite set_display_registers_id.
    repeat split; try assumption; try apply Hdims. intros r c _ _. by rewrite xorb_false_r.
  - cbn [forRange]. unfold spriteCollides, spriteCovers. cbn [anyRange].
    fold (spriteCollides (display s) s x y (lo + 1) n).
    destruct (drawRow_step x y lo s Hdims Hregs Hmem HI Hlo ltac:(apply Hfit; lia))
      as (R1 & d1 & Hrow & Hd1 & HR1 & Hkeep1 & Hvf1 & Hlit1).
    rewrite Hrow. simpl.
    set (s1 := set_display d1 (set_registers R1 s)).
    destruct (IH (lo + 1) s1 Hd1 HR1 Hmem HI ltac:(lia) ltac:(lia)
                ltac:(intros j' Hj'; change (indexRegister s1) with (indexRegister s);
                      apply Hfit; lia))
      as (regs' & d' & Hrun & Hd' & Hlen' & Hkeep & Hvf & Hlit).
    exists regs', d'. split; [exact Hrun|]. split; [exact Hd'|]. split; [exact Hlen'|].
    change (display s1) with d1 in Hvf, Hlit.
    change (registers s1) with R1 in Hkeep, Hvf.
    change (spriteCollides d1 s1 x y (lo + 1) n)
      with (spriteCollides d1 s x y (lo + 1) n) in Hvf.
    assert (Hcoll : spriteCollides d1 s x y (lo + 1) n
                    = spriteCollides (display s) s x y (lo + 1) n).
    { apply anyRange_ext. intros j Hj. apply anyRange_ext. intros i Hi. f_equal.
      rewrite Hlit1 by (apply Z.mod_pos_bound; lia).
      destruct (rowCovers x ((y + lo) mod 32) (spriteRow s lo) 0 8
                  ((y + j) mod 32) ((x + i) mod 64)) eqn:Hcov;
        [|by rewrite xorb_false_r].
      exfalso. apply rowCovers_row in Hcov. revert Hcov. Z.div_mod_to_equations. lia. }
    rewrite Hcoll in Hvf. split; [|split].
    + intros k Hk. rewrite Hkeep, Hkeep1 by assumption. reflexivity.
    + rewrite Hvf, Hvf1.
      destruct (rowCollides (display s) x ((y + lo) mod 32) (spriteRow s lo) 0 8);
        destruct (spriteCollides (display s) s x y (lo + 1) n); reflexivity.
    + intros r c Hr Hc. rewrite Hlit, Hlit1 by assumption.
      change (spriteCovers s1 x y (lo + 1) n r c)
        with (spriteCovers s x y (lo + 1) n r c).
      fold (spriteCovers s x y (lo + 1) n r c).
      destruct (rowCovers x ((y + lo) mod 32) (spriteRow s lo) 0 8 r c) eqn:Hhere;
        destruct (spriteCovers s x y (lo + 1) n r c) eqn:Hlater;
        try (by destruct (lit (display s) r c)).
      exfalso. apply rowCovers_row in Hhere.
      unfold spriteCovers in Hlater. apply anyRange_true in Hlater as (j & Hj & Hcov).
      apply rowCovers_row in Hcov. rewrite Hcov in Hhere.
      revert Hhere. Z.div_mod_to_equations. lia.
Qed.
End DrawSprite.

Lemma spriteCovers_drawnOn c8 x y r c :
  spriteCovers c8 x y 0 (Z.to_nat (opN c8)) r c = true <-> drawnOn c8 x y r c.
Proof.
  pose proof (opN_range c8) as HN.
  unfold spriteCovers, drawnOn. rewrite anyRange_true. split.
  - intros (j & Hj & Hrow). unfold rowCovers in Hrow.
    apply anyRange_true in Hrow as (i & Hi & Hbit).
    apply andb_prop in Hbit as [Hbit Hc]. apply andb_prop in Hbit as [Hbit Hr].
    apply Z.eqb_eq in Hr, Hc. rewrite maskBit_testbit in Hbit by lia.
    exists j, i. repeat split; try assumption; lia.
  - intros (j & i & Hj & Hi & Hbit & Hr & Hc).
    exists j. split; [lia|]. unfold rowCovers. apply anyRange_true.
    exists i. split; [lia|]. rewrite maskBit_testbit by lia.
    fold (spriteBit c8 j i). rewrite Hbit. simpl.
    apply andb_true_intro. split; by apply Z.eqb_eq.
Qed.

Lemma spriteCollides_collision c8 x y :
  spriteCollides (display c8) c8 x y 0 (Z.to_nat (opN c8)) = true <-> collision c8 x y.
Proof.
  pose proof (opN_range c8) as HN.
  unfold spriteCollides, collision, drawnOn. rewrite anyRange_true. split.
  - intros (j & Hj & Hrow). unfold rowCollides in Hrow.
    apply anyRange_true in Hrow as (i & Hi & Hbit).
    apply andb_prop in Hbit as [Hbit Hlit]. rewrite maskBit_testbit in Hbit by lia.
    exists ((y + j) mod 32), ((x + i) mod 64). split; [|exact Hlit].
    exists j, i. repeat split; try assumption; lia.
  - intros (r & c & (j & i & Hj & Hi & Hbit & -> & ->) & Hlit).
    exists j. split; [lia|]. unfold rowCollides. apply anyRange_true.
    exists i. split; [lia|]. rewrite maskBit_testbit by lia.
    fold (spriteBit c8 j i). by rewrite Hbit, Hlit.
Qed.

(** C1 (as amended): on every machine in which each of the N sprite rows
    I..I+N-1 lies inside the 4096 bytes of memory, [DXYN] returns with:
    - every frame-buffer cell that a set sprite bit addresses inverted, and
      every other cell unchanged, where bit i (0 = most significant) of
      sprite row j, read at I + j, addresses row (VY + j) mod 32, column
      (VX + i) mod 64, VX and VY being the register values on entry;
    - VF = 1 if one of the addressed cells was lit, and VF = 0 otherwise,
      however many of them were lit;
    - V0..VE and everything but the frame buffer unchanged.
    As the addressed cells are pairwise distinct
    ([draw_targets_distinct]), a cell is lit just before its XOR exactly
    when it is lit before the instruction. *)
Theorem opDXYN_draws c8 x y :
  wf c8 ->
  load (registers c8) (opX c8) = Some x -> load (registers c8) (opY c8) = Some y ->
  (forall j, 0 <= j < opN c8 -> indexRegister c8 + j < 4096) ->
  exists c8',
    opDXYN c8 = Some c8' /\
    (forall r c, 0 <= r < 32 -> 0 <= c < 64 ->
       (drawnOn c8 x y r c ->
        pixelAt (display c8') r c = Some (negb (lit (display c8) r c))) /\
       (~ drawnOn c8 x y r c ->
        pixelAt (display c8') r c = Some (lit (display c8) r c))) /\
    (collision c8 x y -> load (registers c8') 0xF = Some 1) /\
    (~ collision c8 x y -> load (registers c8') 0xF = Some 0) /\
    (forall k, 0 <= k < 0xF -> load (registers c8') k = load (registers c8) k) /\
    memory c8' = memory c8 /\ indexRegister c8' = indexRegister c8 /\
    programCounter c8' = programCounter c8 /\ callStack c8' = callStack c8 /\
    stackPointer c8' = stackPointer c8 /\ keyPad c8' = keyPad c8 /\
    delayTimer c8' = delayTimer c8 /\ soundTimer c8' = soundTimer c8.
Proof.
  intros Hwf Hx Hy Hfit. unpack_wf Hwf. pose proof (opN_range c8) as HN.
  unfold opDXYN. rewrite Hx. simpl. rewrite Hy. simpl.
  rewrite setReg_in_range by lia. simpl.
  set (s0 := set_registers (<[Z.to_nat 15 := 0]> (registers c8)) c8).
  assert (Hdims : dims (display s0)) by (split; assumption).
  assert (Hregs0 : length (registers s0) = 16%nat)
    by (subst s0; simpl; by rewrite length_insert).
  destruct (drawSprite_loop x y (Z.to_nat (opN c8)) 0 s0 Hdims Hregs0 Hmem
              ltac:(apply Hidx) ltac:(lia) ltac:(lia)
              ltac:(intros j Hj; change (indexRegister s0) with (indexRegister c8);
                    apply Hfit; lia))
    as (regs' & d' & Hrun & Hd' & Hlen' & Hkeep & Hvf & Hlit).
  change (opN s0) with (opN c8). rewrite Hrun.
  eexists; split; [reflexivity|].
  change (display s0) with (display c8) in Hvf, Hlit.
  change (spriteCollides (display c8) s0 x y 0 (Z.to_nat (opN c8)))
    with (spriteCollides (display c8) c8 x y 0 (Z.to_nat (opN c8))) in Hvf.
  change (registers s0) with (<[Z.to_nat 15 := 0]> (registers c8)) in Hkeep, Hvf.
  rewrite load_store_eq in Hvf by lia.
  cbn [display registers memory indexRegister programCounter callStack stackPointer
       keyPad delayTimer soundTimer set_display set_registers s0].
  split; [|split; [|split; [|split; [|repeat split]]]].
  - intros r c Hr Hc. rewrite pixelAt_in_grid by assumption. rewrite Hlit by assumption.
    change (spriteCovers s0 x y 0 (Z.to_nat (opN c8)) r c)
      with (spriteCovers c8 x y 0 (Z.to_nat (opN c8)) r c).
    split; intros Hcov.
    + apply spriteCovers_drawnOn in Hcov. rewrite Hcov. by rewrite xorb_true_r.
    + rewrite <- spriteCovers_drawnOn in Hcov. apply not_true_is_false in Hcov.
      rewrite Hcov. by rewrite xorb_false_r.
  - intros Hcoll. apply spriteCollides_collision in Hcoll. by rewrite Hvf, Hcoll.
  - intros Hcoll. rewrite <- spriteCollides_collision in Hcoll.
    apply not_true_is_false in Hcoll. by rewrite Hvf, Hcoll.
  - intros k Hk. rewrite Hkeep by lia. apply load_store_ne; lia.
Qed.

Lemma opDXYN_draws_witness :
  exists c8',
    opDXYN (drawMachine 0x300) = Some c8' /\
    (forall r c, 0 <= r < 32 -> 0 <= c < 64 ->
       (drawnOn (drawMachine 0x300) 62 31 r c ->
        pixelAt (display c8') r c = Some (negb (lit (display (drawMachine 0x300)) r c))) /\
       (~ drawnOn (drawMachine 0x300) 62 31 r c ->
        pixelAt (display c8') r c = Some (lit (display (drawMachine 0x300)) r c))) /\
    (collision (drawMachine 0x300) 62 31 -> load (registers c8') 0xF = Some 1) /\
    (~ collision (drawMachine 0x300) 62 31 -> load (registers c8') 0xF = Some 0) /\
    (forall k, 0 <= k < 0xF ->
               load (registers c8') k = load (registers (drawMachine 0x300)) k) /\
    memory c8' = memory (drawMachine 0x300) /\
    indexRegister c8' = indexRegister (drawMachine 0x300) /\
    programCounter c8' = programCounter (drawMachine 0x300) /\
    callStack c8' = callStack (drawMachine 0x300) /\
    stackPointer c8' = stackPointer (drawMachine 0x300) /\
    keyPad c8' = keyPad (drawMachine 0x300) /\
    delayTimer c8' = delayTimer (drawMachine 0x300) /\
    soundTimer c8' = soundTimer (drawMachine 0x300).
Proof.
  apply (opDXYN_draws (drawMachine 0x300) 62 31).
  - vm_compute. reflexivity.
  - reflexivity.
  - reflexivity.
  - intros j Hj. change (opN (drawMachine 0x300)) with 2 in Hj.
    change (indexRegister (drawMachine 0x300)) with 0x300. lia.
Defined.

(** C1 as stated fails: with I = 0xFFF and N = 2 the second sprite row is
    outside memory, and the handler panics on reading it. *)
Lemma opDXYN_every_state_counterexample :
  wf (drawMachine 0xFFF) /\ indexRegister (drawMachine 0xFFF) = 0xFFF /\
  opN (drawMachine 0xFFF) = 2 /\ opDXYN (drawMachine 0xFFF) = None.
Proof. repeat split; vm_compute; reflexivity. Qed.

(** The draw of [drawMachine] evaluated: the sprite wraps around both
    axes, the lit pixel at (31, 63) collides and is cleared. *)
Example opDXYN_wraps :
  exists c8',
    opDXYN (drawMachine 0x300) = Some c8' /\
    lit (display c8') 31 62 = true /\ lit (display c8') 31 63 = false /\
    lit (display c8') 31 0 = true /\ lit (display c8') 31 5 = true /\
    lit (display c8') 0 62 = true /\ lit (display c8') 0 63 = false /\
    lit (display c8') 0 5 = true /\ lit (display c8') 1 62 = false /\
    load (registers c8') 0xF = Some 1.
Proof. eexists. split; [vm_compute; reflexivity|]. repeat split. Qed.

(** The test of the specification: an all-ones row drawn at (0, 0) on an
    empty screen lights cells 0..7 of row 0 with VF = 0; drawn again it
    clears them with VF = 1. *)
Example opDXYN_twice :
  exists c1 c2,
    opDXYN drawOnceMachine = Some c1 /\ opDXYN c1 = Some c2 /\
    take 9 (default [] (load (display c1) 0))
    = [true; true; true; true; true; true; true; true; false] /\
    load (registers c1) 0xF = Some 0 /\
    display c2 = display drawOnceMachine /\
    load (registers c2) 0xF = Some 1.
Proof.
  eexists. eexists. split; [vm_compute; reflexivity|].
  split; [vm_compute; reflexivity|]. repeat split.
Qed.

(** * Further properties *)

(** ** Bytes and bits *)

Lemma below_pow2_bits z w :
  0 <= w -> (0 <= z < 2 ^ w <-> 0 <= z /\ forall n, w <= n -> Z.testbit z n = false).
Proof.
  intros Hw. split.
  - intros Hz. split; [lia|]. intros n Hn.
    destruct (Z.eq_dec z 0) as [->|Hnz]; [apply Z.bits_0|].
    apply Z.bits_above_log2; [lia|].
    apply Z.lt_le_trans with w; [apply Z.log2_lt_pow2; lia | lia].
  - intros [Hz Hbits]. split; [lia|].
    assert (Hmod : z mod 2 ^ w = z).
    { apply Z.bits_inj'. intros n Hn. destruct (Z.ltb_spec n w).
      - apply Z.mod_pow2_bits_low. lia.
      - rewrite Z.mod_pow2_bits_high by lia. symmetry. apply Hbits. lia. }
    rewrite <- Hmod. apply Z.mod_pos_bound. apply Z.pow_pos_nonneg; lia.
Qed.

Lemma lor_below_pow2 a b w :
  0 <= w -> 0 <= a < 2 ^ w -> 0 <= b < 2 ^ w -> 0 <= Z.lor a b < 2 ^ w.
Proof.
  intros Hw Ha Hb. apply below_pow2_bits in Ha as [Ha0 Ha], Hb as [Hb0 Hb]; try assumption.
  apply below_pow2_bits; [assumption|]. split; [by apply Z.lor_nonneg|].
  intros n Hn. by rewrite Z.lor_spec, Ha, Hb.
Qed.

Lemma lxor_below_pow2 a b w :
  0 <= w -> 0 <= a < 2 ^ w -> 0 <= b < 2 ^ w -> 0 <= Z.lxor a b < 2 ^ w.
Proof.
  intros Hw Ha Hb. apply below_pow2_bits in Ha as [Ha0 Ha], Hb as [Hb0 Hb]; try assumption.
  apply below_pow2_bits; [assumption|]. split; [by apply Z.lxor_nonneg|].
  intros n Hn. by rewrite Z.lxor_spec, Ha, Hb.
Qed.

Lemma land_below_pow2 a b w :
  0 <= w -> 0 <= b < 2 ^ w -> 0 <= Z.land a b < 2 ^ w.
Proof.
  intros Hw Hb. apply below_pow2_bits in Hb as [Hb0 Hb]; try assumption.
  apply below_pow2_bits; [assumption|]. split; [apply Z.land_nonneg; by right|].
  intros n Hn. rewrite Z.land_spec, Hb by assumption. apply andb_false_r.
Qed.

Lemma land_le a b : 0 <= a -> 0 <= b -> Z.land a b <= b.
Proof.
  intros Ha Hb.
  assert (Hsum : Z.land a b + Z.ldiff b a = b).
  { rewrite Z.add_nocarry_lxor.
    - apply Z.bits_inj'. intros n Hn.
      rewrite Z.lxor_spec, Z.land_spec, Z.ldiff_spec.
      by destruct (Z.testbit a n), (Z.testbit b n).
    - apply Z.bits_inj'. intros n Hn.
      rewrite !Z.land_spec, Z.ldiff_spec, Z.bits_0.
      by destruct (Z.testbit a n), (Z.testbit b n). }
  assert (0 <= Z.ldiff b a) by (apply Z.ldiff_nonneg; by left).
  lia.
Qed.

Lemma lor_shiftl_byte hi lo :
  0 <= hi -> 0 <= lo < 256 -> Z.lor (Z.shiftl hi 8) lo = 256 * hi + lo.
Proof.
  intros Hhi Hlo.
  assert (Hdisj : Z.land (Z.shiftl hi 8) lo = 0).
  { apply Z.bits_inj'. intros n Hn. rewrite Z.land_spec, Z.bits_0.
    destruct (Z.ltb_spec n 8).
    - rewrite Z.shiftl_spec_low by lia. reflexivity.
    - destruct (proj1 (below_pow2_bits lo 8 ltac:(lia)) Hlo) as [_ Hbits].
      rewrite Hbits by lia. apply andb_false_r. }
  rewrite <- Z.lxor_lor by assumption.
  rewrite <- Z.add_nocarry_lxor by assumption.
  rewrite Z.shiftl_mul_pow2 by lia. change (2 ^ 8) with 256. lia.
Qed.


(** ** Every handler keeps the machine well-formed and stays in its footprint *)

Lemma Forall_forallb {A} (f : A -> bool) (P : A -> Prop) (l : list A) :
  (forall x, f x = true <-> P x) -> Forall P l -> forallb f l = true.
Proof.
  intros HfP Hall. apply forallb_forall. intros x Hx. apply HfP.
  rewrite Forall_forall in Hall. apply Hall. by apply list_elem_of_In.
Qed.

Lemma wf_pack c8 :
  length (registers c8) = 16%nat -> Forall (fun z => 0 <= z < 256) (registers c8) ->
  length (memory c8) = 4096%nat -> Forall (fun z => 0 <= z < 256) (memory c8) ->
  0 <= programCounter c8 < 65536 -> 0 <= indexRegister c8 < 65536 ->
  length (callStack c8) = 16%nat -> Forall (fun z => 0 <= z < 65536) (callStack c8) ->
  0 <= stackPointer c8 < 256 -> 0 <= opcode c8 < 65536 ->
  length (keyPad c8) = 16%nat -> Forall (fun z => 0 <= z < 256) (keyPad c8) ->
  0 <= delayTimer c8 < 256 -> 0 <= soundTimer c8 < 256 ->
  length (display c8) = 32%nat -> Forall (fun row => length row = 64%nat) (display c8) ->
  wf c8.
Proof.
  intros. unfold wf, wfb.
  repeat match goal with |- _ && _ = true => apply andb_true_intro; split end;
    first [ by apply Nat.eqb_eq | by apply isU8_range | by apply isU16_range
          | eapply Forall_forallb; [|eassumption]; intros x; simpl;
            first [apply isU8_range | apply isU16_range | apply Nat.eqb_eq] ].
Qed.

Lemma store_inv {A} (a a' : list A) i v :
  store a i v = Some a' -> (Z.to_nat i < length a)%nat /\ a' = <[Z.to_nat i := v]> a.
Proof. unfold store. case_decide; [|discriminate]. intros [= <-]. by split. Qed.

Lemma u8_range z : 0 <= u8 z < 256.
Proof. unfold u8. apply Z.mod_pos_bound. lia. Qed.

Lemma u16_range z : 0 <= u16 z < 65536.
Proof. unfold u16. apply Z.mod_pos_bound. lia. Qed.

Lemma opNNN_range c : 0 <= opNNN c < 4096.
Proof.
  unfold opNNN. change 0x0FFF with (Z.ones 12). rewrite Z.land_ones by lia.
  apply Z.mod_pos_bound. lia.
Qed.

Lemma opKK_range c : 0 <= opKK c < 256.
Proof. apply u8_range. Qed.

(** The machine after a sequence of assignments is well-formed when each
    assigned value fits its field. *)
Ltac wf_fields :=
  apply wf_pack; cbn [registers memory programCounter indexRegister callStack stackPointer
                       opcode keyPad delayTimer soundTimer display scaleFactor running
                       activeProfile set_registers set_memory set_programCounter
                       set_indexRegister set_callStack set_stackPointer set_opcode set_keyPad
                       set_delayTimer set_soundTimer set_display set_scaleFactor set_running
                       set_activeProfile skip];
  try assumption;
  try (rewrite ?length_insert; assumption);
  try apply u8_range; try apply u16_range.

Ltac same_fields :=
  let f := fresh "f" in let Hf := fresh "Hf" in
  intros f Hf; destruct f; try reflexivity;
  exfalso; apply Hf; simpl; auto 10.

(** Splits a successful run of binds into its steps. *)
Ltac split_binds H :=
  repeat match type of H with
         | (_ ≫= _) = Some _ =>
             let x := fresh "x" in let Hx := fresh "Hx" in
             apply bind_Some in H as (x & Hx & H)
         end.

Ltac invert_stores :=
  repeat match goal with
         | H : store _ _ _ = Some _ |- _ =>
             let Hr := fresh "Hin" in apply store_inv in H as [Hr ->]
         | H : setReg _ _ _ = Some _ |- _ =>
             unfold setReg in H; split_binds H; injection H as <-
         | H : setMem _ _ _ = Some _ |- _ =>
             unfold setMem in H; split_binds H; injection H as <-
         end.

Lemma op00E0_confined : confined [Fdisplay] op00E0.
Proof.
  intros c c' Hwf H. unpack_wf Hwf. unfold op00E0 in H. injection H as <-.
  split; [|same_fields]. wf_fields.
  - reflexivity.
  - repeat constructor.
Qed.

Lemma op00EE_confined : confined [FstackPointer; FprogramCounter] op00EE.
Proof.
  intros c c' Hwf H. unpack_wf Hwf. unfold op00EE in H. split_binds H. injection H as <-.
  split; [|same_fields]. wf_fields.
  exact (load_Forall _ _ _ _ Hcs_v Hx).
Qed.

Lemma op1NNN_confined : confined [FprogramCounter] op1NNN.
Proof.
  intros c c' Hwf H. unpack_wf Hwf. unfold op1NNN in H. injection H as <-.
  split; [|same_fields]. wf_fields. pose proof (opNNN_range c). lia.
Qed.

Lemma op2NNN_confined : confined [FcallStack; FstackPointer; FprogramCounter] op2NNN.
Proof.
  intros c c' Hwf H. unpack_wf Hwf. unfold op2NNN in H. split_binds H. injection H as <-.
  invert_stores. split; [|same_fields]. wf_fields.
  - pose proof (opNNN_range c). lia.
  - by apply Forall_insert.
Qed.


Lemma flag_range (b : bool) : 0 <= (if b then 1 else 0) < 256.
Proof. destruct b; lia. Qed.

Lemma shiftr1_range z : 0 <= z < 256 -> 0 <= Z.shiftr z 1 < 256.
Proof.
  intros Hz. rewrite Z.shiftr_div_pow2 by lia. change (2 ^ 1) with 2.
  split; [apply Z.div_pos; lia | apply Z.div_lt_upper_bound; lia].
Qed.

Lemma msb_range z : 0 <= Z.shiftr (Z.land z 0x80) 7 < 256.
Proof.
  pose proof (land_below_pow2 z 0x80 8 ltac:(lia) ltac:(simpl; lia)) as H.
  change (2 ^ 8) with 256 in H.
  rewrite Z.shiftr_div_pow2 by lia. change (2 ^ 7) with 128.
  split; [apply Z.div_pos; lia | apply Z.div_lt_upper_bound; lia].
Qed.

Lemma byte_land_r a b : 0 <= b < 256 -> 0 <= Z.land a b < 256.
Proof. intros Hb. apply (land_below_pow2 a b 8); [lia | exact Hb]. Qed.

Lemma byte_lor a b : 0 <= a < 256 -> 0 <= b < 256 -> 0 <= Z.lor a b < 256.
Proof. intros Ha Hb. apply (lor_below_pow2 a b 8); [lia | exact Ha | exact Hb]. Qed.

Lemma byte_lxor a b : 0 <= a < 256 -> 0 <= b < 256 -> 0 <= Z.lxor a b < 256.
Proof. intros Ha Hb. apply (lxor_below_pow2 a b 8); [lia | exact Ha | exact Hb]. Qed.

(** The bytes read from an array of bytes, also after assignments of
    bytes to it. *)
Ltac byte_values :=
  repeat first
    [ assumption | apply u8_range | apply u16_range | apply flag_range
    | apply opKK_range | apply msb_range
    | apply shiftr1_range | apply byte_land_r | apply byte_lor | apply byte_lxor
    | apply Forall_insert
    | match goal with
      | H : load ?l _ = Some ?v |- 0 <= ?v < _ =>
          refine (load_Forall (fun z => 0 <= z < _) l _ v _ H)
      end
    | lia ].

Ltac confine h :=
  let c := fresh "c" in let c' := fresh "c'" in
  let Hwf := fresh "Hwf" in let H := fresh "H" in
  intros c c' Hwf H; unpack_wf Hwf; unfold h in H; split_binds H;
  try (injection H as <-); invert_stores;
  try match goal with |- context [if ?b then skip _ else _] => destruct b end;
  (split; [|same_fields]); wf_fields; byte_values.

Lemma op3XKK_confined : confined [FprogramCounter] op3XKK.
Proof. confine op3XKK. Qed.

Lemma op4XKK_confined : confined [FprogramCounter] op4XKK.
Proof. confine op4XKK. Qed.

Lemma op5XY0_confined : confined [FprogramCounter] op5XY0.
Proof. confine op5XY0. Qed.

Lemma op9XY0_confined : confined [FprogramCounter] op9XY0.
Proof. confine op9XY0. Qed.

Lemma op6XKK_confined : confined [Fregisters] op6XKK.
Proof. confine op6XKK. Qed.

Lemma op7XKK_confined : confined [Fregisters] op7XKK.
Proof. confine op7XKK. Qed.

Lemma op8XY0_confined : confined [Fregisters] op8XY0.
Proof. confine op8XY0. Qed.

Lemma op8XY1_confined : confined [Fregisters] op8XY1.
Proof. confine op8XY1. Qed.

Lemma op8XY2_confined : confined [Fregisters] op8XY2.
Proof. confine op8XY2. Qed.

Lemma op8XY3_confined : confined [Fregisters] op8XY3.
Proof. confine op8XY3. Qed.

Lemma op8XY4_confined : confined [Fregisters] op8XY4.
Proof. confine op8XY4. Qed.

Lemma op8XY5_confined : confined [Fregisters] op8XY5.
Proof. confine op8XY5. Qed.

Lemma op8XY6_confined : confined [Fregisters] op8XY6.
Proof. confine op8XY6. Qed.

Lemma op8XY7_confined : confined [Fregisters] op8XY7.
Proof. confine op8XY7. Qed.

Lemma op8XYE_confined : confined [Fregisters] op8XYE.
Proof. confine op8XYE. Qed.

Lemma opANNN_confined : confined [FindexRegister] opANNN.
Proof. confine opANNN. pose proof (opNNN_range c). lia. Qed.

Lemma opBNNN_confined : confined [FprogramCounter] opBNNN.
Proof. confine opBNNN. Qed.

Lemma opCXKK_confined rnd : confined [Fregisters] (opCXKK rnd).
Proof. confine opCXKK. Qed.

Lemma opEX9E_confined : confined [FprogramCounter] opEX9E.
Proof. confine opEX9E. Qed.

Lemma opEXA1_confined : confined [FprogramCounter] opEXA1.
Proof. confine opEXA1. Qed.

Lemma opFX07_confined : confined [Fregisters] opFX07.
Proof. confine opFX07. Qed.

Lemma opFX15_confined : confined [FdelayTimer] opFX15.
Proof. confine opFX15. Qed.

Lemma opFX18_confined : confined [FsoundTimer] opFX18.
Proof. confine opFX18. Qed.

Lemma opFX1E_confined : confined [FindexRegister] opFX1E.
Proof. confine opFX1E. Qed.

Lemma opFX29_confined : confined [FindexRegister] opFX29.
Proof. confine opFX29. Qed.


Lemma mod10_range z : 0 <= z mod 10 < 256.
Proof. pose proof (Z.mod_pos_bound z 10 ltac:(lia)). lia. Qed.

Lemma opFX33_confined : confined [Fmemory] opFX33.
Proof. confine opFX33; apply mod10_range. Qed.

Lemma sameField_trans f c1 c2 c3 :
  sameField f c1 c2 -> sameField f c2 c3 -> sameField f c1 c3.
Proof. destruct f; simpl; congruence. Qed.

Lemma confined_refl ws c : wf c -> wf c /\ forall f, ~ In f ws -> sameField f c c.
Proof. intros Hwf. split; [exact Hwf|]. intros f _. by destruct f. Qed.

Lemma forRange_invariant {S} (P : S -> Prop) (body : Z -> S -> option S) :
  (forall i s s', P s -> body i s = Some s' -> P s') ->
  forall n lo s s', P s -> forRange lo n body s = Some s' -> P s'.
Proof.
  intros Hbody. induction n as [|n IH]; intros lo s s' HP Hrun; cbn [forRange] in Hrun.
  - by injection Hrun as <-.
  - apply bind_Some in Hrun as (s1 & Hstep & Hrest). eauto.
Qed.

(** A loop of confined steps is confined. *)
Lemma forRange_confined ws (body : Z -> opcodeHandler) :
  (forall i, confined ws (body i)) -> forall n lo, confined ws (forRange lo n body).
Proof.
  intros Hbody n lo c c' Hwf Hrun.
  apply (forRange_invariant
           (fun s => wf s /\ forall f, ~ In f ws -> sameField f c s) body)
    with (n := n) (lo := lo) (s := c); [|by apply confined_refl|exact Hrun].
  intros i s s' [Hs Hsame] Hstep. destruct (Hbody i s s' Hs Hstep) as [Hs' Hsame'].
  split; [exact Hs'|]. intros f Hf. eapply sameField_trans; eauto.
Qed.

Lemma dumpReg_confined i : confined [Fmemory] (dumpReg i).
Proof. confine dumpReg. Qed.

Lemma loadReg_confined i : confined [Fregisters] (loadReg i).
Proof. confine loadReg. Qed.

Lemma confined_weaken ws ws' h : incl ws ws' -> confined ws h -> confined ws' h.
Proof.
  intros Hincl Hh c c' Hwf Hrun. destruct (Hh c c' Hwf Hrun) as [Hwf' Hsame].
  split; [exact Hwf'|]. intros f Hf. apply Hsame. intros Hin. apply Hf. by apply Hincl.
Qed.

Ltac same_fields_via Hsame :=
  let f := fresh "f" in let Hf := fresh "Hf" in let Hs := fresh "Hs" in
  intros f Hf; pose proof (Hsame f) as Hs; destruct f; simpl in Hs |- *;
  first [ apply Hs; intuition discriminate | exfalso; apply Hf; simpl; auto 10 ].

Lemma opFX55_confined : confined [Fmemory; FindexRegister] opFX55.
Proof.
  intros c c' Hwf H. unfold opFX55 in H. apply bind_Some in H as (c1 & Hloop & H).
  injection H as <-.
  destruct (forRange_confined [Fmemory] dumpReg dumpReg_confined _ _ c c1 Hwf Hloop)
    as [Hwf1 Hsame].
  unpack_wf Hwf1. split.
  - wf_fields.
  - same_fields_via Hsame.
Qed.

Lemma opFX65_confined : confined [Fregisters; FindexRegister] opFX65.
Proof.
  intros c c' Hwf H. unfold opFX65 in H. apply bind_Some in H as (c1 & Hloop & H).
  injection H as <-.
  destruct (forRange_confined [Fregisters] loadReg loadReg_confined _ _ c c1 Hwf Hloop)
    as [Hwf1 Hsame].
  unpack_wf Hwf1. split.
  - wf_fields.
  - same_fields_via Hsame.
Qed.

Lemma scanKey_confined vx : forall key (st st' : Chip8 * bool) c,
  (wf (fst st) /\ forall f, ~ In f [Fregisters] -> sameField f c (fst st)) ->
  scanKey vx key st = Some st' ->
  wf (fst st') /\ forall f, ~ In f [Fregisters] -> sameField f c (fst st').
Proof.
  intros key [c1 p] st' c [Hwf Hsame] H. simpl in Hwf, Hsame.
  unfold scanKey in H. apply bind_Some in H as (k & Hk & H).
  destruct (negb (k =? 0)).
  - apply bind_Some in H as (c2 & Hset & H). injection H as <-. simpl.
    assert (Hc : confined [Fregisters] (setReg vx (u8 key))).
    { clear. intros c c' Hwf H. unpack_wf Hwf. invert_stores.
      split; [|same_fields]. wf_fields; byte_values. }
    destruct (Hc c1 c2 Hwf Hset) as [Hwf2 Hsame2].
    split; [exact Hwf2|]. intros f Hf. eapply sameField_trans; eauto.
  - injection H as <-. by split.
Qed.

Lemma opFX0A_confined : confined [Fregisters; FprogramCounter] opFX0A.
Proof.
  intros c c' Hwf H. unfold opFX0A in H. apply bind_Some in H as ([c1 p] & Hloop & H).
  injection H as <-.
  destruct (forRange_invariant
              (fun st : Chip8 * bool =>
                 wf (fst st) /\ forall f, ~ In f [Fregisters] -> sameField f c (fst st))
              (scanKey (opX c))
              (fun i s s' HP Hs => scanKey_confined (opX c) i s s' c HP Hs)
              _ _ (c, false) (c1, p) (confined_refl _ c Hwf) Hloop) as [Hwf1 Hsame].
  simpl in Hwf1, Hsame. unpack_wf Hwf1. split.
  - destruct (negb p); [wf_fields; byte_values | exact Hwf1].
  - destruct (negb p); same_fields_via Hsame.
Qed.

Lemma drawBit_confined x y pixel j i : confined [Fregisters; Fdisplay] (drawBit x y pixel j i).
Proof.
  intros c c' Hwf H. unfold drawBit in H.
  destruct (negb (Z.land pixel (Z.shiftr 128 i) =? 0)); [|injection H as <-; by apply confined_refl].
  apply bind_Some in H as (row & Hrow & H). apply bind_Some in H as (cell & Hcell & H).
  apply bind_Some in H as (c1 & Hflag & H).
  assert (H1 : wf c1 /\ display c1 = display c /\
               forall f, ~ In f [Fregisters; Fdisplay] -> sameField f c c1).
  { destruct cell.
    - unpack_wf Hwf. invert_stores. split; [wf_fields; byte_values|].
      split; [reflexivity|same_fields].
    - injection Hflag as <-. split; [exact Hwf|]. split; [reflexivity|].
      intros f _. by destruct f. }
  destruct H1 as (Hwf1 & Hd1 & Hsame1). clear Hflag Hrow Hcell row cell.
  apply bind_Some in H as (row & Hrow & H). apply bind_Some in H as (cell & Hcell & H).
  apply bind_Some in H as (row' & Hrow' & H). apply bind_Some in H as (d & Hd & H).
  injection H as <-. unpack_wf Hwf1. invert_stores.
  pose proof (load_Forall _ _ _ _ Hdisp_rows Hrow) as Hrowlen. simpl in Hrowlen.
  split.
  - wf_fields. apply Forall_insert; [assumption|]. by rewrite length_insert.
  - same_fields_via Hsame1.
Qed.

Lemma drawRow_confined x y j : confined [Fregisters; Fdisplay] (drawRow x y j).
Proof.
  intros c c' Hwf H. unfold drawRow in H. apply bind_Some in H as (pixel & _ & H).
  exact (forRange_confined _ _ (drawBit_confined x y pixel j) _ _ c c' Hwf H).
Qed.

Lemma opDXYN_confined : confined [Fregisters; Fdisplay] opDXYN.
Proof.
  intros c c' Hwf H. unfold opDXYN in H.
  apply bind_Some in H as (x & _ & H). apply bind_Some in H as (y & _ & H).
  apply bind_Some in H as (c1 & Hreset & H).
  assert (Hc : confined [Fregisters; Fdisplay] (setReg 0xF 0)).
  { clear. intros c c' Hwf H. unpack_wf Hwf. invert_stores.
    split; [|same_fields]. wf_fields; byte_values. }
  destruct (Hc c c1 Hwf Hreset) as [Hwf1 Hsame1].
  destruct (forRange_confined _ _ (drawRow_confined x y) _ _ c1 c' Hwf1 H) as [Hwf' Hsame'].
  split; [exact Hwf'|]. intros f Hf. eapply sameField_trans; eauto.
Qed.


Create HintDb confinement.

#[local] Hint Resolve op00E0_confined op00EE_confined op1NNN_confined op2NNN_confined
  op3XKK_confined op4XKK_confined op5XY0_confined op6XKK_confined op7XKK_confined
  op8XY0_confined op8XY1_confined op8XY2_confined op8XY3_confined op8XY4_confined
  op8XY5_confined op8XY6_confined op8XY7_confined op8XYE_confined op9XY0_confined
  opANNN_confined opBNNN_confined opCXKK_confined opDXYN_confined opEX9E_confined
  opEXA1_confined opFX07_confined opFX0A_confined opFX15_confined opFX18_confined
  opFX1E_confined opFX29_confined opFX33_confined opFX55_confined opFX65_confined
  : confinement.

(** Every entry of the dispatch table is confined to the footprint of its key. *)
Lemma dispatchTable_confined rnd key (handler : opcodeHandler) :
  dispatchTable rnd !! key = Some handler -> confined (writes key) handler.
Proof.
  unfold dispatchTable. intros H. apply elem_of_list_to_map_2 in H.
  repeat (apply elem_of_cons in H as [H | H];
          [injection H as -> ->; simpl writes; auto with confinement|]).
  by apply elem_of_nil in H.
Qed.

Lemma fetch_skip_wf c8 c1 : wf c8 -> fetch c8 = Some c1 -> wf (skip c1).
Proof.
  intros Hwf Hf. unpack_wf Hwf. unfold fetch in Hf.
  apply bind_Some in Hf as (hi & Hhi & Hf). apply bind_Some in Hf as (lo & Hlo & Hf).
  injection Hf as <-.
  pose proof (load_Forall _ _ _ _ Hmem_v Hhi) as Hhi_v.
  pose proof (load_Forall _ _ _ _ Hmem_v Hlo) as Hlo_v. simpl in Hhi_v, Hlo_v.
  wf_fields.
  apply (lor_below_pow2 _ _ 16); [lia | apply u16_range | lia].
Qed.

Lemma cycle_confined rnd c8 c1 c' :
  wf c8 -> fetch c8 = Some c1 -> cycle rnd c8 = Some c' ->
  wf c' /\
  forall f, ~ In f (Fopcode :: FprogramCounter :: writes (decodeOpcode c1)) ->
            sameField f c8 c'.
Proof.
  intros Hwf Hf Hrun. pose proof (fetch_skip_wf _ _ Hwf Hf) as Hwf1.
  destruct (fetch_inv _ _ Hwf Hf) as (op & -> & _).
  unfold cycle in Hrun. rewrite Hf in Hrun. unfold mbind, option_bind in Hrun.
  cbv beta iota in Hrun.
  change (decodeOpcode (skip (set_opcode op c8))) with (decodeOpcode (set_opcode op c8)) in Hrun.
  destruct (dispatchTable rnd !! decodeOpcode (set_opcode op c8)) as [handler|] eqn:Hd.
  - destruct (dispatchTable_confined rnd _ handler Hd _ _ Hwf1 Hrun) as [Hwf' Hsame].
    split; [exact Hwf'|]. intros f Hf'.
    assert (Hs : sameField f (skip (set_opcode op c8)) c')
      by (apply Hsame; intros Hin; apply Hf'; right; right; exact Hin).
    destruct f; try exact Hs; exfalso; apply Hf'; simpl; auto.
  - injection Hrun as <-. split; [exact Hwf1|].
    intros f Hf'. destruct f; try reflexivity; exfalso; apply Hf'; simpl; auto.
Qed.


(** ** Invariants of the cycle and of the run loop *)

Lemma cycle_fetched rnd c8 c' : cycle rnd c8 = Some c' -> exists c1, fetch c8 = Some c1.
Proof. unfold cycle. intros H. apply bind_Some in H as (c1 & Hf & _). eauto. Qed.

Lemma cycle_wf rnd c8 c' : wf c8 -> cycle rnd c8 = Some c' -> wf c'.
Proof.
  intros Hwf Hrun. destruct (cycle_fetched _ _ _ Hrun) as [c1 Hf].
  exact (proj1 (cycle_confined rnd c8 c1 c' Hwf Hf Hrun)).
Qed.

(** X1: a cycle that returns leaves a well-formed machine well-formed: every
    array keeps its size and every field stays in the range of its type. *)
Theorem cycle_keeps_well_formed rnd c8 c' :
  wf c8 -> cycle rnd c8 = Some c' -> wf c'.
Proof. exact (cycle_wf rnd c8 c'). Qed.

Lemma cycle_keeps_well_formed_witness :
  wf (default zeroChip8 (cycle 0 (callMachine 3))).
Proof.
  apply (cycle_keeps_well_formed 0 (callMachine 3)).
  - vm_compute. reflexivity.
  - vm_compute. reflexivity.
Defined.

(** X2: a cycle assigns to the opcode latch, to the program counter and to the
    fields in the footprint of the executed instruction, and to nothing
    else; a word without a handler has an empty footprint. *)
Theorem cycle_writes_only_footprint rnd c8 c1 c' :
  wf c8 -> fetch c8 = Some c1 -> cycle rnd c8 = Some c' ->
  forall f, ~ In f (Fopcode :: FprogramCounter :: writes (decodeOpcode c1)) ->
            sameField f c8 c'.
Proof. intros Hwf Hf Hrun. exact (proj2 (cycle_confined rnd c8 c1 c' Hwf Hf Hrun)). Qed.

Lemma cycle_writes_only_footprint_witness :
  sameField Fmemory (callMachine 3) (default zeroChip8 (cycle 0 (callMachine 3))).
Proof.
  apply (cycle_writes_only_footprint 0 (callMachine 3) (set_opcode 0x2300 (callMachine 3))).
  - vm_compute. reflexivity.
  - vm_compute. reflexivity.
  - vm_compute. reflexivity.
  - simpl. intuition discriminate.
Defined.

Lemma writers_of_field rnd key (handler : opcodeHandler) :
  dispatchTable rnd !! key = Some handler ->
  (In Fdisplay (writes key) -> key = 0x00E0 \/ key = 0xD000) /\
  (In Fmemory (writes key) -> key = 0xF033 \/ key = 0xF055) /\
  (In FcallStack (writes key) -> key = 0x2000) /\
  (In FstackPointer (writes key) -> key = 0x2000 \/ key = 0x00EE) /\
  (In FdelayTimer (writes key) -> key = 0xF015) /\
  (In FsoundTimer (writes key) -> key = 0xF018) /\
  (In FindexRegister (writes key) ->
   key = 0xA000 \/ key = 0xF01E \/ key = 0xF029 \/ key = 0xF055 \/ key = 0xF065) /\
  ~ In FkeyPad (writes key) /\ ~ In Frunning (writes key) /\
  ~ In FscaleFactor (writes key) /\ ~ In FactiveProfile (writes key).
Proof.
  unfold dispatchTable. intros H. apply elem_of_list_to_map_2 in H.
  repeat (apply elem_of_cons in H as [H | H];
          [injection H as -> ->; simpl writes; simpl In;
           repeat split; intuition (auto; discriminate)|]).
  by apply elem_of_nil in H.
Qed.

Lemma cycle_host_fields rnd c8 c' :
  wf c8 -> cycle rnd c8 = Some c' ->
  keyPad c' = keyPad c8 /\ running c' = running c8 /\
  scaleFactor c' = scaleFactor c8 /\ activeProfile c' = activeProfile c8.
Proof.
  intros Hwf Hrun. destruct (cycle_fetched _ _ _ Hrun) as [c1 Hf].
  pose proof Hrun as Hrun'. pose proof (fetch_skip_wf _ _ Hwf Hf) as Hwf1.
  destruct (fetch_inv _ _ Hwf Hf) as (op & -> & _).
  unfold cycle in Hrun'. rewrite Hf in Hrun'. unfold mbind, option_bind in Hrun'.
  cbv beta iota in Hrun'.
  change (decodeOpcode (skip (set_opcode op c8)))
    with (decodeOpcode (set_opcode op c8)) in Hrun'.
  destruct (dispatchTable rnd !! decodeOpcode (set_opcode op c8)) as [handler|] eqn:Hd.
  - destruct (writers_of_field rnd _ handler Hd)
      as (_ & _ & _ & _ & _ & _ & _ & Wk & Wr & Wsf & Wap).
    destruct (dispatchTable_confined rnd _ handler Hd _ _ Hwf1 Hrun') as [_ Hsame].
    repeat split.
    + apply (Hsame FkeyPad Wk).
    + apply (Hsame Frunning Wr).
    + apply (Hsame FscaleFactor Wsf).
    + apply (Hsame FactiveProfile Wap).
  - injection Hrun' as <-. repeat split; reflexivity.
Qed.

(** X3: which instructions can change what.  In a cycle that returns, the
    frame buffer is changed only by [00E0] and [DXYN], memory only by
    [FX33] and [FX55], the call stack only by [2NNN], the stack pointer
    only by [2NNN] and [00EE], the delay timer only by [FX15], the sound
    timer only by [FX18]; and no instruction changes the keypad, the
    running flag, the scale factor or the colour profile. *)
Theorem cycle_field_writers rnd c8 c1 c' :
  wf c8 -> fetch c8 = Some c1 -> cycle rnd c8 = Some c' ->
  (decodeOpcode c1 <> 0x00E0 -> decodeOpcode c1 <> 0xD000 -> display c' = display c8) /\
  (decodeOpcode c1 <> 0xF033 -> decodeOpcode c1 <> 0xF055 -> memory c' = memory c8) /\
  (decodeOpcode c1 <> 0x2000 -> callStack c' = callStack c8) /\
  (decodeOpcode c1 <> 0x2000 -> decodeOpcode c1 <> 0x00EE ->
   stackPointer c' = stackPointer c8) /\
  (decodeOpcode c1 <> 0xF015 -> delayTimer c' = delayTimer c8) /\
  (decodeOpcode c1 <> 0xF018 -> soundTimer c' = soundTimer c8) /\
  keyPad c' = keyPad c8 /\ running c' = running c8 /\
  scaleFactor c' = scaleFactor c8 /\ activeProfile c' = activeProfile c8.
Proof.
  intros Hwf Hf Hrun. pose proof Hrun as Hrun'. pose proof (fetch_skip_wf _ _ Hwf Hf) as Hwf1.
  unfold cycle in Hrun'. rewrite Hf in Hrun'. unfold mbind, option_bind in Hrun'.
  cbv beta iota in Hrun'.
  change (decodeOpcode (skip c1)) with (decodeOpcode c1) in Hrun'.
  destruct (dispatchTable rnd !! decodeOpcode c1) as [handler|] eqn:Hd.
  - destruct (writers_of_field rnd _ handler Hd)
      as (Wd & Wm & Wcs & Wsp & Wdt & Wst & _ & Wk & Wr & Wsf & Wap).
    destruct (dispatchTable_confined rnd _ handler Hd _ _ Hwf1 Hrun') as [_ Hsame].
    destruct (fetch_inv _ _ Hwf Hf) as (op & -> & _).
    repeat split.
    + intros N1 N2. apply (Hsame Fdisplay). intros Hin. destruct (Wd Hin); contradiction.
    + intros N1 N2. apply (Hsame Fmemory). intros Hin. destruct (Wm Hin); contradiction.
    + intros N1. apply (Hsame FcallStack). intros Hin. apply N1. by apply Wcs.
    + intros N1 N2. apply (Hsame FstackPointer). intros Hin. destruct (Wsp Hin); contradiction.
    + intros N1. apply (Hsame FdelayTimer). intros Hin. apply N1. by apply Wdt.
    + intros N1. apply (Hsame FsoundTimer). intros Hin. apply N1. by apply Wst.
    + apply (Hsame FkeyPad Wk).
    + apply (Hsame Frunning Wr).
    + apply (Hsame FscaleFactor Wsf).
    + apply (Hsame FactiveProfile Wap).
  - injection Hrun' as <-. destruct (fetch_inv _ _ Hwf Hf) as (op & -> & _).
    repeat split; reflexivity.
Qed.

Lemma cycle_field_writers_witness :
  (decodeOpcode (set_opcode 0x2300 (callMachine 3)) <> 0x00E0 ->
   decodeOpcode (set_opcode 0x2300 (callMachine 3)) <> 0xD000 ->
   display (default zeroChip8 (cycle 0 (callMachine 3))) = display (callMachine 3)) /\
  (decodeOpcode (set_opcode 0x2300 (callMachine 3)) <> 0xF033 ->
   decodeOpcode (set_opcode 0x2300 (callMachine 3)) <> 0xF055 ->
   memory (default zeroChip8 (cycle 0 (callMachine 3))) = memory (callMachine 3)) /\
  keyPad (default zeroChip8 (cycle 0 (callMachine 3))) = keyPad (callMachine 3) /\
  running (default zeroChip8 (cycle 0 (callMachine 3))) = running (callMachine 3).
Proof.
  assert (W : wf (callMachine 3)) by (vm_compute; reflexivity).
  assert (F : fetch (callMachine 3) = Some (set_opcode 0x2300 (callMachine 3))) by (vm_compute; reflexivity).
  assert (C : cycle 0 (callMachine 3) = Some (default zeroChip8 (cycle 0 (callMachine 3)))) by (vm_compute; reflexivity).
  pose proof (cycle_field_writers 0 (callMachine 3) (set_opcode 0x2300 (callMachine 3))
                (default zeroChip8 (cycle 0 (callMachine 3))) W F C) as H.
  split; [apply H|]. split; [apply H|]. split; apply H.
Defined.


Lemma copy_Forall (P : Z -> Prop) (dst : list Z) off (src : list Z) :
  Forall P dst -> Forall P src -> Forall P (copy dst off src).
Proof.
  intros Hdst Hsrc. unfold copy.
  repeat apply Forall_app_2; by first [apply Forall_take | apply Forall_drop].
Qed.

Lemma copy_length_any (dst : list Z) off (src : list Z) :
  (off <= length dst)%nat -> length (copy dst off src) = length dst.
Proof.
  intros Hoff. unfold copy. rewrite !length_app, !length_take, length_drop. lia.
Qed.

Lemma fontSet_bytes : Forall (fun z => 0 <= z < 256) fontSet.
Proof. unfold fontSet. repeat (constructor; [lia|]). constructor. Qed.

Lemma init_wf scale profileName c8 : wf c8 -> wf (init scale profileName c8).
Proof.
  intros Hwf. unpack_wf Hwf. unfold init, SetColorProfile.
  destruct (profiles_lookup profiles profileName); wf_fields;
    try (unfold startAddress; lia);
    try (rewrite copy_length_any; [assumption | rewrite Hmem; unfold fontStartAddress; lia]);
    (apply copy_Forall; [assumption | apply fontSet_bytes]).
Qed.

Lemma loadRom_wf (fs : fileSystem) path c8 :
  wf c8 -> (forall data, fs path = Some data -> Forall (fun z => 0 <= z < 256) data) ->
  wf (fst (loadRom fs path c8)).
Proof.
  intros Hwf Hdata. unfold loadRom. destruct (fs path) as [data|] eqn:Hfs; [|exact Hwf].
  destruct (Z.of_nat (length data) >? Z.of_nat (length (memory c8)) - startAddress);
    [exact Hwf|].
  unpack_wf Hwf. cbn [fst]. wf_fields.
  - rewrite copy_length_any; [assumption | rewrite Hmem; unfold startAddress; lia].
  - apply copy_Forall; [assumption | by apply Hdata].
Qed.


Lemma updateInput_wf keys quit c8 : wf c8 -> wfKeys keys -> wf (updateInput keys quit c8).
Proof.
  intros Hwf [Hlen Hbytes]. unpack_wf Hwf. unfold updateInput. destruct quit; wf_fields.
Qed.

Lemma onEvent_wf ev c8 c' : wf c8 -> wfEvent ev -> onEvent ev c8 = Some c' -> wf c'.
Proof.
  intros Hwf Hev H. destruct ev as [| | |keys quit rnd]; simpl in H.
  - injection H as <-. unpack_wf Hwf.
    destruct (soundTimer c8 >? 0); [wf_fields; byte_values | exact Hwf].
  - injection H as <-. unpack_wf Hwf.
    destruct (delayTimer c8 >? 0); [wf_fields; byte_values | exact Hwf].
  - by injection H as <-.
  - eapply cycle_wf; [|exact H]. by apply updateInput_wf.
Qed.

Lemma runLoop_wf schedule : forall c8 c',
  wf c8 -> Forall wfEvent schedule -> runLoop schedule c8 = Some c' -> wf c'.
Proof.
  induction schedule as [|ev rest IH]; intros c8 c' Hwf Hevs H; simpl in H.
  - destruct (running c8); by injection H as <-.
  - destruct (running c8); [|by injection H as <-].
    apply bind_Some in H as (c1 & Hstep & Hrest).
    apply Forall_cons in Hevs as [Hev Hevs].
    eapply IH; [|exact Hevs|exact Hrest]. eapply onEvent_wf; eauto.
Qed.

(** X4: [Run] keeps the machine well-formed: whatever it returns, with or
    without an error, the machine it leaves behind has all its arrays at
    their sizes and all its fields in range, provided the file holds bytes
    and the input capability reports 16 bytes at each poll. *)
Theorem Run_keeps_well_formed (fs : fileSystem) schedule path scale profileName c8 c' err :
  wf c8 ->
  (forall data, fs path = Some data -> Forall (fun z => 0 <= z < 256) data) ->
  Forall wfEvent schedule ->
  Run fs schedule path scale profileName c8 = Some (c', err) ->
  wf c'.
Proof.
  intros Hwf Hdata Hevs H. unfold Run in H.
  pose proof (loadRom_wf fs path c8 Hwf Hdata) as Hload.
  destruct (loadRom fs path c8) as [c1 [e|]]; cbn [fst] in Hload.
  - by injection H as <- _.
  - apply bind_Some in H as (c2 & Hloop & H). injection H as <- _.
    eapply runLoop_wf; [|exact Hevs|exact Hloop]. by apply init_wf.
Qed.

Lemma Run_keeps_well_formed_witness :
  wf (fst (default (zeroChip8, None)
             (Run (romFs demoRom) demoSchedule "game.ch8" 10 "honey" zeroChip8))).
Proof.
  apply (Run_keeps_well_formed (romFs demoRom) demoSchedule "game.ch8" 10 "honey"
           zeroChip8 _ None).
  - vm_compute. reflexivity.
  - intros data Hdata. injection Hdata as <-. unfold demoRom. repeat constructor; lia.
  - unfold demoSchedule, wfEvent, wfKeys, noKeys.
    repeat constructor; simpl; lia.
  - vm_compute. reflexivity.
Defined.


(** ** Register arithmetic *)

Lemma land_FF z : Z.land z 0xFF = z mod 256.
Proof. change 0xFF with (Z.ones 8). by rewrite Z.land_ones by lia. Qed.

Lemma land_1 z : Z.land z 0x1 = z mod 2.
Proof. change 0x1 with (Z.ones 1). by rewrite Z.land_ones by lia. Qed.

Lemma msb_byte z : 0 <= z < 256 -> Z.shiftr (Z.land z 0x80) 7 = z / 128.
Proof.
  intros Hz. rewrite Z.shiftr_land. change (Z.shiftr 0x80 7) with (Z.ones 1).
  rewrite Z.land_ones, Z.shiftr_div_pow2 by lia. change (2 ^ 7) with 128. change (2 ^ 1) with 2.
  apply Z.mod_small. split; [apply Z.div_pos; lia | apply Z.div_lt_upper_bound; lia].
Qed.

(** The machine after the two assignments of a flag-setting instruction:
    first [registers[0xF] = flag], then [registers[X] = value]. *)
Lemma load_two_stores (regs : list Z) x flag value :
  length regs = 16%nat -> 0 <= x < 16 ->
  load (<[Z.to_nat x := value]> (<[15%nat := flag]> regs)) x = Some value /\
  (x <> 15 -> load (<[Z.to_nat x := value]> (<[15%nat := flag]> regs)) 15 = Some flag) /\
  (forall k, 0 <= k -> k <> x -> k <> 15 ->
             load (<[Z.to_nat x := value]> (<[15%nat := flag]> regs)) k = load regs k).
Proof.
  intros Hlen Hx. repeat split.
  - apply load_store_eq. rewrite length_insert. lia.
  - intros Hne. rewrite load_store_ne by lia.
    apply (load_store_eq regs 15 flag). lia.
  - intros k Hk Hkx Hk15. rewrite load_store_ne by lia.
    apply (load_store_ne regs 15 k flag); lia.
Qed.

(** X5: [8XY4]: VX receives the low byte of VX + VY and, unless X is 0xF, VF the
    carry, so that VX + VY = 256 * VF' + VX'; the other registers and every
    other field are unchanged.  With X = 0xF the sum overwrites the carry. *)
Theorem op8XY4_adds_with_carry c8 vx vy :
  wf c8 -> load (registers c8) (opX c8) = Some vx -> load (registers c8) (opY c8) = Some vy ->
  exists regs',
    op8XY4 c8 = Some (set_registers regs' c8) /\
    load regs' (opX c8) = Some ((vx + vy) mod 256) /\
    (opX c8 <> 0xF ->
     load regs' 0xF = Some (if 255 <? vx + vy then 1 else 0) /\
     vx + vy = 256 * (if 255 <? vx + vy then 1 else 0) + (vx + vy) mod 256) /\
    (forall k, 0 <= k -> k <> opX c8 -> k <> 0xF -> load regs' k = load (registers c8) k).
Proof.
  intros Hwf Hx Hy. unpack_wf Hwf. pose proof (opX_range c8) as HX.
  pose proof (load_Forall _ _ _ _ Hregs_v Hx) as Hvx.
  pose proof (load_Forall _ _ _ _ Hregs_v Hy) as Hvy. simpl in Hvx, Hvy.
  unfold op8XY4. rewrite Hx, Hy. simpl.
  rewrite (u16_small (vx + vy)) by lia.
  rewrite setReg_in_range by lia. simpl.
  rewrite setReg_in_range by (simpl; rewrite length_insert; lia). simpl.
  rewrite land_FF, u8_small by (apply Z.mod_pos_bound; lia).
  replace (vx + vy >? 255) with (255 <? vx + vy) by (symmetry; apply Z.gtb_ltb).
  eexists; split; [reflexivity|].
  destruct (load_two_stores (registers c8) (opX c8) (if 255 <? vx + vy then 1 else 0)
              ((vx + vy) mod 256) Hregs HX) as (H1 & H2 & H3).
  split; [exact H1|]. split; [|exact H3].
  intros Hne. split; [by apply H2|].
  destruct (Z.ltb_spec 255 (vx + vy)); Z.div_mod_to_equations; lia.
Qed.

Lemma op8XY4_adds_with_carry_witness :
  exists regs',
    op8XY4 addMachine = Some (set_registers regs' addMachine) /\
    load regs' (opX addMachine) = Some ((200 + 100) mod 256) /\
    (opX addMachine <> 0xF ->
     load regs' 0xF = Some (if 255 <? 200 + 100 then 1 else 0) /\
     200 + 100 = 256 * (if 255 <? 200 + 100 then 1 else 0) + (200 + 100) mod 256) /\
    (forall k, 0 <= k -> k <> opX addMachine -> k <> 0xF ->
               load regs' k = load (registers addMachine) k).
Proof.
  apply (op8XY4_adds_with_carry addMachine 200 100).
  - vm_compute. reflexivity.
  - reflexivity.
  - reflexivity.
Defined.


(** X6: [8XY5] and [8XY7]: with X and Y below 0xF, VX receives VX - VY
    (respectively VY - VX) modulo 256, and VF is 1 exactly when the minuend
    is strictly greater than the subtrahend; equal operands give the result
    0 with VF = 0.  With Y = 0xF in [8XY5] the subtrahend is the flag just
    written, not the old VF. *)
Theorem subtractions_set_strict_flag c8 vx vy :
  wf c8 -> load (registers c8) (opX c8) = Some vx -> load (registers c8) (opY c8) = Some vy ->
  opX c8 <> 0xF ->
  (opY c8 <> 0xF ->
   (exists regs',
      op8XY5 c8 = Some (set_registers regs' c8) /\
      load regs' (opX c8) = Some ((vx - vy) mod 256) /\
      load regs' 0xF = Some (if vy <? vx then 1 else 0) /\
      (forall k, 0 <= k -> k <> opX c8 -> k <> 0xF -> load regs' k = load (registers c8) k)) /\
   (exists regs',
      op8XY7 c8 = Some (set_registers regs' c8) /\
      load regs' (opX c8) = Some ((vy - vx) mod 256) /\
      load regs' 0xF = Some (if vx <? vy then 1 else 0) /\
      (forall k, 0 <= k -> k <> opX c8 -> k <> 0xF -> load regs' k = load (registers c8) k))) /\
  (opY c8 = 0xF ->
   exists regs',
     op8XY5 c8 = Some (set_registers regs' c8) /\
     load regs' 0xF = Some (if vy <? vx then 1 else 0) /\
     load regs' (opX c8) = Some ((vx - (if vy <? vx then 1 else 0)) mod 256)).
Proof.
  intros Hwf Hx Hy HXF. unpack_wf Hwf.
  pose proof (opX_range c8) as HX. pose proof (opY_range c8) as HY.
  split; [intros HYF; split|intros HYF].
  - unfold op8XY5. rewrite Hx, Hy. simpl.
    rewrite setReg_in_range by lia. simpl.
    rewrite (load_store_ne (registers c8) 15 (opX c8)), Hx by lia. simpl.
    rewrite (load_store_ne (registers c8) 15 (opY c8)), Hy by lia. simpl.
    rewrite setReg_in_range by (simpl; rewrite length_insert; lia). simpl.
    replace (vx >? vy) with (vy <? vx) by (symmetry; apply Z.gtb_ltb).
    eexists; split; [reflexivity|].
    destruct (load_two_stores (registers c8) (opX c8) (if vy <? vx then 1 else 0)
                (u8 (vx - vy)) Hregs HX) as (H1 & H2 & H3).
    split; [exact H1|]. split; [by apply H2 | exact H3].
  - unfold op8XY7. rewrite Hx, Hy. simpl.
    rewrite setReg_in_range by lia. simpl.
    rewrite (load_store_ne (registers c8) 15 (opY c8)), Hy by lia. simpl.
    rewrite (load_store_ne (registers c8) 15 (opX c8)), Hx by lia. simpl.
    rewrite setReg_in_range by (simpl; rewrite length_insert; lia). simpl.
    replace (vy >? vx) with (vx <? vy) by (symmetry; apply Z.gtb_ltb).
    eexists; split; [reflexivity|].
    destruct (load_two_stores (registers c8) (opX c8) (if vx <? vy then 1 else 0)
                (u8 (vy - vx)) Hregs HX) as (H1 & H2 & H3).
    split; [exact H1|]. split; [by apply H2 | exact H3].
  - unfold op8XY5. rewrite Hx, Hy. simpl.
    rewrite setReg_in_range by lia. simpl.
    rewrite (load_store_ne (registers c8) 15 (opX c8)), Hx by lia. simpl.
    rewrite HYF. rewrite (load_store_eq (registers c8) 15) by lia. simpl.
    rewrite setReg_in_range by (simpl; rewrite length_insert; lia). simpl.
    replace (vx >? vy) with (vy <? vx) by (symmetry; apply Z.gtb_ltb).
    eexists; split; [reflexivity|].
    destruct (load_two_stores (registers c8) (opX c8) (if vy <? vx then 1 else 0)
                (u8 (vx - (if vy <? vx then 1 else 0))) Hregs HX) as (H1 & H2 & H3).
    split; [by apply H2 | exact H1].
Qed.

Lemma subtractions_set_strict_flag_witness :
  (opY subMachine <> 0xF ->
   (exists regs',
      op8XY5 subMachine = Some (set_registers regs' subMachine) /\
      load regs' (opX subMachine) = Some ((7 - 7) mod 256) /\
      load regs' 0xF = Some (if 7 <? 7 then 1 else 0) /\
      (forall k, 0 <= k -> k <> opX subMachine -> k <> 0xF -> load regs' k = load (registers subMachine) k)) /\
   (exists regs',
      op8XY7 subMachine = Some (set_registers regs' subMachine) /\
      load regs' (opX subMachine) = Some ((7 - 7) mod 256) /\
      load regs' 0xF = Some (if 7 <? 7 then 1 else 0) /\
      (forall k, 0 <= k -> k <> opX subMachine -> k <> 0xF -> load regs' k = load (registers subMachine) k))) /\
  (opY subMachine = 0xF ->
   exists regs',
     op8XY5 subMachine = Some (set_registers regs' subMachine) /\
     load regs' 0xF = Some (if 7 <? 7 then 1 else 0) /\
     load regs' (opX subMachine) = Some ((7 - (if 7 <? 7 then 1 else 0)) mod 256)).
Proof.
  apply (subtractions_set_strict_flag subMachine 7 7).
  - vm_compute. reflexivity.
  - reflexivity.
  - reflexivity.
  - vm_compute. discriminate.
Defined.

(** X7: [8XY6] and [8XYE] shift VX itself (VY is not read).  With X below
    0xF: [8XY6] leaves VX / 2 in VX and the bit shifted out, VX mod 2, in
    VF; [8XYE] leaves (2 * VX) mod 256 in VX and the bit shifted out,
    VX / 128, in VF.  With X = 0xF the flag is written first and then
    shifted, so [8XY6] always leaves 0 in VF. *)
Theorem shifts_move_a_bit_into_VF c8 vx :
  wf c8 -> load (registers c8) (opX c8) = Some vx ->
  (opX c8 <> 0xF ->
   (exists regs',
      op8XY6 c8 = Some (set_registers regs' c8) /\
      load regs' (opX c8) = Some (vx / 2) /\ load regs' 0xF = Some (vx mod 2) /\
      (forall k, 0 <= k -> k <> opX c8 -> k <> 0xF -> load regs' k = load (registers c8) k)) /\
   (exists regs',
      op8XYE c8 = Some (set_registers regs' c8) /\
      load regs' (opX c8) = Some ((2 * vx) mod 256) /\ load regs' 0xF = Some (vx / 128) /\
      (forall k, 0 <= k -> k <> opX c8 -> k <> 0xF -> load regs' k = load (registers c8) k))) /\
  (opX c8 = 0xF ->
   exists regs', op8XY6 c8 = Some (set_registers regs' c8) /\ load regs' 0xF = Some 0).
Proof.
  intros Hwf Hx. unpack_wf Hwf. pose proof (opX_range c8) as HX.
  pose proof (load_Forall _ _ _ _ Hregs_v Hx) as Hvx. simpl in Hvx.
  split; [intros HXF; split|intros HXF].
  - unfold op8XY6. rewrite Hx. simpl. rewrite setReg_in_range by lia. simpl.
    rewrite (load_store_ne (registers c8) 15 (opX c8)), Hx by lia. simpl.
    rewrite setReg_in_range by (simpl; rewrite length_insert; lia). simpl.
    rewrite land_1, Z.shiftr_div_pow2 by lia. change (2 ^ 1) with 2.
    eexists; split; [reflexivity|].
    destruct (load_two_stores (registers c8) (opX c8) (vx mod 2) (vx / 2) Hregs HX)
      as (H1 & H2 & H3).
    split; [exact H1|]. split; [by apply H2 | exact H3].
  - unfold op8XYE. rewrite Hx. simpl. rewrite setReg_in_range by lia. simpl.
    rewrite (load_store_ne (registers c8) 15 (opX c8)), Hx by lia. simpl.
    rewrite setReg_in_range by (simpl; rewrite length_insert; lia). simpl.
    rewrite msb_byte, Z.shiftl_mul_pow2 by lia. change (2 ^ 1) with 2.
    replace (vx * 2) with (2 * vx) by lia.
    eexists; split; [reflexivity|].
    destruct (load_two_stores (registers c8) (opX c8) (vx / 128) (u8 (2 * vx)) Hregs HX)
      as (H1 & H2 & H3).
    split; [exact H1|]. split; [by apply H2 | exact H3].
  - unfold op8XY6. rewrite Hx. simpl. rewrite setReg_in_range by lia. simpl.
    rewrite HXF. rewrite (load_store_eq (registers c8) 15) by lia. simpl.
    rewrite setReg_in_range by (simpl; rewrite length_insert; lia). simpl.
    eexists; split; [reflexivity|].
    rewrite (load_store_eq _ 15) by (rewrite length_insert; lia).
    f_equal. rewrite land_1, Z.shiftr_div_pow2 by lia. change (2 ^ 1) with 2.
    apply Z.div_small. apply Z.mod_pos_bound. lia.
Qed.

Lemma shifts_move_a_bit_into_VF_witness :
  (opX shiftMachine <> 0xF ->
   (exists regs',
      op8XY6 shiftMachine = Some (set_registers regs' shiftMachine) /\
      load regs' (opX shiftMachine) = Some (0x81 / 2) /\ load regs' 0xF = Some (0x81 mod 2) /\
      (forall k, 0 <= k -> k <> opX shiftMachine -> k <> 0xF -> load regs' k = load (registers shiftMachine) k)) /\
   (exists regs',
      op8XYE shiftMachine = Some (set_registers regs' shiftMachine) /\
      load regs' (opX shiftMachine) = Some ((2 * 0x81) mod 256) /\ load regs' 0xF = Some (0x81 / 128) /\
      (forall k, 0 <= k -> k <> opX shiftMachine -> k <> 0xF -> load regs' k = load (registers shiftMachine) k))) /\
  (opX shiftMachine = 0xF ->
   exists regs', op8XY6 shiftMachine = Some (set_registers regs' shiftMachine) /\ load regs' 0xF = Some 0).
Proof.
  apply (shifts_move_a_bit_into_VF shiftMachine 0x81).
  - vm_compute. reflexivity.
  - reflexivity.
Defined.


(** ** Conditional skips *)

Lemma cycle_run rnd c8 c1 (handler : opcodeHandler) key :
  fetch c8 = Some c1 -> decodeOpcode c1 = key ->
  dispatchTable rnd !! key = Some handler ->
  cycle rnd c8 = handler (skip c1).
Proof. intros Hf <- Hd. by apply cycle_dispatch. Qed.

(** X8: the four conditional skips, over a full cycle: the program counter
    advances by 4 when the condition of the instruction holds and by 2
    when it does not.  [3XKK] skips on VX = KK, [4XKK] on VX <> KK, [5XY0]
    on VX = VY, [9XY0] on VX <> VY. *)
Theorem conditional_skips_advance_by_4_or_2 rnd c8 c1 vx vy :
  wf c8 -> fetch c8 = Some c1 ->
  load (registers c8) (opX c1) = Some vx -> load (registers c8) (opY c1) = Some vy ->
  (decodeOpcode c1 = 0x3000 ->
   exists c', cycle rnd c8 = Some c' /\
              programCounter c' = programCounter c8 + (if vx =? opKK c1 then 4 else 2)) /\
  (decodeOpcode c1 = 0x4000 ->
   exists c', cycle rnd c8 = Some c' /\
              programCounter c' = programCounter c8 + (if vx =? opKK c1 then 2 else 4)) /\
  (decodeOpcode c1 = 0x5000 ->
   exists c', cycle rnd c8 = Some c' /\
              programCounter c' = programCounter c8 + (if vx =? vy then 4 else 2)) /\
  (decodeOpcode c1 = 0x9000 ->
   exists c', cycle rnd c8 = Some c' /\
              programCounter c' = programCounter c8 + (if vx =? vy then 2 else 4)).
Proof.
  intros Hwf Hf Hx Hy. destruct (fetch_inv _ _ Hwf Hf) as (op & -> & Hpc2). unpack_wf Hwf.
  assert (H2 : u16 (programCounter c8 + 2) = programCounter c8 + 2) by (apply u16_small; lia).
  assert (H4 : u16 (u16 (programCounter c8 + 2) + 2) = programCounter c8 + 4)
    by (rewrite H2; rewrite u16_small by lia; lia).
  repeat split; intros Hd.
  - rewrite (cycle_run rnd c8 _ op3XKK _ Hf Hd eq_refl). unfold op3XKK.
    change (registers (skip (set_opcode op c8))) with (registers c8).
    change (opX (skip (set_opcode op c8))) with (opX (set_opcode op c8)). rewrite Hx. simpl.
    change (opKK (skip (set_opcode op c8))) with (opKK (set_opcode op c8)).
    eexists; split; [reflexivity|].
    destruct (vx =? opKK (set_opcode op c8)); [exact H4 | exact H2].
  - rewrite (cycle_run rnd c8 _ op4XKK _ Hf Hd eq_refl). unfold op4XKK.
    change (registers (skip (set_opcode op c8))) with (registers c8).
    change (opX (skip (set_opcode op c8))) with (opX (set_opcode op c8)). rewrite Hx. simpl.
    change (opKK (skip (set_opcode op c8))) with (opKK (set_opcode op c8)).
    eexists; split; [reflexivity|].
    destruct (vx =? opKK (set_opcode op c8)); [exact H2 | exact H4].
  - rewrite (cycle_run rnd c8 _ op5XY0 _ Hf Hd eq_refl). unfold op5XY0.
    change (registers (skip (set_opcode op c8))) with (registers c8).
    change (opX (skip (set_opcode op c8))) with (opX (set_opcode op c8)).
    change (opY (skip (set_opcode op c8))) with (opY (set_opcode op c8)).
    rewrite Hx. simpl. rewrite Hy. simpl.
    eexists; split; [reflexivity|].
    destruct (vx =? vy); [exact H4 | exact H2].
  - rewrite (cycle_run rnd c8 _ op9XY0 _ Hf Hd eq_refl). unfold op9XY0.
    change (registers (skip (set_opcode op c8))) with (registers c8).
    change (opX (skip (set_opcode op c8))) with (opX (set_opcode op c8)).
    change (opY (skip (set_opcode op c8))) with (opY (set_opcode op c8)).
    rewrite Hx. simpl. rewrite Hy. simpl.
    eexists; split; [reflexivity|].
    destruct (vx =? vy); [exact H2 | exact H4].
Qed.

Lemma conditional_skips_advance_by_4_or_2_witness :
  (decodeOpcode (set_opcode 0x3107 skipMachine) = 0x3000 ->
   exists c', cycle 0 skipMachine = Some c' /\
              programCounter c' = programCounter skipMachine + (if 7 =? opKK (set_opcode 0x3107 skipMachine) then 4 else 2)) /\
  (decodeOpcode (set_opcode 0x3107 skipMachine) = 0x4000 ->
   exists c', cycle 0 skipMachine = Some c' /\
              programCounter c' = programCounter skipMachine + (if 7 =? opKK (set_opcode 0x3107 skipMachine) then 2 else 4)) /\
  (decodeOpcode (set_opcode 0x3107 skipMachine) = 0x5000 ->
   exists c', cycle 0 skipMachine = Some c' /\
              programCounter c' = programCounter skipMachine + (if 7 =? 0 then 4 else 2)) /\
  (decodeOpcode (set_opcode 0x3107 skipMachine) = 0x9000 ->
   exists c', cycle 0 skipMachine = Some c' /\
              programCounter c' = programCounter skipMachine + (if 7 =? 0 then 2 else 4)).
Proof.
  apply (conditional_skips_advance_by_4_or_2 0 skipMachine (set_opcode 0x3107 skipMachine) 7 0).
  - vm_compute. reflexivity.
  - vm_compute. reflexivity.
  - reflexivity.
  - reflexivity.
Defined.


(** ** Binary-coded decimal *)

(** X9: [FX33] returns exactly when the three cells I, I+1, I+2 lie inside
    memory.  It then leaves the hundreds, tens and ones digit of VX in
    them, each at most 9 and together equal to VX, and leaves every other
    cell as it was. *)
Theorem opFX33_stores_decimal_digits c8 v :
  wf c8 -> load (registers c8) (opX c8) = Some v ->
  (indexRegister c8 + 2 <= 4095 ->
   exists m',
     opFX33 c8 = Some (set_memory m' c8) /\
     load m' (indexRegister c8) = Some (v / 100) /\
     load m' (indexRegister c8 + 1) = Some (v / 10 mod 10) /\
     load m' (indexRegister c8 + 2) = Some (v mod 10) /\
     v = 100 * (v / 100) + 10 * (v / 10 mod 10) + v mod 10 /\
     0 <= v / 100 <= 9 /\
     (forall a, 0 <= a -> ~ (indexRegister c8 <= a <= indexRegister c8 + 2) ->
                load m' a = load (memory c8) a)) /\
  (4095 < indexRegister c8 + 2 -> opFX33 c8 = None).
Proof.
  intros Hwf Hv. unpack_wf Hwf.
  pose proof (load_Forall _ _ _ _ Hregs_v Hv) as Hv_v. simpl in Hv_v.
  unfold opFX33. rewrite Hv. simpl. split.
  - intros Hfit. unfold setMem.
    rewrite !u16_small by lia.
    rewrite store_in_range by lia. simpl. rewrite u16_small by lia.
    rewrite store_in_range by (rewrite length_insert; lia). simpl.
    rewrite store_in_range by (rewrite !length_insert; lia). simpl.
    eexists; split; [reflexivity|].
    assert (Hh : v / 10 / 10 mod 10 = v / 100)
      by (Z.div_mod_to_equations; lia).
    rewrite Hh.
    split; [apply load_store_eq; rewrite !length_insert; lia|].
    split; [rewrite load_store_ne by lia; apply load_store_eq; rewrite length_insert; lia|].
    split; [rewrite !load_store_ne by lia; apply load_store_eq; lia|].
    split; [Z.div_mod_to_equations; lia|].
    split; [Z.div_mod_to_equations; lia|].
    intros a Ha Hout. rewrite !load_store_ne by lia. reflexivity.
  - intros Hout. unfold setMem.
    destruct (Z.ltb_spec (indexRegister c8 + 2) 65536) as [Hlt|Hge].
    + rewrite (u16_small (indexRegister c8 + 2)) by lia.
      rewrite store_out_of_range by lia. reflexivity.
    + assert (HI : indexRegister c8 = 65534 \/ indexRegister c8 = 65535) by lia.
      destruct HI as [HI|HI]; rewrite HI.
      * change (u16 (65534 + 2)) with 0. rewrite store_in_range by lia. simpl.
        rewrite HI. change (u16 (65534 + 1)) with 65535.
        rewrite store_out_of_range by (rewrite length_insert; lia). reflexivity.
      * change (u16 (65535 + 2)) with 1. rewrite store_in_range by lia. simpl.
        rewrite HI. change (u16 (65535 + 1)) with 0.
        rewrite store_in_range by (rewrite length_insert; lia). simpl.
        rewrite HI. rewrite store_out_of_range by (rewrite !length_insert; lia).
        reflexivity.
Qed.

Lemma opFX33_stores_decimal_digits_witness :
  (indexRegister bcdMachine + 2 <= 4095 ->
   exists m',
     opFX33 bcdMachine = Some (set_memory m' bcdMachine) /\
     load m' (indexRegister bcdMachine) = Some (51 / 100) /\
     load m' (indexRegister bcdMachine + 1) = Some (51 / 10 mod 10) /\
     load m' (indexRegister bcdMachine + 2) = Some (51 mod 10) /\
     51 = 100 * (51 / 100) + 10 * (51 / 10 mod 10) + 51 mod 10 /\
     0 <= 51 / 100 <= 9 /\
     (forall a, 0 <= a -> ~ (indexRegister bcdMachine <= a <= indexRegister bcdMachine + 2) ->
                load m' a = load (memory bcdMachine) a)) /\
  (4095 < indexRegister bcdMachine + 2 -> opFX33 bcdMachine = None).
Proof.
  apply (opFX33_stores_decimal_digits bcdMachine 51).
  - vm_compute. reflexivity.
  - reflexivity.
Defined.



(** ** Which words are instructions *)

Lemma everyRange_true lo n f :
  everyRange lo n f = true -> forall k, lo <= k < lo + Z.of_nat n -> f k = true.
Proof.
  revert lo. induction n as [|n IH]; intros lo H k Hk; [lia|].
  cbn [everyRange] in H. apply andb_prop in H as [Hlo Hrest].
  destruct (Z.eq_dec k lo) as [->|Hne]; [exact Hlo|]. apply (IH (lo + 1)); [exact Hrest | lia].
Qed.

Lemma all_words_checked :
  everyRange 0 (Z.to_nat 65536) (fun op => Bool.eqb (hasHandler op) (validOpcode op)) = true.
Proof. vm_compute. reflexivity. Qed.

Lemma dispatchTable_keys rnd key :
  is_Some (dispatchTable rnd !! key) <-> In key dispatchKeys.
Proof.
  unfold dispatchTable. split.
  - intros [h Hin]. apply elem_of_list_to_map_2 in Hin.
    repeat (apply elem_of_cons in Hin as [Hin | Hin];
            [injection Hin as -> _; simpl; auto 40|]).
    by apply elem_of_nil in Hin.
  - intros Hin.
    match goal with |- is_Some (?m !! _) => destruct (m !! key) as [h|] eqn:Hl end;
      [eauto|].
    apply not_elem_of_list_to_map_2 in Hl. exfalso. apply Hl.
    apply list_elem_of_In. exact Hin.
Qed.

Lemma handlers_exist_lemma rnd c8 :
  0 <= opcode c8 < 65536 ->
  (is_Some (dispatchTable rnd !! decodeOpcode c8) <-> validOpcode (opcode c8) = true).
Proof.
  intros Hop. rewrite dispatchTable_keys.
  change (decodeOpcode c8) with (decodeWord (opcode c8)).
  pose proof (everyRange_true _ _ _ all_words_checked (opcode c8) ltac:(lia)) as Hin.
  cbv beta in Hin.
  apply Bool.eqb_prop in Hin. rewrite <- Hin. unfold hasHandler.
  rewrite existsb_exists. split.
  - intros Hk. exists (decodeWord (opcode c8)). split; [exact Hk | apply Z.eqb_refl].
  - intros (k & Hk & Heq). apply Z.eqb_eq in Heq. by rewrite Heq.
Qed.

(** X10: for every 16-bit word and every machine whose opcode latch holds it,
    the dispatch table has a handler for the decoded key exactly when the
    word is [00E0] or [00EE] up to its second nibble, [8XYN] with N in 0..7
    or 0xE, [EX9E], [EXA1], [FX07], [FX0A], [FX15], [FX18], [FX1E], [FX29],
    [FX33], [FX55], [FX65], or any word of the families 1-7 and 9-D. *)
Theorem handlers_exist_for_valid_words rnd c8 :
  0 <= opcode c8 < 65536 ->
  (is_Some (dispatchTable rnd !! decodeOpcode c8) <-> validOpcode (opcode c8) = true).
Proof. exact (handlers_exist_lemma rnd c8). Qed.

Lemma handlers_exist_for_valid_words_witness :
  (is_Some (dispatchTable 0 !! decodeOpcode shiftMachine) <-> validOpcode (opcode shiftMachine) = true).
Proof.
  apply (handlers_exist_for_valid_words 0 shiftMachine). simpl. lia.
Defined.






(** ** Fetch *)

(** X12: [fetch] returns exactly when the program counter is at most 4094; the
    opcode is then the big-endian word 256 * memory[PC] + memory[PC+1], and
    nothing but the opcode latch is assigned. *)
Theorem fetch_reads_big_endian_word c8 :
  wf c8 ->
  (programCounter c8 <= 4094 ->
   exists hi lo,
     load (memory c8) (programCounter c8) = Some hi /\
     load (memory c8) (programCounter c8 + 1) = Some lo /\
     fetch c8 = Some (set_opcode (256 * hi + lo) c8)) /\
  (4094 < programCounter c8 -> fetch c8 = None).
Proof.
  intros Hwf. unpack_wf Hwf. unfold fetch. split.
  - intros Hpc'.
    destruct (load_in_range (memory c8) (programCounter c8)) as [hi Hhi]; [lia|].
    destruct (load_in_range (memory c8) (programCounter c8 + 1)) as [lo Hlo]; [lia|].
    pose proof (load_Forall _ _ _ _ Hmem_v Hhi) as Hhi_v.
    pose proof (load_Forall _ _ _ _ Hmem_v Hlo) as Hlo_v. simpl in Hhi_v, Hlo_v.
    exists hi, lo. rewrite Hhi. simpl.
    rewrite (u16_small (programCounter c8 + 1)) by lia. rewrite Hlo. simpl.
    repeat split. f_equal. f_equal.
    rewrite u16_small by (rewrite Z.shiftl_mul_pow2 by lia; change (2 ^ 8) with 256; lia).
    apply lor_shiftl_byte; lia.
  - intros Hpc'. destruct (Z.eq_dec (programCounter c8) 4095) as [E|NE].
    + destruct (load (memory c8) (programCounter c8)) as [hi|]; [|reflexivity]. simpl.
      rewrite E. change (u16 (4095 + 1)) with 4096.
      rewrite load_out_of_range by lia. reflexivity.
    + rewrite (load_out_of_range (memory c8) (programCounter c8)) by lia. reflexivity.
Qed.

Lemma fetch_reads_big_endian_word_witness :
  (programCounter skipMachine <= 4094 ->
   exists hi lo,
     load (memory skipMachine) (programCounter skipMachine) = Some hi /\
     load (memory skipMachine) (programCounter skipMachine + 1) = Some lo /\
     fetch skipMachine = Some (set_opcode (256 * hi + lo) skipMachine)) /\
  (4094 < programCounter skipMachine -> fetch skipMachine = None).
Proof.
  apply (fetch_reads_big_endian_word skipMachine). vm_compute. reflexivity.
Defined.



(** ** Start-up *)

Lemma init_memory scale profileName c8 :
  memory (init scale profileName c8)
  = copy (memory c8) (Z.to_nat fontStartAddress) fontSet.
Proof. unfold init, SetColorProfile. by destruct (profiles_lookup profiles profileName). Qed.

Lemma init_fields scale profileName c8 :
  programCounter (init scale profileName c8) = 0x200 /\
  running (init scale profileName c8) = true /\
  scaleFactor (init scale profileName c8) = scale /\
  registers (init scale profileName c8) = registers c8 /\
  display (init scale profileName c8) = display c8 /\
  stackPointer (init scale profileName c8) = stackPointer c8.
Proof.
  unfold init, SetColorProfile.
  destruct (profiles_lookup profiles profileName); repeat split; reflexivity.
Qed.

(** X13: the machine as [Run] hands it to the run loop (the empty schedule),
    for a readable image of at most 3584 bytes: no error, the program
    counter at 0x200, the running flag set, the font table at 0x50..0x9F,
    the image at 0x200 and following, and every other memory cell as it
    was.  Initialising after loading does not touch the image. *)
Theorem Run_boots_with_font_and_image (fs : fileSystem) path data scale profileName c8 :
  fs path = Some data -> Z.of_nat (length data) <= 3584 -> length (memory c8) = 4096%nat ->
  exists c',
    Run fs [] path scale profileName c8 = Some (c', None) /\
    programCounter c' = 0x200 /\ running c' = true /\ scaleFactor c' = scale /\
    fontLoaded c' /\
    (forall i, 0 <= i < Z.of_nat (length data) ->
               load (memory c') (0x200 + i) = load data i) /\
    (forall a, 0 <= a -> ~ (0x50 <= a < 0xA0) ->
               ~ (0x200 <= a < 0x200 + Z.of_nat (length data)) ->
               load (memory c') a = load (memory c8) a) /\
    registers c' = registers c8 /\ display c' = display c8 /\
    stackPointer c' = stackPointer c8.
Proof.
  intros Hfs Hsmall Hlen.
  assert (Hfit : (512 + length data <= length (memory c8))%nat) by lia.
  unfold Run, loadRom. rewrite Hfs, Hlen. unfold startAddress.
  destruct (Z.gtb_spec (Z.of_nat (length data)) (Z.of_nat 4096 - 512)) as [Hgt|_]; [lia|].
  set (c1 := set_memory (copy (memory c8) (Z.to_nat 512) data) c8).
  assert (Hlen1 : length (memory c1) = 4096%nat)
    by (subst c1; simpl; rewrite copy_length_any; lia).
  assert (Hrun : runLoop [] (init scale profileName c1) = Some (init scale profileName c1))
    by (simpl; by destruct (running (init scale profileName c1))).
  rewrite Hrun. simpl. eexists; split; [reflexivity|].
  destruct (init_fields scale profileName c1) as (Hpc & Hrunning & Hscale & Hregs & Hdisp & Hsp).
  split; [exact Hpc|]. split; [exact Hrunning|]. split; [exact Hscale|].
  unfold fontLoaded. rewrite init_memory. unfold fontStartAddress.
  change (Z.to_nat 80) with 80%nat. change (Z.to_nat 512) with 512%nat in *.
  assert (Hfont : (80 + length fontSet <= length (memory c1))%nat)
    by (rewrite Hlen1; simpl; lia).
  split; [|split; [|split; [|split; [exact Hregs|split; [exact Hdisp|exact Hsp]]]]].
  - rewrite copy_fits by exact Hfont.
    rewrite drop_app_length' by (rewrite length_take; lia).
    by rewrite take_app_length.
  - intros i Hi. unfold load.
    rewrite copy_lookup_outside by (try exact Hfont; simpl; lia).
    subst c1. cbn [memory set_memory].
    replace (Z.to_nat (512 + i)) with (512 + Z.to_nat i)%nat by lia.
    apply copy_lookup_inside; [exact Hfit | lia].
  - intros a Ha Hnofont Hnoimage. unfold load.
    rewrite copy_lookup_outside by (try exact Hfont; simpl; lia).
    subst c1. cbn [memory set_memory].
    apply copy_lookup_outside; [exact Hfit | lia].
Qed.

Lemma Run_boots_with_font_and_image_witness :
  exists c',
    Run (romFs demoRom) [] "game.ch8" 10 "honey" zeroChip8 = Some (c', None) /\
    programCounter c' = 0x200 /\ running c' = true /\ scaleFactor c' = 10 /\
    fontLoaded c' /\
    (forall i, 0 <= i < Z.of_nat (length demoRom) ->
               load (memory c') (0x200 + i) = load demoRom i) /\
    (forall a, 0 <= a -> ~ (0x50 <= a < 0xA0) ->
               ~ (0x200 <= a < 0x200 + Z.of_nat (length demoRom)) ->
               load (memory c') a = load (memory zeroChip8) a) /\
    registers c' = registers zeroChip8 /\ display c' = display zeroChip8 /\
    stackPointer c' = stackPointer zeroChip8.
Proof.
  apply (Run_boots_with_font_and_image (romFs demoRom) "game.ch8" demoRom 10 "honey" zeroChip8).
  - reflexivity.
  - simpl. lia.
  - vm_compute. reflexivity.
Defined.


Lemma fontLoaded_lookup c8 i :
  fontLoaded c8 -> 0 <= i < 80 ->
  load (memory c8) (fontStartAddress + i) = load fontSet i.
Proof.
  intros Hfont Hi. unfold load.
  transitivity (take (length fontSet) (drop (Z.to_nat fontStartAddress) (memory c8))
                  !! Z.to_nat i); [|by rewrite Hfont].
  rewrite lookup_take_lt by (simpl; lia). rewrite lookup_drop. f_equal.
  unfold fontStartAddress. lia.
Qed.

(** X14: with the font table in place, [FX29] for a hexadecimal digit d in VX
    sets the index register to 0x50 + 5 * d, the address of the five bytes
    of the glyph of d. *)
Theorem opFX29_addresses_glyph c8 d :
  fontLoaded c8 -> load (registers c8) (opX c8) = Some d -> 0 <= d <= 0xF ->
  exists c',
    opFX29 c8 = Some c' /\ indexRegister c' = 0x50 + 5 * d /\
    forall i, 0 <= i < 5 ->
      exists b, load fontSet (5 * d + i) = Some b /\
                load (memory c') (indexRegister c' + i) = Some b.
Proof.
  intros Hfont Hd Hdigit. unfold opFX29. rewrite Hd. simpl.
  eexists; split; [reflexivity|]. cbn [indexRegister memory set_indexRegister].
  unfold fontStartAddress. rewrite (u8_small (5 * d)) by lia. rewrite u16_small by lia.
  split; [reflexivity|]. intros i Hi.
  destruct (load_in_range fontSet (5 * d + i)) as [b Hb]; [simpl; lia|].
  exists b. split; [exact Hb|].
  replace (80 + 5 * d + i) with (fontStartAddress + (5 * d + i)) by (unfold fontStartAddress; lia).
  rewrite fontLoaded_lookup by (try assumption; lia). exact Hb.
Qed.

Lemma opFX29_addresses_glyph_witness :
  exists c',
    opFX29 (glyphMachine 0xA) = Some c' /\ indexRegister c' = 0x50 + 5 * 0xA /\
    forall i, 0 <= i < 5 ->
      exists b, load fontSet (5 * 0xA + i) = Some b /\
                load (memory c') (indexRegister c' + i) = Some b.
Proof.
  apply (opFX29_addresses_glyph (glyphMachine 0xA) 0xA).
  - vm_compute. reflexivity.
  - reflexivity.
  - lia.
Defined.





(** X16: [Run] returns an error only when loading failed: the file could not be
    read or holds more than 3584 bytes.  The machine is then exactly as it
    was, neither initialised nor run.  An unreadable file gives the error
    of [os.ReadFile] wrapped twice. *)
Theorem Run_fails_only_on_load (fs : fileSystem) path scale profileName c8 :
  length (memory c8) = 4096%nat ->
  (fs path = None ->
   forall schedule,
     Run fs schedule path scale profileName c8
     = Some (c8, Some (ErrFailedToLoadRom (ErrCouldNotOpenRom (ErrReadFile path))))) /\
  (forall schedule c' e,
     Run fs schedule path scale profileName c8 = Some (c', Some e) ->
     c' = c8 /\
     (fs path = None \/ exists data, fs path = Some data /\ 3584 < Z.of_nat (length data))).
Proof.
  intros Hlen. split.
  - intros Hfs schedule. unfold Run, loadRom. by rewrite Hfs.
  - intros schedule c' e H. unfold Run, loadRom in H. rewrite Hlen in H.
    destruct (fs path) as [data|] eqn:Hfs.
    + unfold startAddress in H.
      destruct (Z.gtb_spec (Z.of_nat (length data)) (Z.of_nat 4096 - 512)) as [Hgt|Hle].
      * injection H as <- _. split; [reflexivity|]. right. exists data. split; [reflexivity|lia].
      * apply bind_Some in H as (c2 & _ & H). discriminate.
    + injection H as <- _. split; [reflexivity | by left].
Qed.

Lemma Run_fails_only_on_load_witness :
  (romFs demoRom "other.ch8"%string = None ->
   forall schedule,
     Run (romFs demoRom) schedule "other.ch8" 10 "honey" zeroChip8
     = Some (zeroChip8, Some (ErrFailedToLoadRom (ErrCouldNotOpenRom (ErrReadFile "other.ch8"%string))))) /\
  (forall schedule c' e,
     Run (romFs demoRom) schedule "other.ch8" 10 "honey" zeroChip8 = Some (c', Some e) ->
     c' = zeroChip8 /\
     (romFs demoRom "other.ch8"%string = None \/ exists data, romFs demoRom "other.ch8"%string = Some data /\ 3584 < Z.of_nat (length data))).
Proof.
  apply (Run_fails_only_on_load (romFs demoRom) "other.ch8" 10 "honey" zeroChip8).
  vm_compute. reflexivity.
Defined.



(** ** Timers and the run loop *)

Lemma set_delayTimer_id c : set_delayTimer (delayTimer c) c = c.
Proof. by destruct c. Qed.

Lemma set_soundTimer_id c : set_soundTimer (soundTimer c) c = c.
Proof. by destruct c. Qed.

Lemma delay_ticks k : forall c8,
  running c8 = true -> 0 <= delayTimer c8 < 256 ->
  runLoop (replicate k DelayTick) c8
  = Some (set_delayTimer (Z.max 0 (delayTimer c8 - Z.of_nat k)) c8).
Proof.
  induction k as [|k IH]; intros c8 Hrun Hdt.
  - replace (Z.max 0 (delayTimer c8 - Z.of_nat 0)) with (delayTimer c8) by lia.
    rewrite set_delayTimer_id. simpl. by rewrite Hrun.
  - cbn [replicate runLoop onEvent]. rewrite Hrun.
    unfold mbind, option_bind. cbv beta iota.
    destruct (Z.gtb_spec (delayTimer c8) 0) as [Hpos|Hzero].
    + rewrite IH by first [exact Hrun | (simpl; rewrite u8_small; lia)].
      rewrite u8_small by lia.
      replace (Z.max 0 (delayTimer c8 - Z.of_nat (S k)))
        with (Z.max 0 (delayTimer c8 - 1 - Z.of_nat k)) by lia.
      reflexivity.
    + rewrite IH by assumption.
      replace (Z.max 0 (delayTimer c8 - Z.of_nat (S k)))
        with (Z.max 0 (delayTimer c8 - Z.of_nat k)) by lia.
      reflexivity.
Qed.

Lemma sound_ticks k : forall c8,
  running c8 = true -> 0 <= soundTimer c8 < 256 ->
  runLoop (replicate k SoundTick) c8
  = Some (set_soundTimer (Z.max 0 (soundTimer c8 - Z.of_nat k)) c8).
Proof.
  induction k as [|k IH]; intros c8 Hrun Hst.
  - replace (Z.max 0 (soundTimer c8 - Z.of_nat 0)) with (soundTimer c8) by lia.
    rewrite set_soundTimer_id. simpl. by rewrite Hrun.
  - cbn [replicate runLoop onEvent]. rewrite Hrun.
    unfold mbind, option_bind. cbv beta iota.
    destruct (Z.gtb_spec (soundTimer c8) 0) as [Hpos|Hzero].
    + rewrite IH by first [exact Hrun | (simpl; rewrite u8_small; lia)].
      rewrite u8_small by lia.
      replace (Z.max 0 (soundTimer c8 - Z.of_nat (S k)))
        with (Z.max 0 (soundTimer c8 - 1 - Z.of_nat k)) by lia.
      reflexivity.
    + rewrite IH by assumption.
      replace (Z.max 0 (soundTimer c8 - Z.of_nat (S k)))
        with (Z.max 0 (soundTimer c8 - Z.of_nat k)) by lia.
      reflexivity.
Qed.

(** X17: k ticks of a timer count it down by k and stop at 0: the run loop
    leaves max(0, t - k) in a delay (sound) timer that held t, and changes
    nothing else. *)
Theorem timer_ticks_count_down_to_zero k c8 :
  running c8 = true -> 0 <= delayTimer c8 < 256 -> 0 <= soundTimer c8 < 256 ->
  runLoop (replicate k DelayTick) c8
  = Some (set_delayTimer (Z.max 0 (delayTimer c8 - Z.of_nat k)) c8) /\
  runLoop (replicate k SoundTick) c8
  = Some (set_soundTimer (Z.max 0 (soundTimer c8 - Z.of_nat k)) c8).
Proof. intros Hrun Hdt Hst. split; [by apply delay_ticks | by apply sound_ticks]. Qed.

Lemma timer_ticks_count_down_to_zero_witness :
  runLoop (replicate 5%nat DelayTick) (timerMachine 3 200)
  = Some (set_delayTimer (Z.max 0 (delayTimer (timerMachine 3 200) - Z.of_nat 5%nat)) (timerMachine 3 200)) /\
  runLoop (replicate 5%nat SoundTick) (timerMachine 3 200)
  = Some (set_soundTimer (Z.max 0 (soundTimer (timerMachine 3 200) - Z.of_nat 5%nat)) (timerMachine 3 200)).
Proof.
  apply (timer_ticks_count_down_to_zero 5 (timerMachine 3 200)).
  - reflexivity.
  - simpl. lia.
  - simpl. lia.
Defined.


(** X18: a program that sets the delay timer from VX with [FX15] and reads it
    back into VZ with [FZ07] after k timer ticks finds max(0, VX - k). *)
Theorem delay_timer_round_trip k c8 v readOp :
  wf c8 -> running c8 = true -> load (registers c8) (opX c8) = Some v ->
  exists c1 c2 c3,
    opFX15 c8 = Some c1 /\
    runLoop (replicate k DelayTick) c1 = Some c2 /\
    opFX07 (set_opcode readOp c2) = Some c3 /\
    load (registers c3) (opX (set_opcode readOp c2)) = Some (Z.max 0 (v - Z.of_nat k)).
Proof.
  intros Hwf Hrun Hv. unpack_wf Hwf.
  pose proof (load_Forall _ _ _ _ Hregs_v Hv) as Hv_v. simpl in Hv_v.
  unfold opFX15. rewrite Hv. simpl. eexists; eexists; eexists. split; [reflexivity|].
  rewrite delay_ticks by (simpl; assumption). split; [reflexivity|].
  unfold opFX07.
  rewrite setReg_in_range by (simpl; rewrite Hregs; exact (opX_range _)).
  split; [reflexivity|]. simpl.
  rewrite load_store_eq by (rewrite Hregs; exact (opX_range _)).
  reflexivity.
Qed.

Lemma delay_timer_round_trip_witness :
  exists c1 c2 c3,
    opFX15 (set_running true (regMachine 0xF215 9)) = Some c1 /\
    runLoop (replicate 4%nat DelayTick) c1 = Some c2 /\
    opFX07 (set_opcode 0xF307 c2) = Some c3 /\
    load (registers c3) (opX (set_opcode 0xF307 c2)) = Some (Z.max 0 (9 - Z.of_nat 4%nat)).
Proof.
  apply (delay_timer_round_trip 4 (set_running true (regMachine 0xF215 9)) 9 0xF307).
  - vm_compute. reflexivity.
  - reflexivity.
  - reflexivity.
Defined.


(** X19: a clock tick on which the input capability reports quit still executes
    its cycle, with the keys of that poll, and is the last event handled:
    the rest of the schedule is not consumed and the machine is left not
    running. *)
Theorem runLoop_stops_after_quit keys rnd rest c8 :
  wf c8 -> running c8 = true -> wfKeys keys ->
  runLoop (ClockTick keys true rnd :: rest) c8
  = cycle rnd (set_running false (set_keyPad keys c8)) /\
  forall c', cycle rnd (set_running false (set_keyPad keys c8)) = Some c' ->
             running c' = false /\ keyPad c' = keys.
Proof.
  intros Hwf Hrun Hkeys.
  assert (Hwf1 : wf (set_running false (set_keyPad keys c8)))
    by exact (updateInput_wf keys true c8 Hwf Hkeys).
  assert (Hstop : forall c', cycle rnd (set_running false (set_keyPad keys c8)) = Some c' ->
                             running c' = false /\ keyPad c' = keys).
  { intros c' Hc. destruct (cycle_host_fields _ _ _ Hwf1 Hc) as (Hk & Hr & _). by split. }
  split; [|exact Hstop].
  cbn [runLoop onEvent updateInput]. rewrite Hrun.
  destruct (cycle rnd (set_running false (set_keyPad keys c8))) as [c'|] eqn:Hc; [|reflexivity].
  simpl. destruct (Hstop c' eq_refl) as [Hr _].
  destruct rest; simpl; by rewrite Hr.
Qed.

Lemma runLoop_stops_after_quit_witness :
  runLoop (ClockTick threeKeys true 0 :: [DelayTick; VideoTick]) (set_running true skipMachine)
  = cycle 0 (set_running false (set_keyPad threeKeys (set_running true skipMachine))) /\
  forall c', cycle 0 (set_running false (set_keyPad threeKeys (set_running true skipMachine))) = Some c' ->
             running c' = false /\ keyPad c' = threeKeys.
Proof.
  apply (runLoop_stops_after_quit threeKeys 0 [DelayTick; VideoTick]
           (set_running true skipMachine)).
  - vm_compute. reflexivity.
  - reflexivity.
  - unfold wfKeys, threeKeys. split; [reflexivity|]. repeat constructor; lia.
Defined.


(** ** Waiting for a key *)

Lemma wait_state op c8 :
  0 <= programCounter c8 -> programCounter c8 + 2 <= 4096 ->
  set_programCounter (u16 (programCounter (skip (set_opcode op c8)) - 2))
    (skip (set_opcode op c8))
  = set_opcode op c8.
Proof.
  intros H0 H2.
  assert (Hpc : u16 (programCounter (skip (set_opcode op c8)) - 2) = programCounter c8).
  { unfold skip. cbn [programCounter set_programCounter set_opcode].
    rewrite (u16_small (programCounter c8 + 2)) by lia. rewrite u16_small by lia. lia. }
  rewrite Hpc. by destruct c8.
Qed.

Lemma cycles_waiting rnds : forall c8 op,
  wf c8 -> fetch c8 = Some (set_opcode op c8) -> decodeOpcode (set_opcode op c8) = 0xF00A ->
  (forall k, 0 <= k < 16 -> load (keyPad c8) k = Some 0) ->
  rnds <> [] -> cycles rnds c8 = Some (set_opcode op c8).
Proof.
  induction rnds as [|rnd rest IH]; intros c8 op Hwf Hf Hd Hnone Hne; [congruence|].
  cbn [cycles].
  assert (Hstep : cycle rnd c8 = Some (set_opcode op c8)).
  { destruct (fetch_inv _ _ Hwf Hf) as (op' & _ & Hpc2). unpack_wf Hwf.
    rewrite (cycle_dispatch rnd c8 _ opFX0A Hf) by (rewrite Hd; reflexivity).
    rewrite opFX0A_none_pressed by assumption. f_equal. apply wait_state; lia. }
  rewrite Hstep. simpl. destruct rest as [|rnd' rest']; [reflexivity|].
  assert (Hwf' : wf (set_opcode op c8)) by (eapply cycle_wf; eauto).
  assert (Hf' : fetch (set_opcode op c8) = Some (set_opcode op (set_opcode op c8)))
    by exact (fetch_cong c8 (set_opcode op c8) _ eq_refl eq_refl Hf).
  exact (IH (set_opcode op c8) op Hwf' Hf' Hd Hnone ltac:(discriminate)).
Qed.

(** X20: while no key is pressed, a machine at a wait-for-key instruction
    stays there: any positive number of cycles leaves it exactly as the
    first one did, with the opcode latched and every other field,
    the program counter included, as before. *)
Theorem wait_for_key_is_a_fixed_point rnds c8 c1 :
  wf c8 -> fetch c8 = Some c1 -> decodeOpcode c1 = 0xF00A ->
  (forall k, 0 <= k < 16 -> load (keyPad c8) k = Some 0) ->
  rnds <> [] ->
  cycles rnds c8 = Some c1 /\ programCounter c1 = programCounter c8 /\
  registers c1 = registers c8 /\ memory c1 = memory c8 /\ display c1 = display c8.
Proof.
  intros Hwf Hf Hd Hnone Hne.
  destruct (fetch_inv _ _ Hwf Hf) as (op & -> & _).
  split; [by apply cycles_waiting|]. repeat split.
Qed.

Lemma wait_for_key_is_a_fixed_point_witness :
  cycles [0; 0; 0] (waitKeyMachine noKeys) = Some (set_opcode 0xF30A (waitKeyMachine noKeys)) /\ programCounter (set_opcode 0xF30A (waitKeyMachine noKeys)) = programCounter (waitKeyMachine noKeys) /\
  registers (set_opcode 0xF30A (waitKeyMachine noKeys)) = registers (waitKeyMachine noKeys) /\ memory (set_opcode 0xF30A (waitKeyMachine noKeys)) = memory (waitKeyMachine noKeys) /\ display (set_opcode 0xF30A (waitKeyMachine noKeys)) = display (waitKeyMachine noKeys).
Proof.
  apply (wait_for_key_is_a_fixed_point [0; 0; 0] (waitKeyMachine noKeys)
           (set_opcode 0xF30A (waitKeyMachine noKeys))).
  - vm_compute. reflexivity.
  - vm_compute. reflexivity.
  - reflexivity.
  - intros k Hk. unfold load, waitKeyMachine, noKeys. cbn [keyPad set_keyPad].
    apply lookup_replicate_2. lia.
  - discriminate.
Defined.


(** ** The bounds of the call stack *)

(** X21: the call stack has 16 slots and nothing but the bounds check of the
    array access guards them: [2NNN] panics exactly when the stack pointer
    is 16 or more, and [00EE] exactly when it is 0, where the decrement
    wraps to 255, or more than 16. *)
Theorem call_stack_bounds c8 :
  wf c8 ->
  (op2NNN c8 = None <-> 16 <= stackPointer c8) /\
  (op00EE c8 = None <-> stackPointer c8 = 0 \/ 16 < stackPointer c8).
Proof.
  intros Hwf. unpack_wf Hwf. split.
  - split.
    + intros Hnone. destruct (Z.le_gt_cases 16 (stackPointer c8)) as [Hge|Hlt]; [exact Hge|].
      rewrite op2NNN_in_range in Hnone by lia. discriminate.
    + intros Hge. unfold op2NNN. rewrite store_out_of_range by lia. reflexivity.
  - split.
    + intros Hnone.
      destruct (Z.eq_dec (stackPointer c8) 0) as [Hz|Hnz]; [by left|].
      destruct (Z.le_gt_cases (stackPointer c8) 16) as [Hle|Hgt]; [|by right].
      destruct (op00EE_in_range c8) as (a & _ & Hret); [lia | lia |].
      rewrite Hret in Hnone. discriminate.
    + intros Hout. unfold op00EE.
      cbn [callStack stackPointer set_stackPointer].
      rewrite load_out_of_range; [reflexivity|]. rewrite Hcs.
      destruct Hout as [Hz|Hgt].
      * rewrite Hz. change (u8 (0 - 1)) with 255. lia.
      * rewrite u8_small by lia. lia.
Qed.

Lemma call_stack_bounds_witness :
  (op2NNN (callMachine 16) = None <-> 16 <= stackPointer (callMachine 16)) /\
  (op00EE (callMachine 16) = None <->
   stackPointer (callMachine 16) = 0 \/ 16 < stackPointer (callMachine 16)).
Proof.
  apply (call_stack_bounds (callMachine 16)). vm_compute. reflexivity.
Defined.

(** ** Immediate add and random number *)

(** X22: [7XKK] leaves the low byte of VX + KK in VX and writes no flag: every
    other register, VF included, keeps its value also when the sum does
    not fit a byte. *)
Theorem op7XKK_wraps_without_carry c8 vx :
  wf c8 -> load (registers c8) (opX c8) = Some vx ->
  exists regs',
    op7XKK c8 = Some (set_registers regs' c8) /\
    load regs' (opX c8) = Some ((vx + opKK c8) mod 256) /\
    (forall k, 0 <= k -> k <> opX c8 -> load regs' k = load (registers c8) k).
Proof.
  intros Hwf Hx. unpack_wf Hwf. pose proof (opX_range c8) as HX.
  unfold op7XKK. rewrite Hx. simpl.
  rewrite setReg_in_range by lia.
  eexists; split; [reflexivity|]. split.
  - apply load_store_eq. lia.
  - intros k Hk Hne. apply load_store_ne; lia.
Qed.

Lemma op7XKK_wraps_without_carry_witness :
  exists regs',
    op7XKK (flagMachine 0x71FF 2 0 1) = Some (set_registers regs' (flagMachine 0x71FF 2 0 1)) /\
    load regs' (opX (flagMachine 0x71FF 2 0 1))
    = Some ((2 + opKK (flagMachine 0x71FF 2 0 1)) mod 256) /\
    (forall k, 0 <= k -> k <> opX (flagMachine 0x71FF 2 0 1) ->
               load regs' k = load (registers (flagMachine 0x71FF 2 0 1)) k).
Proof.
  apply (op7XKK_wraps_without_carry (flagMachine 0x71FF 2 0 1) 2).
  - vm_compute. reflexivity.
  - reflexivity.
Defined.

(** X23: [CXKK] leaves in VX the random byte masked with KK: a value with no
    bit outside KK, so at most KK and at most the random byte, whatever
    the generator returns; with KK = 0xFF it is the random byte itself and
    with KK = 0 it is 0.  No other register is written. *)
Theorem opCXKK_masks_the_random_byte rnd c8 :
  wf c8 ->
  exists regs' v,
    opCXKK rnd c8 = Some (set_registers regs' c8) /\
    load regs' (opX c8) = Some v /\
    (forall i, 0 <= i -> Z.testbit v i = Z.testbit (rnd mod 256) i && Z.testbit (opKK c8) i) /\
    0 <= v <= opKK c8 /\ v <= rnd mod 256 /\
    (opKK c8 = 0xFF -> v = rnd mod 256) /\ (opKK c8 = 0 -> v = 0) /\
    (forall k, 0 <= k -> k <> opX c8 -> load regs' k = load (registers c8) k).
Proof.
  intros Hwf. unpack_wf Hwf. pose proof (opX_range c8) as HX.
  pose proof (opKK_range c8) as HKK.
  assert (Hrnd : 0 <= rnd mod 256 < 256) by (apply Z.mod_pos_bound; lia).
  unfold opCXKK. rewrite setReg_in_range by lia. unfold u8 at 1.
  eexists; eexists; split; [reflexivity|].
  split; [apply load_store_eq; lia|].
  split; [intros i Hi; apply Z.land_spec|].
  split; [split; [apply Z.land_nonneg; lia | apply land_le; lia]|].
  split; [rewrite Z.land_comm; apply land_le; lia|].
  split; [intros ->; rewrite land_FF; apply Z.mod_small; exact Hrnd|].
  split; [intros ->; apply Z.land_0_r|].
  intros k Hk Hne. apply load_store_ne; lia.
Qed.

Lemma opCXKK_masks_the_random_byte_witness :
  exists regs' v,
    opCXKK 0x1A5 (aluMachine 0xC10F 0 0) = Some (set_registers regs' (aluMachine 0xC10F 0 0)) /\
    load regs' (opX (aluMachine 0xC10F 0 0)) = Some v /\
    (forall i, 0 <= i ->
       Z.testbit v i = Z.testbit (0x1A5 mod 256) i && Z.testbit (opKK (aluMachine 0xC10F 0 0)) i) /\
    0 <= v <= opKK (aluMachine 0xC10F 0 0) /\ v <= 0x1A5 mod 256 /\
    (opKK (aluMachine 0xC10F 0 0) = 0xFF -> v = 0x1A5 mod 256) /\
    (opKK (aluMachine 0xC10F 0 0) = 0 -> v = 0) /\
    (forall k, 0 <= k -> k <> opX (aluMachine 0xC10F 0 0) ->
               load regs' k = load (registers (aluMachine 0xC10F 0 0)) k).
Proof.
  apply (opCXKK_masks_the_random_byte 0x1A5 (aluMachine 0xC10F 0 0)).
  vm_compute. reflexivity.
Defined.

(** ** Drawing twice *)

Lemma grid_ext (d d' : list (list bool)) :
  dims d -> dims d' ->
  (forall r c, 0 <= r < 32 -> 0 <= c < 64 -> lit d r c = lit d' r c) -> d = d'.
Proof.
  intros [Hlen Hrows] [Hlen' Hrows'] Hlit. apply list_eq. intros i.
  destruct (decide (i < 32)%nat) as [Hi|Hi].
  - destruct (lookup_lt_is_Some_2 d i) as [row Hrow]; [lia|].
    destruct (lookup_lt_is_Some_2 d' i) as [row' Hrow']; [lia|].
    rewrite Hrow, Hrow'. f_equal.
    pose proof (Forall_lookup_1 _ _ _ _ Hrows Hrow) as Hw. simpl in Hw.
    pose proof (Forall_lookup_1 _ _ _ _ Hrows' Hrow') as Hw'. simpl in Hw'.
    apply list_eq. intros j.
    destruct (decide (j < 64)%nat) as [Hj|Hj].
    + destruct (lookup_lt_is_Some_2 row j) as [cell Hcell]; [lia|].
      destruct (lookup_lt_is_Some_2 row' j) as [cell' Hcell']; [lia|].
      specialize (Hlit (Z.of_nat i) (Z.of_nat j) ltac:(lia) ltac:(lia)).
      unfold lit, pixelAt, load in Hlit. rewrite !Nat2Z.id in Hlit.
      rewrite Hrow, Hrow' in Hlit. simpl in Hlit. rewrite Hcell, Hcell' in Hlit.
      simpl in Hlit. by rewrite Hcell, Hcell', Hlit.
    + rewrite !lookup_ge_None_2 by lia. reflexivity.
  - rewrite !lookup_ge_None_2 by lia. reflexivity.
Qed.

(** What [DXYN] leaves in the frame buffer, cell by cell. *)
Lemma opDXYN_lit c8 x y :
  wf c8 ->
  load (registers c8) (opX c8) = Some x -> load (registers c8) (opY c8) = Some y ->
  (forall j, 0 <= j < opN c8 -> indexRegister c8 + j < 4096) ->
  exists regs' d',
    opDXYN c8 = Some (set_display d' (set_registers regs' c8)) /\
    dims d' /\
    (forall k, 0 <= k < 0xF -> load regs' k = load (registers c8) k) /\
    (forall r c, 0 <= r < 32 -> 0 <= c < 64 ->
       lit d' r c
       = xorb (lit (display c8) r c) (spriteCovers c8 x y 0 (Z.to_nat (opN c8)) r c)).
Proof.
  intros Hwf Hx Hy Hfit. unpack_wf Hwf. pose proof (opN_range c8) as HN.
  unfold opDXYN. rewrite Hx. simpl. rewrite Hy. simpl.
  rewrite setReg_in_range by lia. simpl.
  set (s0 := set_registers (<[Z.to_nat 15 := 0]> (registers c8)) c8).
  assert (Hdims : dims (display s0)) by (split; assumption).
  assert (Hregs0 : length (registers s0) = 16%nat)
    by (subst s0; simpl; by rewrite length_insert).
  destruct (drawSprite_loop x y (Z.to_nat (opN c8)) 0 s0 Hdims Hregs0 Hmem
              ltac:(apply Hidx) ltac:(lia) ltac:(lia)
              ltac:(intros j Hj; change (indexRegister s0) with (indexRegister c8);
                    apply Hfit; lia))
    as (regs' & d' & Hrun & Hd' & Hlen' & Hkeep & _ & Hlit).
  change (opN s0) with (opN c8). rewrite Hrun.
  exists regs', d'. split; [reflexivity|]. split; [exact Hd'|]. split.
  - intros k Hk. rewrite Hkeep by lia.
    change (registers s0) with (<[Z.to_nat 15 := 0]> (registers c8)).
    apply load_store_ne; lia.
  - exact Hlit.
Qed.

(** X24: drawing is its own inverse: executing the same [DXYN] twice, with X
    and Y below 0xF and the sprite inside memory, leaves the frame buffer
    exactly as it was before the first, and V0..VE as they were. *)
Theorem drawing_twice_restores_the_frame c8 x y :
  wf c8 ->
  load (registers c8) (opX c8) = Some x -> load (registers c8) (opY c8) = Some y ->
  opX c8 <> 0xF -> opY c8 <> 0xF ->
  (forall j, 0 <= j < opN c8 -> indexRegister c8 + j < 4096) ->
  exists c1 c2,
    opDXYN c8 = Some c1 /\ opDXYN c1 = Some c2 /\
    display c2 = display c8 /\
    (forall k, 0 <= k < 0xF -> load (registers c2) k = load (registers c8) k).
Proof.
  intros Hwf Hx Hy HXF HYF Hfit.
  pose proof (opX_range c8) as HX. pose proof (opY_range c8) as HY.
  destruct (opDXYN_lit c8 x y Hwf Hx Hy Hfit) as (regs1 & d1 & Hrun1 & Hd1 & Hkeep1 & Hlit1).
  set (c1 := set_display d1 (set_registers regs1 c8)) in *.
  assert (Hwf1 : wf c1) by exact (proj1 (opDXYN_confined c8 c1 Hwf Hrun1)).
  assert (Hx1 : load (registers c1) (opX c1) = Some x)
    by (change (load regs1 (opX c8) = Some x); rewrite Hkeep1 by lia; exact Hx).
  assert (Hy1 : load (registers c1) (opY c1) = Some y)
    by (change (load regs1 (opY c8) = Some y); rewrite Hkeep1 by lia; exact Hy).
  destruct (opDXYN_lit c1 x y Hwf1 Hx1 Hy1 Hfit) as (regs2 & d2 & Hrun2 & Hd2 & Hkeep2 & Hlit2).
  exists c1, (set_display d2 (set_registers regs2 c1)).
  split; [exact Hrun1|]. split; [exact Hrun2|].
  cbn [display registers set_display set_registers]. split.
  - unpack_wf Hwf. apply grid_ext; [exact Hd2 | by split |].
    intros r c Hr Hc. rewrite Hlit2 by assumption.
    change (display c1) with d1. rewrite Hlit1 by assumption.
    change (spriteCovers c1 x y 0 (Z.to_nat (opN c1)) r c)
      with (spriteCovers c8 x y 0 (Z.to_nat (opN c8)) r c).
    by destruct (lit (display c8) r c), (spriteCovers c8 x y 0 (Z.to_nat (opN c8)) r c).
  - intros k Hk. rewrite Hkeep2 by assumption. change (registers c1) with regs1.
    by apply Hkeep1.
Qed.

Lemma drawing_twice_restores_the_frame_witness :
  exists c1 c2,
    opDXYN (drawMachine 0x300) = Some c1 /\ opDXYN c1 = Some c2 /\
    display c2 = display (drawMachine 0x300) /\
    (forall k, 0 <= k < 0xF ->
               load (registers c2) k = load (registers (drawMachine 0x300)) k).
Proof.
  apply (drawing_twice_restores_the_frame (drawMachine 0x300) 62 31).
  - vm_compute. reflexivity.
  - reflexivity.
  - reflexivity.
  - vm_compute. discriminate.
  - vm_compute. discriminate.
  - intros j Hj. change (opN (drawMachine 0x300)) with 2 in Hj.
    change (indexRegister (drawMachine 0x300)) with 0x300. lia.
Defined.
